(** * Cross-chain bridge core: asset registry, bridge facade, security
      policy and route optimizer

    A shallow embedding of the TypeScript sources

      - [src/bridges/AssetManager.ts]   (classes [AssetManager] and [MasterBridge])
      - [src/bridges/Validator.ts]
      - [src/bridges/avalanche/AvalancheBridge.ts]
      - [AvalancheCeloBridge], over the repository's [AssetManager] and
        [Validator] as its injected asset manager and validator
      - [src/security/SecurityManager.ts]
      - [src/optimizer/CrossChainOptimizer.ts]
      - [SkaleOptimizer] (the batching loop)

    Every class is a record holding its private fields; every method is a
    computation in a state-and-exception monad over that record, so that
    what a method leaves behind when it throws is something to be proved.
    [Date.now()] and the answers of the chain provider are explicit inputs
    of the methods that read them.  [bigint] is [Z]; the [number]s of the
    optimizer are IEEE-754 binary64 values. *)

From Stdlib Require Import ZArith List String Ascii Bool Lia SpecFloat.
From stdpp Require Import gmap strings list fin_maps pretty.

Open Scope Z_scope.

(** ** Errors, outcomes and the method monad *)

(** The error classes of [src/types/index.ts], plus the untyped JavaScript
    [Error] thrown by library code. *)
Inductive Error : Type :=
  | BridgeError (message : string)
  | ValidationError (message : string)
  | AssetError (message : string)
  | SecurityError (message : string)
  | JsError (message : string)
  | NotAnError (value : string).

(** [error instanceof Error ? error.message : 'Unknown error'] *)
Definition errorMessage (e : Error) : string :=
  match e with
  | BridgeError m | ValidationError m | AssetError m
  | SecurityError m | JsError m => m
  | NotAnError _ => "Unknown error"
  end.

Inductive outcome (A : Type) : Type :=
  | Returned (a : A)
  | Threw (e : Error).
Arguments Returned {A} a.
Arguments Threw {A} e.

(** A method of a class with fields [S]: it receives the object, and hands
    back how it ended together with the object as it left it. *)
Definition M (S A : Type) : Type := S -> outcome A * S.

Definition ret {S A} (a : A) : M S A := fun s => (Returned a, s).
Definition throw {S A} (e : Error) : M S A := fun s => (Threw e, s).
Definition bind {S A B} (c : M S A) (k : A -> M S B) : M S B :=
  fun s => match c s with
           | (Returned a, s') => k a s'
           | (Threw e, s') => (Threw e, s')
           end.
Definition get {S} : M S S := fun s => (Returned s, s).
Definition modify {S} (f : S -> S) : M S unit := fun s => (Returned tt, f s).

Notation "x <- c ;; k" := (bind c (fun x => k))
  (at level 100, c at next level, right associativity).
Notation "c ;;; k" := (bind c (fun _ => k))
  (at level 100, right associativity).

(** [try { c } catch (error) { h error }]: what [c] did to the object before
    it threw stays done. *)
Definition try_catch {S A} (c : M S A) (h : Error -> M S A) : M S A :=
  fun s => match c s with
           | (Returned a, s') => (Returned a, s')
           | (Threw e, s') => h e s'
           end.

(** The result of a call that does not touch the object. *)
Definition lift {S A} (r : outcome A) : M S A := fun s => (r, s).

Definition obind {A B} (r : outcome A) (k : A -> outcome B) : outcome B :=
  match r with
  | Returned a => k a
  | Threw e => Threw e
  end.

Definition succeeded {S A} (r : outcome A * S) : bool :=
  match r with (Returned _, _) => true | (Threw _, _) => false end.

(** ** Data structures of [src/types/index.ts] *)

Inductive TransactionStatus : Type :=
  | PENDING | LOCKED | MINTED | BURNED | UNLOCKED | FAILED | CANCELLED.

Definition TransactionStatus_eqb (a b : TransactionStatus) : bool :=
  match a, b with
  | PENDING, PENDING | LOCKED, LOCKED | MINTED, MINTED | BURNED, BURNED
  | UNLOCKED, UNLOCKED | FAILED, FAILED | CANCELLED, CANCELLED => true
  | _, _ => false
  end.

(** The success states of the ledger. *)
Definition is_success (st : TransactionStatus) : bool :=
  match st with
  | LOCKED | MINTED | BURNED | UNLOCKED => true
  | _ => false
  end.

(** The record the bridges store per hash (the shape the bridges build and
    [dist/types/index.d.ts] declares). *)
Record Transaction : Type := mkTransaction {
  tx_symbol : string;
  tx_amount : Z;
  tx_sender : string;
  tx_recipient : string;
  tx_sourceChain : string;
  tx_targetChain : string;
  tx_timestamp : Z;
  tx_status : TransactionStatus;
  tx_validatorSignatures : list string
}.

Definition set_status (st : TransactionStatus) (t : Transaction) : Transaction :=
  mkTransaction (tx_symbol t) (tx_amount t) (tx_sender t) (tx_recipient t)
    (tx_sourceChain t) (tx_targetChain t) (tx_timestamp t) st
    (tx_validatorSignatures t).

Definition set_validatorSignatures (sigs : list string) (t : Transaction)
  : Transaction :=
  mkTransaction (tx_symbol t) (tx_amount t) (tx_sender t) (tx_recipient t)
    (tx_sourceChain t) (tx_targetChain t) (tx_timestamp t) (tx_status t) sigs.

Record ValidatorInfo : Type := mkValidatorInfo {
  validatorAddress : string;
  stakeAmount : Z;
  v_isActive : bool;
  lastValidation : Z;
  slashedAmount : Z
}.

Record AssetInfo : Type := mkAssetInfo {
  tokenAddress : string;
  symbol : string;
  decimals : Z;
  lockedAmount : Z;
  mintedAmount : Z;
  isActive : bool;
  lastUpdate : Z
}.

Definition set_lockedAmount (v : Z) (a : AssetInfo) : AssetInfo :=
  mkAssetInfo (tokenAddress a) (symbol a) (decimals a) v (mintedAmount a)
    (isActive a) (lastUpdate a).
Definition set_mintedAmount (v : Z) (a : AssetInfo) : AssetInfo :=
  mkAssetInfo (tokenAddress a) (symbol a) (decimals a) (lockedAmount a) v
    (isActive a) (lastUpdate a).
Definition set_lastUpdate (v : Z) (a : AssetInfo) : AssetInfo :=
  mkAssetInfo (tokenAddress a) (symbol a) (decimals a) (lockedAmount a)
    (mintedAmount a) (isActive a) v.

(** The object literal both registries store on registration. *)
Definition fresh_asset (sym addr : string) (now : Z) : AssetInfo :=
  mkAssetInfo addr sym 18 0 0 true now.

(** ** The asset registry: class [AssetManager] of [bridges/AssetManager.ts] *)

Module AssetManager.

Record t : Type := mk {
  assets : gmap string AssetInfo;
  tokenAddresses : gmap string string
}.

Definition empty : t := mk ∅ ∅.

Definition registerAsset (sym addr : string) (now : Z) : M t unit :=
  this <- get ;;
  if bool_decide (is_Some (assets this !! sym)) then
    throw (AssetError ("Asset " +:+ sym +:+ " already registered"))
  else if bool_decide (is_Some (tokenAddresses this !! addr)) then
    throw (AssetError ("Token address " +:+ addr +:+ " already registered"))
  else
    modify (fun s => mk (<[sym := fresh_asset sym addr now]> (assets s))
                        (tokenAddresses s)) ;;;
    modify (fun s => mk (assets s) (<[addr := sym]> (tokenAddresses s))).

Definition unregisterAsset (sym : string) : M t unit :=
  this <- get ;;
  match assets this !! sym with
  | None => throw (AssetError ("Asset " +:+ sym +:+ " not registered"))
  | Some asset =>
      modify (fun s => mk (delete sym (assets s)) (tokenAddresses s)) ;;;
      modify (fun s => mk (assets s)
                          (delete (tokenAddress asset) (tokenAddresses s)))
  end.

Definition isAssetRegistered (sym : string) : M t bool :=
  this <- get ;; ret (bool_decide (is_Some (assets this !! sym))).

Definition getAssetAddress (sym : string) : M t string :=
  this <- get ;;
  match assets this !! sym with
  | None => throw (AssetError ("Asset " +:+ sym +:+ " not registered"))
  | Some asset => ret (tokenAddress asset)
  end.

Definition getLockedBalance (sym : string) : M t Z :=
  this <- get ;;
  match assets this !! sym with
  | None => throw (AssetError ("Asset " +:+ sym +:+ " not registered"))
  | Some asset => ret (lockedAmount asset)
  end.

Definition getMintedBalance (sym : string) : M t Z :=
  this <- get ;;
  match assets this !! sym with
  | None => throw (AssetError ("Asset " +:+ sym +:+ " not registered"))
  | Some asset => ret (mintedAmount asset)
  end.

Definition getTotalSupply (sym : string) : M t Z :=
  this <- get ;;
  match assets this !! sym with
  | None => throw (AssetError ("Asset " +:+ sym +:+ " not registered"))
  | Some asset => ret (lockedAmount asset + mintedAmount asset)
  end.

(** [if (!symbol)]: the empty symbol is falsy, like a missing entry. *)
Definition getAssetSymbol (addr : string) : M t string :=
  this <- get ;;
  match tokenAddresses this !! addr with
  | None | Some EmptyString =>
      throw (AssetError ("Token address " +:+ addr +:+ " not registered"))
  | Some sym => ret sym
  end.

End AssetManager.

(** ** The bridge facade: class [MasterBridge] of [bridges/AssetManager.ts] *)

Module MasterBridge.

Record t : Type := mk {
  initialized : bool;
  bridgeId : string;
  validators : gmap string ValidatorInfo;
  assets : gmap string AssetInfo;
  transactions : gmap string Transaction;
  paused : bool
}.

(** [new MasterBridge(bridgeId)] *)
Definition new (id : string) : t := mk false id ∅ ∅ ∅ false.

Definition with_initialized (b : bool) (s : t) : t :=
  mk b (bridgeId s) (validators s) (assets s) (transactions s) (paused s).
Definition with_validators (v : gmap string ValidatorInfo) (s : t) : t :=
  mk (initialized s) (bridgeId s) v (assets s) (transactions s) (paused s).
Definition with_assets (a : gmap string AssetInfo) (s : t) : t :=
  mk (initialized s) (bridgeId s) (validators s) a (transactions s) (paused s).
Definition with_transactions (x : gmap string Transaction) (s : t) : t :=
  mk (initialized s) (bridgeId s) (validators s) (assets s) x (paused s).
Definition with_paused (b : bool) (s : t) : t :=
  mk (initialized s) (bridgeId s) (validators s) (assets s) (transactions s) b.

(** A field assignment [asset.f = v] on the object stored under [sym]: the
    map holds the object itself, so the entry changes in place. *)
Definition assign_asset (sym : string) (f : AssetInfo -> AssetInfo) : M t unit :=
  modify (fun s => with_assets (alter f sym (assets s)) s).

Definition assign_transaction (h : string) (f : Transaction -> Transaction)
  : M t unit :=
  modify (fun s => with_transactions (alter f h (transactions s)) s).

Definition not_registered (sym : string) : Error :=
  BridgeError ("Asset " +:+ sym +:+ " not registered").
Definition bridge_paused : Error := BridgeError "Bridge is paused".

(** *** Bridge management *)

Definition initialize : M t unit :=
  this <- get ;;
  if initialized this then throw (BridgeError "Bridge already initialized")
  else modify (with_initialized true).

Definition isInitialized : M t bool := this <- get ;; ret (initialized this).
Definition getBridgeId : M t string := this <- get ;; ret (bridgeId this).

(** *** Asset management *)

Definition registerAsset (sym addr : string) (now : Z) : M t unit :=
  this <- get ;;
  if paused this then throw bridge_paused
  else if bool_decide (is_Some (assets this !! sym)) then
    throw (BridgeError ("Asset " +:+ sym +:+ " already registered"))
  else
    modify (fun s => with_assets (<[sym := fresh_asset sym addr now]> (assets s)) s).

Definition unregisterAsset (sym : string) : M t unit :=
  this <- get ;;
  if paused this then throw bridge_paused
  else if negb (bool_decide (is_Some (assets this !! sym))) then
    throw (not_registered sym)
  else
    modify (fun s => with_assets (delete sym (assets s)) s).

Definition isAssetSupported (sym : string) : M t bool :=
  this <- get ;; ret (bool_decide (is_Some (assets this !! sym))).

(** *** Cross-chain operations *)

Definition lockTokens (sym : string) (amount now : Z) : M t unit :=
  this <- get ;;
  if paused this then throw bridge_paused
  else match assets this !! sym with
       | None => throw (not_registered sym)
       | Some asset =>
           assign_asset sym (fun a => set_lockedAmount (lockedAmount a + amount) a) ;;;
           assign_asset sym (set_lastUpdate now)
       end.

Definition unlockTokens (sym : string) (amount now : Z) : M t unit :=
  this <- get ;;
  if paused this then throw bridge_paused
  else match assets this !! sym with
       | None => throw (not_registered sym)
       | Some asset =>
           if lockedAmount asset <? amount then
             throw (BridgeError ("Insufficient locked amount for " +:+ sym))
           else
             assign_asset sym (fun a => set_lockedAmount (lockedAmount a - amount) a) ;;;
             assign_asset sym (set_lastUpdate now)
       end.

Definition mintTokens (sym : string) (amount now : Z) : M t unit :=
  this <- get ;;
  if paused this then throw bridge_paused
  else match assets this !! sym with
       | None => throw (not_registered sym)
       | Some asset =>
           assign_asset sym (fun a => set_mintedAmount (mintedAmount a + amount) a) ;;;
           assign_asset sym (set_lastUpdate now)
       end.

Definition burnTokens (sym : string) (amount now : Z) : M t unit :=
  this <- get ;;
  if paused this then throw bridge_paused
  else match assets this !! sym with
       | None => throw (not_registered sym)
       | Some asset =>
           if mintedAmount asset <? amount then
             throw (BridgeError ("Insufficient minted amount for " +:+ sym))
           else
             assign_asset sym (fun a => set_mintedAmount (mintedAmount a - amount) a) ;;;
             assign_asset sym (set_lastUpdate now)
       end.

(** *** Transaction management *)

Definition getTransactionStatus (h : string) : M t TransactionStatus :=
  this <- get ;;
  match transactions this !! h with
  | None => throw (BridgeError ("Transaction " +:+ h +:+ " not found"))
  | Some transaction => ret (tx_status transaction)
  end.

Definition processTransaction (h : string) : M t unit :=
  this <- get ;;
  if paused this then throw bridge_paused
  else match transactions this !! h with
       | None => throw (BridgeError ("Transaction " +:+ h +:+ " not found"))
       | Some transaction =>
           if negb (TransactionStatus_eqb (tx_status transaction) PENDING) then
             throw (BridgeError ("Transaction " +:+ h +:+ " is not pending"))
           else
             assign_transaction h (set_status LOCKED)
       end.

(** *** Security features *)

Definition addValidator (validator : string) (now : Z) : M t unit :=
  this <- get ;;
  if paused this then throw bridge_paused
  else if bool_decide (is_Some (validators this !! validator)) then
    throw (BridgeError ("Validator " +:+ validator +:+ " already exists"))
  else
    modify (fun s => with_validators
              (<[validator := mkValidatorInfo validator 0 true now 0]> (validators s)) s).

Definition removeValidator (validator : string) : M t unit :=
  this <- get ;;
  if paused this then throw bridge_paused
  else if negb (bool_decide (is_Some (validators this !! validator))) then
    throw (BridgeError ("Validator " +:+ validator +:+ " not found"))
  else
    modify (fun s => with_validators (delete validator (validators s)) s).

Definition isValidator (account : string) : M t bool :=
  this <- get ;; ret (bool_decide (is_Some (validators this !! account))).

(** *** Emergency functions *)

Definition pause : M t unit := modify (with_paused true).
Definition unpause : M t unit := modify (with_paused false).

Definition emergencyWithdraw (sym : string) (now : Z) : M t unit :=
  this <- get ;;
  match assets this !! sym with
  | None => throw (not_registered sym)
  | Some asset =>
      assign_asset sym (set_lockedAmount 0) ;;;
      assign_asset sym (set_mintedAmount 0) ;;;
      assign_asset sym (set_lastUpdate now)
  end.

End MasterBridge.

(** ** The attester: class [Validator] of [bridges/Validator.ts] *)

Module Validator.

Record t : Type := mk {
  validatorAddress : string;
  stakeAmount : Z;
  active : bool;
  lastValidation : Z;
  slashedAmount : Z;
  signatures : gmap string string
}.

(** [new Validator(validatorAddress)], [now] being what [Date.now()] read. *)
Definition new (addr : string) (now : Z) : t := mk addr 0 true now 0 ∅.

Definition with_stakeAmount (x : Z) (s : t) : t :=
  mk (validatorAddress s) x (active s) (lastValidation s) (slashedAmount s)
     (signatures s).
Definition with_active (x : bool) (s : t) : t :=
  mk (validatorAddress s) (stakeAmount s) x (lastValidation s) (slashedAmount s)
     (signatures s).
Definition with_lastValidation (x : Z) (s : t) : t :=
  mk (validatorAddress s) (stakeAmount s) (active s) x (slashedAmount s)
     (signatures s).
Definition with_slashedAmount (x : Z) (s : t) : t :=
  mk (validatorAddress s) (stakeAmount s) (active s) (lastValidation s) x
     (signatures s).
Definition with_signatures (x : gmap string string) (s : t) : t :=
  mk (validatorAddress s) (stakeAmount s) (active s) (lastValidation s)
     (slashedAmount s) x.

Definition not_active : Error := ValidationError "Validator is not active".

Definition validateTransaction (txHash : string) (now : Z) : M t bool :=
  this <- get ;;
  if negb (active this) then throw not_active
  else modify (with_lastValidation now) ;;; ret true.

Definition signTransaction (txHash : string) (now : Z) : M t unit :=
  this <- get ;;
  if negb (active this) then throw not_active
  else
    modify (fun s => with_signatures (<[txHash := "signature"]> (signatures s)) s) ;;;
    modify (with_lastValidation now).

(** [if (!signature)]: an empty signature is falsy, like a missing one. *)
Definition getSignature (txHash : string) : M t string :=
  this <- get ;;
  match signatures this !! txHash with
  | None | Some EmptyString =>
      throw (ValidationError ("No signature found for transaction " +:+ txHash))
  | Some signature => ret signature
  end.

Definition getStakeAmount : M t Z := this <- get ;; ret (stakeAmount this).

Definition slash (validator : string) : M t unit :=
  this <- get ;;
  if negb (bool_decide (validator = validatorAddress this)) then
    throw (ValidationError "Cannot slash other validators")
  else
    modify (fun s => with_slashedAmount (slashedAmount s + stakeAmount s) s) ;;;
    modify (with_stakeAmount 0) ;;;
    modify (with_active false).

Definition getSlashedAmount : M t Z := this <- get ;; ret (slashedAmount this).

(** The calls that can change a validator, and a sequence of them. *)
Inductive Call : Type :=
  | ValidateTransaction (txHash : string) (now : Z)
  | SignTransaction (txHash : string) (now : Z)
  | Slash (validator : string).

Definition call (c : Call) : M t unit :=
  match c with
  | ValidateTransaction h now => validateTransaction h now ;;; ret tt
  | SignTransaction h now => signTransaction h now
  | Slash v => slash v
  end.

Fixpoint run (cs : list Call) (s : t) : t :=
  match cs with
  | [] => s
  | c :: rest => run rest (snd (call c s))
  end.

End Validator.

(** ** What the code calls but does not define

    The [ethers] functions and the [BigInt] parser are pure functions of
    their arguments; the ones that can throw return an [outcome]. *)

Inductive AbiValue : Type :=
  | AbiAddress (a : string)
  | AbiUint (n : Z).

(** The populated call: [tx.to], [tx.from], [tx.data], each possibly absent. *)
Record ContractTransaction : Type := mkContractTransaction {
  ct_to : option string;
  ct_from : option string;
  ct_data : option string
}.

(** [receipt.status] is [null | number]. *)
Record TransactionReceipt : Type := mkReceipt {
  receipt_status : option Z
}.

Record Externals : Type := mkExternals {
  (** [ethers.isAddress] *)
  isAddress : string -> bool;
  (** [ethers.keccak256(ethers.toUtf8Bytes(s))] *)
  keccak256_utf8 : string -> string;
  (** [ethers.keccak256(ethers.getBytes(s))]; [getBytes] throws on a string
      that is not hex data *)
  keccak256_bytes : string -> outcome string;
  (** [ethers.verifyMessage(message, signature)] *)
  verifyMessage : string -> string -> outcome string;
  (** [new ethers.Contract(address, [fragment], provider)] followed by
      [contract.f.populateTransaction(args)] *)
  populateTransaction : string -> string -> list AbiValue -> outcome ContractTransaction;
  (** [BigInt(s)] on a string *)
  BigInt_of_string : string -> outcome Z
}.

(** [x || d] on an optional string: [undefined] and the empty string are falsy. *)
Definition or_else (x : option string) (d : string) : string :=
  match x with
  | Some EmptyString | None => d
  | Some v => v
  end.

(** ** The network adapter: class [AvalancheBridge] *)

Module AvalancheBridge.

Record AvalancheConfig : Type := mkConfig {
  rpcUrl : string;
  chainId : string;
  gasPrice : Z;
  gasLimit : Z
}.

Record AvalancheAsset : Type := mkAsset {
  address : string;
  a_symbol : string;
  a_decimals : Z;
  a_name : string;
  isNative : bool
}.

Record t : Type := mk {
  initialized : bool;
  bridgeId : string;
  config : AvalancheConfig;
  assets : gmap string AvalancheAsset;
  transactions : gmap string Transaction;
  paused : bool
}.

Definition new (id : string) (cfg : AvalancheConfig) : t := mk false id cfg ∅ ∅ false.

Definition with_assets (a : gmap string AvalancheAsset) (s : t) : t :=
  mk (initialized s) (bridgeId s) (config s) a (transactions s) (paused s).
Definition with_transactions (x : gmap string Transaction) (s : t) : t :=
  mk (initialized s) (bridgeId s) (config s) (assets s) x (paused s).
Definition with_paused (b : bool) (s : t) : t :=
  mk (initialized s) (bridgeId s) (config s) (assets s) (transactions s) b.

Definition assign_transaction (h : string) (f : Transaction -> Transaction)
  : M t unit :=
  modify (fun s => with_transactions (alter f h (transactions s)) s).

Definition not_registered (sym : string) : Error :=
  BridgeError ("Asset " +:+ sym +:+ " not registered").
Definition bridge_paused : Error := BridgeError "Bridge is paused".

Definition with_initialized (b : bool) (s : t) : t :=
  mk b (bridgeId s) (config s) (assets s) (transactions s) (paused s).

(** [network] is how [provider.getNetwork()] ended. *)
Definition initialize (network : outcome unit) : M t unit :=
  this <- get ;;
  if initialized this then throw (BridgeError "Bridge already initialized")
  else
    try_catch
      (lift network ;;; modify (with_initialized true))
      (fun error => throw (BridgeError
         ("Failed to initialize Avalanche bridge: " +:+ errorMessage error))).

(** [meta] is what [contract.decimals()] and [contract.name()] answered. *)
Definition registerAsset (sym addr : string) (meta : outcome (Z * string)) : M t unit :=
  this <- get ;;
  if paused this then throw bridge_paused
  else if bool_decide (is_Some (assets this !! sym)) then
    throw (BridgeError ("Asset " +:+ sym +:+ " already registered"))
  else
    try_catch
      (dn <- lift meta ;;
       modify (fun s => with_assets
                 (<[sym := mkAsset addr sym (fst dn) (snd dn) false]> (assets s)) s))
      (fun error => throw (BridgeError
         ("Failed to register asset " +:+ sym +:+ ": " +:+ errorMessage error))).

(** The four cross-chain operations populate the contract call, hash its
    data and file a PENDING record under that hash. *)

Definition lockTokens (E : Externals) (sym : string) (amount now : Z) : M t unit :=
  this <- get ;;
  if paused this then throw bridge_paused
  else match assets this !! sym with
       | None => throw (not_registered sym)
       | Some asset =>
           try_catch
             (tx <- lift (populateTransaction E (address asset)
                            "function transfer(address,uint256) returns (bool)"
                            [AbiAddress (bridgeId this); AbiUint amount]) ;;
              txHash <- lift (keccak256_bytes E (or_else (ct_data tx) "0x")) ;;
              modify (fun s => with_transactions
                        (<[txHash := mkTransaction sym amount
                                       (or_else (ct_from tx) (bridgeId s))
                                       (bridgeId s)
                                       "Avalanche" "" now PENDING []]>
                           (transactions s)) s))
             (fun error => throw (BridgeError
                ("Failed to lock tokens for " +:+ sym +:+ ": "
                   +:+ errorMessage error)))
       end.

Definition unlockTokens (E : Externals) (sym : string) (amount now : Z) : M t unit :=
  this <- get ;;
  if paused this then throw bridge_paused
  else match assets this !! sym with
       | None => throw (not_registered sym)
       | Some asset =>
           try_catch
             (tx <- lift (populateTransaction E (address asset)
                            "function transfer(address,uint256) returns (bool)"
                            [AbiAddress (bridgeId this); AbiUint amount]) ;;
              txHash <- lift (keccak256_bytes E (or_else (ct_data tx) "0x")) ;;
              modify (fun s => with_transactions
                        (<[txHash := mkTransaction sym amount
                                       (bridgeId s)
                                       (or_else (ct_to tx) (bridgeId s))
                                       "Avalanche" "" now PENDING []]>
                           (transactions s)) s))
             (fun error => throw (BridgeError
                ("Failed to unlock tokens for " +:+ sym +:+ ": "
                   +:+ errorMessage error)))
       end.

Definition mintTokens (E : Externals) (sym : string) (amount now : Z) : M t unit :=
  this <- get ;;
  if paused this then throw bridge_paused
  else match assets this !! sym with
       | None => throw (not_registered sym)
       | Some asset =>
           try_catch
             (tx <- lift (populateTransaction E (address asset)
                            "function mint(address,uint256) returns (bool)"
                            [AbiAddress (bridgeId this); AbiUint amount]) ;;
              txHash <- lift (keccak256_bytes E (or_else (ct_data tx) "0x")) ;;
              modify (fun s => with_transactions
                        (<[txHash := mkTransaction sym amount
                                       (bridgeId s)
                                       (or_else (ct_to tx) (bridgeId s))
                                       "Avalanche" "" now PENDING []]>
                           (transactions s)) s))
             (fun error => throw (BridgeError
                ("Failed to mint tokens for " +:+ sym +:+ ": "
                   +:+ errorMessage error)))
       end.

Definition burnTokens (E : Externals) (sym : string) (amount now : Z) : M t unit :=
  this <- get ;;
  if paused this then throw bridge_paused
  else match assets this !! sym with
       | None => throw (not_registered sym)
       | Some asset =>
           try_catch
             (tx <- lift (populateTransaction E (address asset)
                            "function burn(uint256) returns (bool)"
                            [AbiUint amount]) ;;
              txHash <- lift (keccak256_bytes E (or_else (ct_data tx) "0x")) ;;
              modify (fun s => with_transactions
                        (<[txHash := mkTransaction sym amount
                                       (bridgeId s)
                                       (or_else (ct_to tx) (bridgeId s))
                                       "Avalanche" "" now PENDING []]>
                           (transactions s)) s))
             (fun error => throw (BridgeError
                ("Failed to burn tokens for " +:+ sym +:+ ": "
                   +:+ errorMessage error)))
       end.

(** [receipt] is what [provider.getTransactionReceipt(txHash)] answered. *)
Definition processTransaction (h : string)
    (receipt : outcome (option TransactionReceipt)) : M t unit :=
  this <- get ;;
  if paused this then throw bridge_paused
  else match transactions this !! h with
       | None => throw (BridgeError ("Transaction " +:+ h +:+ " not found"))
       | Some transaction =>
           if negb (TransactionStatus_eqb (tx_status transaction) PENDING) then
             throw (BridgeError ("Transaction " +:+ h +:+ " is not pending"))
           else
             try_catch
               (r <- lift receipt ;;
                match r with
                | None => throw (BridgeError
                            ("Transaction " +:+ h +:+ " not found on chain"))
                | Some rc =>
                    if bool_decide (receipt_status rc = Some 1) then
                      assign_transaction h (set_status LOCKED)
                    else
                      assign_transaction h (set_status FAILED)
                end)
               (fun error => throw (BridgeError
                  ("Failed to process transaction: " +:+ errorMessage error)))
       end.

Definition unregisterAsset (sym : string) : M t unit :=
  this <- get ;;
  if paused this then throw bridge_paused
  else if negb (bool_decide (is_Some (assets this !! sym))) then
    throw (not_registered sym)
  else modify (fun s => with_assets (delete sym (assets s)) s).

(** [receipt] is what [provider.getTransactionReceipt(txHash)] answered. *)
Definition getTransactionStatus (h : string)
    (receipt : outcome (option TransactionReceipt)) : M t TransactionStatus :=
  this <- get ;;
  match transactions this !! h with
  | None => throw (BridgeError ("Transaction " +:+ h +:+ " not found"))
  | Some transaction =>
      try_catch
        (r <- lift receipt ;;
         match r with
         | None => ret PENDING
         | Some rc =>
             if bool_decide (receipt_status rc = Some 1) then ret LOCKED
             else ret FAILED
         end)
        (fun error => throw (BridgeError
           ("Failed to get transaction status: " +:+ errorMessage error)))
  end.

Definition addValidator (validator : string) : M t unit :=
  this <- get ;;
  if paused this then throw bridge_paused else ret tt.

Definition removeValidator (validator : string) : M t unit :=
  this <- get ;;
  if paused this then throw bridge_paused else ret tt.

(** [called] is how [contract.emergencyWithdraw()] ended. *)
Definition emergencyWithdraw (sym : string) (called : outcome unit) : M t unit :=
  this <- get ;;
  match assets this !! sym with
  | None => throw (not_registered sym)
  | Some asset =>
      try_catch (lift called)
        (fun error => throw (BridgeError
           ("Failed to perform emergency withdrawal: " +:+ errorMessage error)))
  end.

Definition pause : M t unit := modify (with_paused true).
Definition unpause : M t unit := modify (with_paused false).

(** The status the bridge has on file for a hash. *)
Definition status_of (s : t) (h : string) : option TransactionStatus :=
  tx_status <$> transactions s !! h.

End AvalancheBridge.

(** ** The emergency functions of class [AvalancheCeloBridge] *)

Module AvalancheCeloBridge.

Record TokenLimits : Type := mkLimits {
  isSupported : bool;
  minAmount : string;
  maxAmount : string;
  dailyLimit : string;
  celoToken : string
}.

Record t : Type := mk {
  assetManager : AssetManager.t;
  nonce : Z;
  processedTransfers : gmap string bool;
  dailyTransfers : gmap string Z;
  supportedTokens : gmap string TokenLimits;
  isBridgeInitialized : bool;
  isPaused : bool
}.

Definition with_isPaused (b : bool) (s : t) : t :=
  mk (assetManager s) (nonce s) (processedTransfers s) (dailyTransfers s)
     (supportedTokens s) (isBridgeInitialized s) b.

(** A call on the injected asset manager. *)
Definition on_assetManager {A} (c : M AssetManager.t A) : M t A :=
  fun s => let (r, am) := c (assetManager s) in
           (r, mk am (nonce s) (processedTransfers s) (dailyTransfers s)
                  (supportedTokens s) (isBridgeInitialized s) (isPaused s)).

Definition not_initialized : Error := BridgeError "Bridge not initialized".

Definition pause : M t unit :=
  this <- get ;;
  if negb (isBridgeInitialized this) then throw not_initialized
  else modify (with_isPaused true).

Definition unpause : M t unit :=
  this <- get ;;
  if negb (isBridgeInitialized this) then throw not_initialized
  else modify (with_isPaused false).

Definition emergencyWithdraw (sym : string) : M t unit :=
  this <- get ;;
  if negb (isBridgeInitialized this) then throw not_initialized
  else if negb (isPaused this) then
    throw (BridgeError "Bridge must be paused for emergency withdrawal")
  else
    tokenAddress <- on_assetManager (AssetManager.getAssetAddress sym) ;;
    balance <- on_assetManager (AssetManager.getLockedBalance sym) ;;
    ret tt.

End AvalancheCeloBridge.

(** ** The security policy engine: class [SecurityManager] *)

(** [String.prototype.toLowerCase] on the ASCII letters, the only letters of
    the hexadecimal addresses it is applied to; other characters are kept. *)
Definition lower_ascii (c : ascii) : ascii :=
  let n := nat_of_ascii c in
  if ((65 <=? n)%nat && (n <=? 90)%nat)%bool then ascii_of_nat (n + 32) else c.

Fixpoint toLowerCase (s : string) : string :=
  match s with
  | EmptyString => EmptyString
  | String c r => String (lower_ascii c) (toLowerCase r)
  end.

Module SecurityManager.

Record SecurityConfig : Type := mkConfig {
  multiSigThreshold : Z;
  maxTransactions : Z;          (* rateLimit.maxTransactions *)
  timeWindow : Z;               (* rateLimit.timeWindow, milliseconds *)
  emergencyDelay : Z;
  maxGasPrice : string;
  blacklistEnabled : bool;
  whitelistEnabled : bool
}.

Record SignatureData : Type := mkSignatureData {
  signer : string;
  timestamp : Z;
  signature : string
}.

Record t : Type := mk {
  config : SecurityConfig;
  signers : gmap string bool;
  transactionHistory : gmap string (list Z);
  emergencyMode : bool;
  blacklist : gset string;
  whitelist : gset string;
  lastEmergencyTrigger : Z
}.

(** [new SecurityManager(config, provider)] *)
Definition new (cfg : SecurityConfig) : t := mk cfg ∅ ∅ false ∅ ∅ 0.

Definition with_signers (x : gmap string bool) (s : t) : t :=
  mk (config s) x (transactionHistory s) (emergencyMode s) (blacklist s)
     (whitelist s) (lastEmergencyTrigger s).
Definition with_transactionHistory (x : gmap string (list Z)) (s : t) : t :=
  mk (config s) (signers s) x (emergencyMode s) (blacklist s)
     (whitelist s) (lastEmergencyTrigger s).
Definition with_emergencyMode (x : bool) (s : t) : t :=
  mk (config s) (signers s) (transactionHistory s) x (blacklist s)
     (whitelist s) (lastEmergencyTrigger s).
Definition with_blacklist (x : gset string) (s : t) : t :=
  mk (config s) (signers s) (transactionHistory s) (emergencyMode s) x
     (whitelist s) (lastEmergencyTrigger s).
Definition with_whitelist (x : gset string) (s : t) : t :=
  mk (config s) (signers s) (transactionHistory s) (emergencyMode s)
     (blacklist s) x (lastEmergencyTrigger s).
Definition with_lastEmergencyTrigger (x : Z) (s : t) : t :=
  mk (config s) (signers s) (transactionHistory s) (emergencyMode s)
     (blacklist s) (whitelist s) x.

(** *** Multi-sig management *)

Definition addSigner (E : Externals) (addr : string) : M t unit :=
  if negb (isAddress E addr) then throw (SecurityError "Invalid address format")
  else modify (fun s => with_signers (<[toLowerCase addr := true]> (signers s)) s).

Definition removeSigner (addr : string) : M t unit :=
  this <- get ;;
  if negb (bool_decide (is_Some (signers this !! toLowerCase addr))) then
    throw (SecurityError "Signer not found")
  else modify (fun s => with_signers (delete (toLowerCase addr) (signers s)) s).

(** One turn of the loop over the submitted signatures. *)
Definition check_signature (E : Externals) (message : string) (now : Z)
    (uniqueSigners : gset string) (sigData : SignatureData) : M t (gset string) :=
  if now - timestamp sigData >? 3600000 then
    throw (SecurityError "Signature expired")
  else
    recoveredAddress <- lift (verifyMessage E message (signature sigData)) ;;
    this <- get ;;
    if negb (bool_decide (is_Some (signers this !! toLowerCase recoveredAddress))) then
      throw (SecurityError "Unauthorized signer")
    else
      ret (uniqueSigners ∪ {[toLowerCase recoveredAddress]}).

Fixpoint for_each {S A B} (f : B -> A -> M S B) (acc : B) (l : list A) : M S B :=
  match l with
  | [] => ret acc
  | x :: r => acc' <- f acc x ;; for_each f acc' r
  end.

Definition validateSignatures (E : Externals) (txHash : string)
    (signatures : list SignatureData) (now : Z) : M t bool :=
  this <- get ;;
  if Z.of_nat (length signatures) <? multiSigThreshold (config this) then
    ret false
  else
    let message := keccak256_utf8 E txHash in
    uniqueSigners <- for_each (check_signature E message now) ∅ signatures ;;
    this <- get ;;
    ret (multiSigThreshold (config this) <=? Z.of_nat (size uniqueSigners)).

(** *** Rate limiting *)

Definition history_of (s : t) (addr : string) : list Z :=
  default [] (transactionHistory s !! toLowerCase addr).

Definition checkRateLimit (addr : string) (now : Z) : M t bool :=
  this <- get ;;
  let history := history_of this addr in
  let recentHistory :=
    List.filter (fun ts => now - ts <? timeWindow (config this)) history in
  modify (fun s => with_transactionHistory
            (<[toLowerCase addr := recentHistory]> (transactionHistory s)) s) ;;;
  this <- get ;;
  ret (Z.of_nat (length recentHistory) <? maxTransactions (config this)).

Definition recordTransaction (addr : string) (now : Z) : M t unit :=
  this <- get ;;
  let history := history_of this addr ++ [now] in
  modify (fun s => with_transactionHistory
            (<[toLowerCase addr := history]> (transactionHistory s)) s).

(** *** Emergency controls *)

Definition enableEmergencyMode (now : Z) : M t unit :=
  this <- get ;;
  if now - lastEmergencyTrigger this <? emergencyDelay (config this) then
    throw (SecurityError "Emergency mode cooldown period not elapsed")
  else
    modify (with_emergencyMode true) ;;;
    modify (with_lastEmergencyTrigger now).

Definition disableEmergencyMode : M t unit :=
  this <- get ;;
  if negb (emergencyMode this) then throw (SecurityError "Emergency mode not active")
  else modify (with_emergencyMode false).

(** *** Access control *)

Definition addToBlacklist (E : Externals) (addr : string) : M t unit :=
  this <- get ;;
  if negb (blacklistEnabled (config this)) then
    throw (SecurityError "Blacklist feature is disabled")
  else if negb (isAddress E addr) then
    throw (SecurityError "Invalid address format")
  else modify (fun s => with_blacklist (blacklist s ∪ {[toLowerCase addr]}) s).

Definition removeFromBlacklist (addr : string) : M t unit :=
  modify (fun s => with_blacklist (blacklist s ∖ {[toLowerCase addr]}) s).

Definition isBlacklisted (addr : string) : M t bool :=
  this <- get ;; ret (bool_decide (toLowerCase addr ∈ blacklist this)).

Definition addToWhitelist (E : Externals) (addr : string) : M t unit :=
  this <- get ;;
  if negb (whitelistEnabled (config this)) then
    throw (SecurityError "Whitelist feature is disabled")
  else if negb (isAddress E addr) then
    throw (SecurityError "Invalid address format")
  else modify (fun s => with_whitelist (whitelist s ∪ {[toLowerCase addr]}) s).

Definition isWhitelisted (addr : string) : M t bool :=
  this <- get ;;
  if negb (whitelistEnabled (config this)) then ret true
  else ret (bool_decide (toLowerCase addr ∈ whitelist this)).

(** *** Transaction validation *)

Definition validateTransaction (E : Externals) (from to amount gasPrice : string)
    (now : Z) : M t bool :=
  this <- get ;;
  if emergencyMode this then throw (SecurityError "System is in emergency mode")
  else
    listed <- (if blacklistEnabled (config this) then
                 b <- isBlacklisted from ;;
                 if b then ret true else isBlacklisted to
               else ret false) ;;
    if listed then throw (SecurityError "Address is blacklisted")
    else
      unlisted <- (if whitelistEnabled (config this) then
                     w <- isWhitelisted from ;;
                     if negb w then ret true
                     else w' <- isWhitelisted to ;; ret (negb w')
                   else ret false) ;;
      if unlisted then throw (SecurityError "Address is not whitelisted")
      else
        allowed <- checkRateLimit from now ;;
        if negb allowed then throw (SecurityError "Rate limit exceeded")
        else
          this <- get ;;
          price <- lift (BigInt_of_string E gasPrice) ;;
          ceiling <- lift (BigInt_of_string E (maxGasPrice (config this))) ;;
          if price >? ceiling then throw (SecurityError "Gas price too high")
          else ret true.

End SecurityManager.

(** ** The route optimizer: class [CrossChainOptimizer] *)

(** JavaScript's [number]: IEEE-754 binary64, every operation rounding to
    nearest, ties to even. *)
Module Number.

Definition number : Type := spec_float.

Definition add : number -> number -> number := SFadd 53 1024.
Definition sub : number -> number -> number := SFsub 53 1024.
Definition mul : number -> number -> number := SFmul 53 1024.
Definition div : number -> number -> number := SFdiv 53 1024.

(** [a > b] and [a < b]; both false as soon as one side is NaN. *)
Definition gt (a b : number) : bool :=
  match SFcompare a b with Some Gt => true | _ => false end.
Definition lt (a b : number) : bool :=
  match SFcompare a b with Some Lt => true | _ => false end.

Definition is_nan (a : number) : bool :=
  match a with S754_nan => true | _ => false end.

(** [Number(z)] for a bigint [z], and the value of an integer literal. *)
Definition of_bigint (z : Z) : number := binary_normalize 53 1024 z 0 false.

(** [Math.floor] *)
Definition floor (x : number) : number :=
  match x with
  | S754_finite s m e =>
      if 0 <=? e then x
      else let q := cond_Zopp s (Z.pos m) / 2 ^ (- e) in
           if q =? 0 then S754_zero s else of_bigint q
  | _ => x
  end.

(** [BigInt(x)] for a number [x]: a RangeError unless [x] is an integer. *)
Definition to_bigint (x : number) : outcome Z :=
  match x with
  | S754_zero _ => Returned 0
  | S754_finite s m e =>
      if 0 <=? e then Returned (cond_Zopp s (Z.pos m * 2 ^ e))
      else if Z.pos m mod 2 ^ (- e) =? 0
           then Returned (cond_Zopp s (Z.pos m / 2 ^ (- e)))
           else Threw (JsError "The number cannot be converted to a BigInt because it is not an integer")
  | _ => Threw (JsError "The number cannot be converted to a BigInt because it is not an integer")
  end.

(** [Math.max(a, b)]: NaN as soon as one side is NaN. *)
Definition max (a b : number) : number :=
  if is_nan a || is_nan b then S754_nan
  else if lt a b then b else a.

End Number.

Module CrossChainOptimizer.
Import Number.

Inductive SecurityLevel : Type := LOW | MEDIUM | HIGH.

(** The numeric value of the enum member. *)
Definition level_value (l : SecurityLevel) : Z :=
  match l with LOW => 1 | MEDIUM => 2 | HIGH => 3 end.

Record FeeStructure : Type := mkFeeStructure {
  baseFee : Z;
  percentageFee : number;
  minFee : Z;
  maxFee : Z
}.

Record BridgeProtocol : Type := mkBridgeProtocol {
  name : string;
  address : string;
  supportedTokens : list string;
  feeStructure : FeeStructure;
  securityLevel : SecurityLevel;
  estimatedTime : number
}.

Record BridgeRoute : Type := mkBridgeRoute {
  fromChain : Z;
  toChain : Z;
  bridgeAddress : string;
  r_supportedTokens : list string;
  fee : Z;
  r_estimatedTime : number;
  protocols : list BridgeProtocol
}.

(** The literals [0.3], [0.4], [0.3] as the doubles they denote. *)
Definition SECURITY_WEIGHT : number := S754_finite false 5404319552844595 (-54).
Definition FEE_WEIGHT : number := S754_finite false 7205759403792794 (-54).
Definition TIME_WEIGHT : number := S754_finite false 5404319552844595 (-54).

Definition one : number := of_bigint 1.

Definition calculateSecurityScore (protocol : BridgeProtocol) : number :=
  div (of_bigint (level_value (securityLevel protocol))) (of_bigint (level_value HIGH)).

Definition calculateRouteScore (fee : Z) (time security : number) : number :=
  let normalizedFee := div (of_bigint fee) (of_bigint (10 ^ 18)) in
  let normalizedTime := div time (of_bigint 600) in
  add (add (mul FEE_WEIGHT (sub one normalizedFee))
           (mul TIME_WEIGHT (sub one normalizedTime)))
      (mul SECURITY_WEIGHT security).

Definition estimateProtocolFee (protocol : BridgeProtocol) (tokenAddress : string)
  : outcome Z :=
  let fs := feeStructure protocol in
  obind (to_bigint (floor (mul (of_bigint (baseFee fs)) (percentageFee fs))))
    (fun percentageAmount =>
       let fee := baseFee fs + percentageAmount in
       let fee := if fee <? minFee fs then minFee fs else fee in
       let fee := if fee >? maxFee fs then maxFee fs else fee in
       Returned fee).

Record Scored : Type := mkScored {
  protocol : BridgeProtocol;
  score : number
}.

(** The body of the [map] callback. *)
Definition score_protocol (tokenAddress : string) (p : BridgeProtocol) : outcome Scored :=
  obind (estimateProtocolFee p tokenAddress) (fun fee =>
    let securityScore := calculateSecurityScore p in
    Returned (mkScored p (calculateRouteScore fee (estimatedTime p) securityScore))).

(** [Promise.all(list.map(f))]: the results in order, or the first rejection. *)
Fixpoint all_of {A B} (f : A -> outcome B) (l : list A) : outcome (list B) :=
  match l with
  | [] => Returned []
  | x :: r => obind (f x) (fun y => obind (all_of f r) (fun ys => Returned (y :: ys)))
  end.

(** [Array.prototype.reduce] without an initial value. *)
Definition reduce {A} (f : A -> A -> A) (l : list A) : outcome A :=
  match l with
  | [] => Threw (JsError "Reduce of empty array with no initial value")
  | x :: r => Returned (fold_left f r x)
  end.

Definition better (best current : Scored) : Scored :=
  if gt (score current) (score best) then current else best.

(** The selection among the protocols that passed the filter. *)
Definition select_among (tokenAddress : string) (availableProtocols : list BridgeProtocol)
  : outcome BridgeProtocol :=
  obind (all_of (score_protocol tokenAddress) availableProtocols) (fun protocolScores =>
  obind (reduce better protocolScores) (fun best =>
  Returned (protocol best))).

Definition routeKey (fromChain toChain : Z) : string :=
  pretty fromChain +:+ "-" +:+ pretty toChain.

Definition suitable (tokenAddress : string) (securityPreference : SecurityLevel)
    (p : BridgeProtocol) : bool :=
  (level_value securityPreference <=? level_value (securityLevel p))
  && bool_decide (tokenAddress ∈ supportedTokens p).

Definition selectOptimalProtocol (bridgeRoutes : gmap string BridgeRoute)
    (fromChain toChain : Z) (tokenAddress : string)
    (securityPreference : SecurityLevel) : outcome BridgeProtocol :=
  match bridgeRoutes !! routeKey fromChain toChain with
  | None => Threw (JsError "No bridge route found between chains")
  | Some route =>
      let availableProtocols :=
        List.filter (suitable tokenAddress securityPreference) (protocols route) in
      if (length availableProtocols =? 0)%nat then
        Threw (JsError "No suitable bridge protocol found")
      else select_among tokenAddress availableProtocols
  end.

(** *** Chain configuration and what is derived from it *)

Record ChainConfig : Type := mkChainConfig {
  chainId : Z;
  endpoint : string;
  isSkale : bool;
  gasPrice : Z;
  c_bridgeAddress : option string;
  c_supportedTokens : option (list string);
  minTransferAmount : option string;
  maxTransferAmount : option string;
  bridgeProtocols : option (list BridgeProtocol)
}.

Definition getAvailableProtocols (chainConfigs : gmap Z ChainConfig)
    (fromChain toChain : Z) : list BridgeProtocol :=
  match chainConfigs !! fromChain, chainConfigs !! toChain with
  | Some fromConfig, Some toConfig =>
      if isSkale fromConfig && isSkale toConfig then
        [mkBridgeProtocol "SKALE Bridge"
           (or_else (c_bridgeAddress fromConfig) "")
           (default [] (c_supportedTokens fromConfig))
           (mkFeeStructure 0 (of_bigint 0) 0 0)
           HIGH
           (of_bigint 0)]
      else default [] (bridgeProtocols fromConfig)
  | _, _ => []
  end.

Definition calculateEstimatedTime (chainConfigs : gmap Z ChainConfig)
    (fromChain toChain : Z) : number :=
  match chainConfigs !! fromChain, chainConfigs !! toChain with
  | Some fromConfig, Some toConfig =>
      if isSkale fromConfig && isSkale toConfig then of_bigint 0
      else if isSkale fromConfig then of_bigint 180
      else if isSkale toConfig then of_bigint 300
      else of_bigint 600
  | _, _ => of_bigint 0
  end.

(** [catch (error) { throw new Error(prefix + message) }] *)
Definition rethrow {A} (prefix : string) (r : outcome A) : outcome A :=
  match r with
  | Returned a => Returned a
  | Threw e => Threw (JsError (prefix +:+ errorMessage e))
  end.

(** [feeData] is what [provider.getFeeData()] answered with as gas price
    ([null] when it has none), or how creating the provider or asking it
    failed.  A bigint division by [0n] is a RangeError, caught like the
    rest. *)
Definition getNetworkCongestion (chainConfigs : gmap Z ChainConfig) (chain : Z)
    (feeData : outcome (option Z)) : number :=
  match chainConfigs !! chain with
  | None => of_bigint 1
  | Some config =>
      if isSkale config then of_bigint 1
      else match feeData with
           | Threw _ => of_bigint 1
           | Returned price =>
               let baseFee := default 0 price in
               if gasPrice config =? 0 then of_bigint 1
               else of_bigint (Z.quot baseFee (gasPrice config))
           end
  end.

Definition estimateBridgeFee (E : Externals) (chainConfigs : gmap Z ChainConfig)
    (fromChain toChain : Z) (amount tokenAddress : string)
    (feeData : outcome (option Z)) : outcome Z :=
  rethrow "Failed to estimate bridge fee: "
    match chainConfigs !! fromChain, chainConfigs !! toChain with
    | Some fromConfig, Some toConfig =>
        if isSkale fromConfig && isSkale toConfig then Returned 0
        else
          obind (BigInt_of_string E amount) (fun amountBigInt =>
          let baseFee := Z.quot amountBigInt 1000 in
          let congestionMultiplier :=
            getNetworkCongestion chainConfigs fromChain feeData in
          obind (to_bigint (max (of_bigint 1) congestionMultiplier)) (fun m =>
          Returned (baseFee * m)))
    | _, _ => Threw (JsError "Invalid chain configuration")
    end.

(** [gas] is what [assetManager.estimateGas(...)] answered as gas limit. *)
Definition estimateGas (chainConfigs : gmap Z ChainConfig) (fromChain toChain : Z)
    (amount tokenAddress : string) (gas : outcome Z) : outcome Z :=
  rethrow "Failed to estimate gas: "
    match chainConfigs !! fromChain with
    | None => Threw (JsError "Invalid source chain")
    | Some fromConfig => if isSkale fromConfig then Returned 0 else gas
    end.

End CrossChainOptimizer.

(** ** Batching: class [SkaleOptimizer] *)

Module SkaleOptimizer.

Record OptimizedTransfer : Type := mkOptimizedTransfer {
  from : string;
  to : string;
  amount : string;
  tokenAddress : string;
  estimatedGas : Z;
  priority : Number.number
}.

Definition MAX_BATCH_SIZE : Z := 50.

(** The constructor's [config.maxBatchSize || this.MAX_BATCH_SIZE]. *)
Definition configured_batch_size (maxBatchSize : Z) : Z :=
  if maxBatchSize =? 0 then MAX_BATCH_SIZE else maxBatchSize.

(** [Array.prototype.slice(start, end)]: a negative index counts from the
    end, and both are clamped to the array. *)
Definition slice {A} (l : list A) (start stop : Z) : list A :=
  let len := Z.of_nat (length l) in
  let clamp := fun x => if x <? 0 then Z.max (len + x) 0 else Z.min x len in
  take (Z.to_nat (clamp stop - clamp start)) (drop (Z.to_nat (clamp start)) l).

(** The loop [for (let i = 0; i < transfers.length; i += maxBatchSize)],
    entered with [i] and the batches pushed so far; [fuel] bounds the number
    of tests of the loop condition. *)
Fixpoint createBatches_from (fuel : nat) (maxBatchSize : Z)
    (transfers : list OptimizedTransfer) (i : Z)
    (batches : list (list OptimizedTransfer)) : option (list (list OptimizedTransfer)) :=
  match fuel with
  | O => None
  | S fuel' =>
      if i <? Z.of_nat (length transfers) then
        createBatches_from fuel' maxBatchSize transfers (i + maxBatchSize)
          (batches ++ [slice transfers i (i + maxBatchSize)])
      else Some batches
  end.

Definition createBatches (fuel : nat) (maxBatchSize : Z)
    (transfers : list OptimizedTransfer) : option (list (list OptimizedTransfer)) :=
  createBatches_from fuel maxBatchSize transfers 0 [].

End SkaleOptimizer.

(** ** The transfer operations of class [AvalancheCeloBridge] *)

Module CeloTransfers.
Import AvalancheCeloBridge.

(** [new AvalancheCeloBridge(provider, signer, validator, assetManager)] *)
Definition new (am : AssetManager.t) : t := mk am 0 ∅ ∅ ∅ false false.

Definition with_supportedTokens (x : gmap string TokenLimits) (s : t) : t :=
  mk (assetManager s) (nonce s) (processedTransfers s) (dailyTransfers s) x
     (isBridgeInitialized s) (isPaused s).
Definition with_processedTransfers (x : gmap string bool) (s : t) : t :=
  mk (assetManager s) (nonce s) x (dailyTransfers s) (supportedTokens s)
     (isBridgeInitialized s) (isPaused s).
Definition with_isBridgeInitialized (x : bool) (s : t) : t :=
  mk (assetManager s) (nonce s) (processedTransfers s) (dailyTransfers s)
     (supportedTokens s) x (isPaused s).

Definition paused_error : Error := BridgeError "Bridge is paused".

Definition addSupportedToken (avalancheToken celo lo hi daily : string) : M t unit :=
  modify (fun s => with_supportedTokens
            (<[avalancheToken := mkLimits true lo hi daily celo]> (supportedTokens s)) s).

Definition USDC : string := "0xB97EF9Ef8734C71904D8002F8b6Bc66Dd9c48a6E".
Definition USDT : string := "0x9702230A8Ea53601f5cD2dc00fDBc13d4dF4A8c7".
Definition WBTC : string := "0x2260FAC5E5542a773Aa44fBCfeDf7C193bc2C599".

(** [initialize] works on the bridge and on the injected validator, an
    object of its own; the times are the readings of [Date.now()] in the
    validator and in the three registrations.  Whatever is thrown inside is
    replaced by the one BridgeError. *)
Definition on_bridge {A} (c : M t A) : M (Validator.t * t) A :=
  fun vs => let (r, b) := c (snd vs) in (r, (fst vs, b)).
Definition on_validator {A} (c : M Validator.t A) : M (Validator.t * t) A :=
  fun vs => let (r, v) := c (fst vs) in (r, (v, snd vs)).

Definition initialize (tv t1 t2 t3 : Z) : M (Validator.t * t) unit :=
  try_catch
    (this <- on_bridge get ;;
     if isBridgeInitialized this then throw (BridgeError "Bridge already initialized")
     else
       on_validator (Validator.validateTransaction "0x0" tv) ;;;
       on_bridge (on_assetManager (AssetManager.registerAsset "USDC" USDC t1)) ;;;
       on_bridge (on_assetManager (AssetManager.registerAsset "USDT" USDT t2)) ;;;
       on_bridge (on_assetManager (AssetManager.registerAsset "WBTC" WBTC t3)) ;;;
       on_bridge (addSupportedToken USDC "0xef4229c8c3250C675F21BCefa42f58EfbfF6002a"
                    "1000000" "1000000000" "10000000000") ;;;
       on_bridge (addSupportedToken USDT "0x88eeC49252c8cbc039DCdB394c0c2BA2f1637EA0"
                    "1000000" "1000000000" "10000000000") ;;;
       on_bridge (addSupportedToken WBTC "0xBe50a3013A1c94768A1ABb78c3cB79AB28fc1aCE"
                    "100000" "100000000" "1000000000") ;;;
       on_bridge (modify (with_isBridgeInitialized true)))
    (fun _ => throw (BridgeError "Failed to initialize bridge")).

Definition registerAsset (sym addr : string) (now : Z) : M t unit :=
  this <- get ;;
  if negb (isBridgeInitialized this) then throw not_initialized
  else if isPaused this then throw paused_error
  else on_assetManager (AssetManager.registerAsset sym addr now).

Definition unregisterAsset (sym : string) : M t unit :=
  this <- get ;;
  if negb (isBridgeInitialized this) then throw not_initialized
  else if isPaused this then throw paused_error
  else on_assetManager (AssetManager.unregisterAsset sym).

Definition isAssetSupported (sym : string) : M t bool :=
  tokenAddress <- on_assetManager (AssetManager.getAssetAddress sym) ;;
  this <- get ;;
  match supportedTokens this !! tokenAddress with
  | Some tokenInfo => ret (isSupported tokenInfo)
  | None => ret false
  end.

(** The private [validateTransaction(token, amount.toString())]; the amount
    is the bigint the caller rendered, read back by [BigInt]. *)
Definition validateTransaction (E : Externals) (token : string) (amount : Z) : M t unit :=
  this <- get ;;
  match supportedTokens this !! token with
  | None => throw (BridgeError "Token not supported")
  | Some tokenInfo =>
      if negb (isSupported tokenInfo) then throw (BridgeError "Token not supported")
      else
        let amountBN := amount in
        lo <- lift (BigInt_of_string E (minAmount tokenInfo)) ;;
        hi <- lift (BigInt_of_string E (maxAmount tokenInfo)) ;;
        daily <- lift (BigInt_of_string E (dailyLimit tokenInfo)) ;;
        if amountBN <? lo then throw (BridgeError "Amount below minimum")
        else if amountBN >? hi then throw (BridgeError "Amount above maximum")
        else
          let dailyTransfer := default 0 (dailyTransfers this !! token) in
          if Number.gt (Number.add (Number.of_bigint dailyTransfer)
                                   (Number.of_bigint amountBN))
                       (Number.of_bigint daily)
          then throw (BridgeError "Daily limit exceeded")
          else ret tt
  end.

Definition lockTokens (E : Externals) (sym : string) (amount : Z) : M t unit :=
  this <- get ;;
  if negb (isBridgeInitialized this) then throw not_initialized
  else if isPaused this then throw paused_error
  else
    tokenAddress <- on_assetManager (AssetManager.getAssetAddress sym) ;;
    validateTransaction E tokenAddress amount ;;;
    _balance <- on_assetManager (AssetManager.getLockedBalance sym) ;;
    ret tt.

(** [unlockTokens], [mintTokens] and [burnTokens] have one and the same body. *)
Definition unlockTokens (E : Externals) (sym : string) (amount : Z) : M t unit :=
  this <- get ;;
  if negb (isBridgeInitialized this) then throw not_initialized
  else if isPaused this then throw paused_error
  else
    tokenAddress <- on_assetManager (AssetManager.getAssetAddress sym) ;;
    validateTransaction E tokenAddress amount.

Definition mintTokens (E : Externals) (sym : string) (amount : Z) : M t unit :=
  this <- get ;;
  if negb (isBridgeInitialized this) then throw not_initialized
  else if isPaused this then throw paused_error
  else
    tokenAddress <- on_assetManager (AssetManager.getAssetAddress sym) ;;
    validateTransaction E tokenAddress amount.

Definition burnTokens (E : Externals) (sym : string) (amount : Z) : M t unit :=
  this <- get ;;
  if negb (isBridgeInitialized this) then throw not_initialized
  else if isPaused this then throw paused_error
  else
    tokenAddress <- on_assetManager (AssetManager.getAssetAddress sym) ;;
    validateTransaction E tokenAddress amount.

(** [receipt] is what [provider.getTransactionReceipt(txHash)] answers; it
    is asked only for a hash that is not marked processed. *)
Definition getTransactionStatus (txHash : string)
    (receipt : outcome (option TransactionReceipt)) : M t TransactionStatus :=
  this <- get ;;
  match processedTransfers this !! txHash with
  | Some true => ret UNLOCKED
  | _ =>
      r <- lift receipt ;;
      match r with
      | None => ret PENDING
      | Some rc =>
          if bool_decide (receipt_status rc = Some 1) then ret UNLOCKED else ret FAILED
      end
  end.

Definition processTransaction (txHash : string)
    (receipt : outcome (option TransactionReceipt)) : M t unit :=
  this <- get ;;
  if negb (isBridgeInitialized this) then throw not_initialized
  else if isPaused this then throw paused_error
  else
    status <- getTransactionStatus txHash receipt ;;
    if TransactionStatus_eqb status UNLOCKED then
      modify (fun s => with_processedTransfers
                (<[txHash := true]> (processedTransfers s)) s)
    else ret tt.

Definition addValidator (validator : string) (now : Z) : M (Validator.t * t) unit :=
  this <- on_bridge get ;;
  if negb (isBridgeInitialized this) then throw not_initialized
  else if isPaused this then throw paused_error
  else on_validator (Validator.validateTransaction validator now) ;;; ret tt.

Definition removeValidator (validator : string) (now : Z) : M (Validator.t * t) unit :=
  this <- on_bridge get ;;
  if negb (isBridgeInitialized this) then throw not_initialized
  else if isPaused this then throw paused_error
  else on_validator (Validator.validateTransaction validator now) ;;; ret tt.

(** The hashes [getPendingTransactions] returns, as a set: the entries of
    [processedTransfers] whose flag is false. *)
Definition pending (s : t) : gset string :=
  dom (filter (fun e => snd e = false) (processedTransfers s)).

(** The calls of the bridge, with what the outside answered to each, and a
    sequence of them on the bridge and its validator. *)
Inductive Call : Type :=
  | Initialize (tv t1 t2 t3 : Z)
  | RegisterAsset (sym addr : string) (now : Z)
  | UnregisterAsset (sym : string)
  | LockTokens (sym : string) (amount : Z)
  | UnlockTokens (sym : string) (amount : Z)
  | MintTokens (sym : string) (amount : Z)
  | BurnTokens (sym : string) (amount : Z)
  | ProcessTransaction (h : string) (receipt : outcome (option TransactionReceipt))
  | AddValidator (validator : string) (now : Z)
  | RemoveValidator (validator : string) (now : Z)
  | Pause
  | Unpause
  | EmergencyWithdraw (sym : string).

Definition call (E : Externals) (c : Call) : M (Validator.t * t) unit :=
  match c with
  | Initialize tv t1 t2 t3 => initialize tv t1 t2 t3
  | RegisterAsset sym addr now => on_bridge (registerAsset sym addr now)
  | UnregisterAsset sym => on_bridge (unregisterAsset sym)
  | LockTokens sym a => on_bridge (lockTokens E sym a)
  | UnlockTokens sym a => on_bridge (unlockTokens E sym a)
  | MintTokens sym a => on_bridge (mintTokens E sym a)
  | BurnTokens sym a => on_bridge (burnTokens E sym a)
  | ProcessTransaction h receipt => on_bridge (processTransaction h receipt)
  | AddValidator v now => addValidator v now
  | RemoveValidator v now => removeValidator v now
  | Pause => on_bridge pause
  | Unpause => on_bridge unpause
  | EmergencyWithdraw sym => on_bridge (emergencyWithdraw sym)
  end.

Fixpoint run (E : Externals) (cs : list Call) (vs : Validator.t * t) : Validator.t * t :=
  match cs with
  | [] => vs
  | c :: rest => run E rest (snd (call E c vs))
  end.

End CeloTransfers.

(** ** Sequences of calls on a [MasterBridge] *)

Module Ledger.
Import MasterBridge.

Inductive Kind : Type := Lock | Unlock | Mint | Burn.

(** One call of a balance operation: which one, on which symbol, for what
    amount, and what [Date.now()] read when it ran. *)
Record Request : Type := mkRequest {
  kind : Kind;
  on_symbol : string;
  amount : Z;
  at_time : Z
}.

Definition perform (r : Request) : M t unit :=
  match kind r with
  | Lock => lockTokens (on_symbol r) (amount r) (at_time r)
  | Unlock => unlockTokens (on_symbol r) (amount r) (at_time r)
  | Mint => mintTokens (on_symbol r) (amount r) (at_time r)
  | Burn => burnTokens (on_symbol r) (amount r) (at_time r)
  end.

(** The bridge after the calls were made one after the other; a call that
    throws leaves the bridge as the call left it and the next one runs. *)
Fixpoint run (rs : list Request) (s : t) : t :=
  match rs with
  | [] => s
  | r :: rest => run rest (snd (perform r s))
  end.

(** The calls of the sequence that returned normally. *)
Fixpoint successful (rs : list Request) (s : t) : list Request :=
  match rs with
  | [] => []
  | r :: rest =>
      let res := perform r s in
      if succeeded res then r :: successful rest (snd res)
      else successful rest (snd res)
  end.

(** Sum of the amounts of the calls of kind [k] on [sym]. *)
Fixpoint total_of (k : Kind) (sym : string) (rs : list Request) : Z :=
  match rs with
  | [] => 0
  | r :: rest =>
      (if bool_decide (on_symbol r = sym) then
         match k, kind r with
         | Lock, Lock | Unlock, Unlock | Mint, Mint | Burn, Burn => amount r
         | _, _ => 0
         end
       else 0) + total_of k sym rest
  end.

(** Every call of the [MasterBridge] interface that can change the object. *)
Inductive Call : Type :=
  | Initialize
  | RegisterAsset (sym addr : string)
  | UnregisterAsset (sym : string)
  | Balance (r : Request)
  | ProcessTransaction (h : string)
  | AddValidator (validator : string)
  | RemoveValidator (validator : string)
  | Pause
  | Unpause
  | EmergencyWithdraw (sym : string).

Definition call (c : Call) (now : Z) : M t unit :=
  match c with
  | Initialize => initialize
  | RegisterAsset sym addr => registerAsset sym addr now
  | UnregisterAsset sym => unregisterAsset sym
  | Balance r => perform r
  | ProcessTransaction h => processTransaction h
  | AddValidator v => addValidator v now
  | RemoveValidator v => removeValidator v
  | Pause => pause
  | Unpause => unpause
  | EmergencyWithdraw sym => emergencyWithdraw sym now
  end.

Fixpoint run_calls (cs : list (Call * Z)) (s : t) : t :=
  match cs with
  | [] => s
  | (c, now) :: rest => run_calls rest (snd (call c now s))
  end.

(** The asset after a successful call that moved its locked (resp. minted)
    balance by [d] at time [now]. *)
Definition locked_by (d now : Z) (a : AssetInfo) : AssetInfo :=
  set_lastUpdate now (set_lockedAmount (lockedAmount a + d) a).
Definition minted_by (d now : Z) (a : AssetInfo) : AssetInfo :=
  set_lastUpdate now (set_mintedAmount (mintedAmount a + d) a).

(** What one successful call adds to the locked and to the minted balance
    of [sym]. *)
Definition locked_delta (sym : string) (r : Request) : Z :=
  total_of Lock sym [r] - total_of Unlock sym [r].
Definition minted_delta (sym : string) (r : Request) : Z :=
  total_of Mint sym [r] - total_of Burn sym [r].

(** The status a [MasterBridge] has on file for a hash. *)
Definition master_status (s : MasterBridge.t) (h : string) : option TransactionStatus :=
  tx_status <$> MasterBridge.transactions s !! h.

(** The calls of the registry class [AssetManager] that change it. *)
Inductive RegistryCall : Type :=
  | Register (sym addr : string) (now : Z)
  | Unregister (sym : string).

Definition registry_call (c : RegistryCall) : M AssetManager.t unit :=
  match c with
  | Register sym addr now => AssetManager.registerAsset sym addr now
  | Unregister sym => AssetManager.unregisterAsset sym
  end.

Fixpoint run_registry (cs : list RegistryCall) (s : AssetManager.t) : AssetManager.t :=
  match cs with
  | [] => s
  | c :: rest => run_registry rest (snd (registry_call c s))
  end.

End Ledger.

(** ** Stand-ins for the external functions

    Deterministic functions with the types of the external ones, used to run
    the model on concrete inputs: the data of a populated call is the
    fragment applied to the rendered arguments, a hash is its input under a
    tag, the signer recovered from a signature is the signature's own text.
    As the encoder of [ethers] does, the populated call refuses a [uint256]
    argument that is negative or does not fit 256 bits.  Every string counts
    as an address. *)

Module Doubles.

Definition render (v : AbiValue) : string :=
  match v with
  | AbiAddress a => a
  | AbiUint n => pretty n
  end.

Definition calldata (fragment : string) (args : list AbiValue) : string :=
  fragment +:+ "(" +:+ String.concat "," (map render args) +:+ ")".

Fixpoint parse_digits (s : string) (acc : Z) : outcome Z :=
  match s with
  | EmptyString => Returned acc
  | String c r =>
      let n := nat_of_ascii c in
      if ((48 <=? n)%nat && (n <=? 57)%nat)%bool
      then parse_digits r (10 * acc + Z.of_nat (n - 48))
      else Threw (JsError "Cannot convert to a BigInt")
  end.

Definition encodable (v : AbiValue) : bool :=
  match v with
  | AbiAddress _ => true
  | AbiUint n => (0 <=? n) && (n <? 2 ^ 256)
  end.

Definition externals : Externals :=
  {| isAddress := fun _ => true;
     keccak256_utf8 := fun s => "keccak256:" +:+ s;
     keccak256_bytes := fun s => Returned ("keccak256:" +:+ s);
     verifyMessage := fun _ sig => Returned sig;
     populateTransaction := fun addr fragment args =>
       if forallb encodable args then
         Returned (mkContractTransaction (Some addr) None
                     (Some (calldata fragment args)))
       else Threw (JsError "value out-of-bounds");
     BigInt_of_string := fun s => parse_digits s 0 |}.

End Doubles.

(** ** Notions used to state the policy properties *)

Module Policy.
Import SecurityManager.

(** A transfer attempt as the policy describes it: check the limit and, on
    acceptance, record the timestamp. *)
Definition attempt (addr : string) (now : Z) : M t bool :=
  allowed <- checkRateLimit addr now ;;
  if allowed then recordTransaction addr now ;;; ret true else ret false.

(** Attempts at the given times, one after the other: which were accepted,
    and the manager afterwards. *)
Fixpoint attempts (addr : string) (times : list Z) (s : t) : list bool * t :=
  match times with
  | [] => ([], s)
  | now :: rest =>
      match attempt addr now s with
      | (Returned b, s') => let (bs, s'') := attempts addr rest s' in (b :: bs, s'')
      | (Threw _, s') => let (bs, s'') := attempts addr rest s' in (false :: bs, s'')
      end
  end.

Definition recent (s : t) (addr : string) (now : Z) : list Z :=
  List.filter (fun ts => now - ts <? timeWindow (config s)) (history_of s addr).




End Policy.

(** ** The best of a list of scored protocols *)

Module Ranking.
Import Number CrossChainOptimizer.

(** [best] is the first element of [seen] with the highest score: everything
    before it scores strictly less, nothing after it scores more. *)
Definition first_best (seen : list Scored) (best : Scored) : Prop :=
  exists before after,
    seen = before ++ best :: after /\
    (forall x, In x before -> lt (score x) (score best) = true) /\
    (forall x, In x after -> gt (score x) (score best) = false).

(** What holds of the reduction whatever the scores are, NaN included,
    every comparison with NaN being false: [best] is listed in [seen], what
    is listed before it scores strictly less or is not a number, nothing
    listed after it scores more, and [best] has a NaN score only when it is
    listed first. *)
Definition first_unbeaten (seen : list Scored) (best : Scored) : Prop :=
  exists before after,
    seen = before ++ best :: after /\
    (forall x, In x before ->
       lt (score x) (score best) = true \/ is_nan (score x) = true) /\
    (forall x, In x after -> gt (score x) (score best) = false) /\
    (is_nan (score best) = true -> before = []).

End Ranking.

(** ** Concrete bridges, managers and protocols used in the examples *)

Module Examples.

(** The bridge of the scenario: USDC registered, 100 locked, 50 locked. *)
Definition usdc_150 : MasterBridge.t :=
  Ledger.run [Ledger.mkRequest Ledger.Lock "USDC" 100 1;
              Ledger.mkRequest Ledger.Lock "USDC" 50 2]
    (snd (MasterBridge.registerAsset "USDC" "0xA" 0 (MasterBridge.new "bridge"))).

(** The bridge and the hash of the examples: USDC registered on an
    [AvalancheBridge], and 100 USDC locked at time 1. *)
Definition avalanche_locked_100 : AvalancheBridge.t :=
  snd (AvalancheBridge.lockTokens Doubles.externals "USDC" 100 1
         (snd (AvalancheBridge.registerAsset "USDC" "0xA" (Returned (6, "USD Coin"))
                 (AvalancheBridge.new "0xBridge"
                    (AvalancheBridge.mkConfig "http://rpc" "43114" 25 21000))))).

Definition lock_100_hash : string :=
  "keccak256:function transfer(address,uint256) returns (bool)(0xBridge,100)".

Definition receipt_ok : outcome (option TransactionReceipt) :=
  Returned (Some (mkReceipt (Some 1))).

Definition two_of_n : SecurityManager.SecurityConfig :=
  SecurityManager.mkConfig 2 10 60000 0 "100" false false.

Definition three_per_minute : SecurityManager.SecurityConfig :=
  SecurityManager.mkConfig 2 3 60000 0 "100" false false.

(** Both lists enabled, one second between emergency triggers. *)
Definition guarded : SecurityManager.SecurityConfig :=
  SecurityManager.mkConfig 2 3 60000 1000 "100" true true.



Definition no_fee : CrossChainOptimizer.FeeStructure :=
  CrossChainOptimizer.mkFeeStructure 0 (Number.of_bigint 0) 0 0.
Definition slow : CrossChainOptimizer.BridgeProtocol :=
  CrossChainOptimizer.mkBridgeProtocol "Slow" "0x1" ["0xT"] no_fee
    CrossChainOptimizer.HIGH (Number.of_bigint 600).
Definition fast : CrossChainOptimizer.BridgeProtocol :=
  CrossChainOptimizer.mkBridgeProtocol "Fast" "0x2" ["0xT"] no_fee
    CrossChainOptimizer.HIGH (Number.of_bigint 0).
Definition fast_too : CrossChainOptimizer.BridgeProtocol :=
  CrossChainOptimizer.mkBridgeProtocol "FastToo" "0x3" ["0xT"] no_fee
    CrossChainOptimizer.HIGH (Number.of_bigint 0).

(** A protocol below the requested security level, one that does not
    support the token, and a route offering them among the others. *)
Definition unsafe : CrossChainOptimizer.BridgeProtocol :=
  CrossChainOptimizer.mkBridgeProtocol "Unsafe" "0x4" ["0xT"] no_fee
    CrossChainOptimizer.LOW (Number.of_bigint 0).
Definition other_token : CrossChainOptimizer.BridgeProtocol :=
  CrossChainOptimizer.mkBridgeProtocol "Other" "0x5" ["0xU"] no_fee
    CrossChainOptimizer.HIGH (Number.of_bigint 0).
Definition routes : gmap string CrossChainOptimizer.BridgeRoute :=
  {[CrossChainOptimizer.routeKey 1 2 :=
      CrossChainOptimizer.mkBridgeRoute 1 2 "0xB" ["0xT"] 0 (Number.of_bigint 600)
        [unsafe; slow; other_token; fast; fast_too]]}.

(** Fee structures on which the bounds act: 4000 + 50% is above the maximum
    5000; 100 is below the minimum 200; and with the minimum 2000 above the
    maximum 1100 the fee 1500 is raised and then cut. *)
Definition half : Number.number :=
  Number.div (Number.of_bigint 1) (Number.of_bigint 2).
Definition capped : CrossChainOptimizer.BridgeProtocol :=
  CrossChainOptimizer.mkBridgeProtocol "Capped" "0x6" ["0xT"]
    (CrossChainOptimizer.mkFeeStructure 4000 half 0 5000)
    CrossChainOptimizer.HIGH (Number.of_bigint 0).
Definition floored : CrossChainOptimizer.BridgeProtocol :=
  CrossChainOptimizer.mkBridgeProtocol "Floored" "0x7" ["0xT"]
    (CrossChainOptimizer.mkFeeStructure 100 (Number.of_bigint 0) 200 5000)
    CrossChainOptimizer.HIGH (Number.of_bigint 0).
Definition crossed : CrossChainOptimizer.BridgeProtocol :=
  CrossChainOptimizer.mkBridgeProtocol "Crossed" "0x8" ["0xT"]
    (CrossChainOptimizer.mkFeeStructure 1000 half 2000 1100)
    CrossChainOptimizer.HIGH (Number.of_bigint 0).

End Examples.

(** ** Notions used to state the further properties *)

Module Surface.

(** The registry's two maps index each other: an asset is filed under its
    own symbol and its token address points back to that symbol, and every
    token address on file points to a registered asset carrying it. *)
Definition indexed (s : AssetManager.t) : Prop :=
  (forall sym a, AssetManager.assets s !! sym = Some a ->
     symbol a = sym /\
     AssetManager.tokenAddresses s !! tokenAddress a = Some sym) /\
  (forall addr sym, AssetManager.tokenAddresses s !! addr = Some sym ->
     exists a, AssetManager.assets s !! sym = Some a /\ tokenAddress a = addr).

(** The [MasterBridge] calls that start with the pause check. *)
Definition gated (c : Ledger.Call) : bool :=
  match c with
  | Ledger.Initialize | Ledger.Pause | Ledger.Unpause
  | Ledger.EmergencyWithdraw _ => false
  | _ => true
  end.

(** The calls of an [AvalancheBridge] that can change it, each with what the
    outside answered to it. *)
Inductive AvalancheCall : Type :=
  | AInitialize (network : outcome unit)
  | ARegisterAsset (sym addr : string) (meta : outcome (Z * string))
  | AUnregisterAsset (sym : string)
  | ALockTokens (sym : string) (amount now : Z)
  | AUnlockTokens (sym : string) (amount now : Z)
  | AMintTokens (sym : string) (amount now : Z)
  | ABurnTokens (sym : string) (amount now : Z)
  | AProcessTransaction (h : string) (receipt : outcome (option TransactionReceipt))
  | AAddValidator (validator : string)
  | ARemoveValidator (validator : string)
  | APause
  | AUnpause
  | AEmergencyWithdraw (sym : string) (called : outcome unit).

Definition avalanche_call (E : Externals) (c : AvalancheCall) : M AvalancheBridge.t unit :=
  match c with
  | AInitialize network => AvalancheBridge.initialize network
  | ARegisterAsset sym addr meta => AvalancheBridge.registerAsset sym addr meta
  | AUnregisterAsset sym => AvalancheBridge.unregisterAsset sym
  | ALockTokens sym a now => AvalancheBridge.lockTokens E sym a now
  | AUnlockTokens sym a now => AvalancheBridge.unlockTokens E sym a now
  | AMintTokens sym a now => AvalancheBridge.mintTokens E sym a now
  | ABurnTokens sym a now => AvalancheBridge.burnTokens E sym a now
  | AProcessTransaction h receipt => AvalancheBridge.processTransaction h receipt
  | AAddValidator v => AvalancheBridge.addValidator v
  | ARemoveValidator v => AvalancheBridge.removeValidator v
  | APause => AvalancheBridge.pause
  | AUnpause => AvalancheBridge.unpause
  | AEmergencyWithdraw sym called => AvalancheBridge.emergencyWithdraw sym called
  end.

(** The registry has neither the three default symbols nor their token
    addresses on file. *)
Definition defaults_free (am : AssetManager.t) : Prop :=
  Forall (fun sym => AssetManager.assets am !! sym = None)
    ["USDC"; "USDT"; "WBTC"]%string /\
  Forall (fun addr => AssetManager.tokenAddresses am !! addr = None)
    [CeloTransfers.USDC; CeloTransfers.USDT; CeloTransfers.WBTC].

(** An [AvalancheCeloBridge] that is not initialized, with a validator that
    is inactive or a registry that already knows the first default token. *)
Definition cannot_initialize (vs : Validator.t * AvalancheCeloBridge.t) : Prop :=
  AvalancheCeloBridge.isBridgeInitialized (snd vs) = false /\
  (Validator.active (fst vs) = false \/
   is_Some (AssetManager.assets (AvalancheCeloBridge.assetManager (snd vs))
              !! "USDC"%string) \/
   is_Some (AssetManager.tokenAddresses (AvalancheCeloBridge.assetManager (snd vs))
              !! CeloTransfers.USDC)).

(** [estimateBridgeFee] learns nothing about congestion: the source chain is
    a SKALE chain, or the provider failed, or it reported no gas price, or the
    configured gas price is zero. *)
Definition congestion_unknown (fromConfig : CrossChainOptimizer.ChainConfig)
    (feeData : outcome (option Z)) : bool :=
  CrossChainOptimizer.isSkale fromConfig ||
  match feeData with
  | Threw _ | Returned None => true
  | Returned (Some _) => CrossChainOptimizer.gasPrice fromConfig =? 0
  end.

(** A map of flags that holds no false one. *)
Definition only_true (m : gmap string bool) : Prop :=
  forall k x, m !! k = Some x -> x = true.

(** One call of [SecurityManager.validateTransaction], and a sequence. *)
Record Validation : Type := mkValidation {
  v_from : string;
  v_to : string;
  v_amount : string;
  v_gasPrice : string;
  v_now : Z
}.

Fixpoint validations (E : Externals) (vs : list Validation)
    (s : SecurityManager.t) : SecurityManager.t :=
  match vs with
  | [] => s
  | v :: rest =>
      validations E rest
        (snd (SecurityManager.validateTransaction E (v_from v) (v_to v)
                (v_amount v) (v_gasPrice v) (v_now v) s))
  end.

End Surface.

(** * Properties *)

Lemma TransactionStatus_eqb_eq a b : TransactionStatus_eqb a b = true <-> a = b.
Proof. destruct a, b; simpl; split; congruence. Qed.

Lemma TransactionStatus_eqb_refl a : TransactionStatus_eqb a a = true.
Proof. by destruct a. Qed.

(** Unfolds the monad so that a method applied to an object computes. *)
Ltac run_method :=
  unfold bind, get, modify, throw, ret, lift, try_catch; simpl.

(** ** [MasterBridge]: what each balance operation does *)

Module MasterBridgeFacts.
Import MasterBridge Ledger.

Lemma alter_twice (f g : AssetInfo -> AssetInfo) sym (m : gmap string AssetInfo) a :
  m !! sym = Some a ->
  alter f sym (alter g sym m) = <[sym := f (g a)]> m.
Proof.
  intros Ha. apply map_eq. intros k.
  destruct (decide (sym = k)) as [->|Hne].
  - by rewrite lookup_insert_eq, !lookup_alter_eq, Ha.
  - by rewrite lookup_insert_ne, !lookup_alter_ne.
Qed.

Lemma lockTokens_ok s sym a amount now :
  paused s = false -> assets s !! sym = Some a ->
  lockTokens sym amount now s =
    (Returned tt, with_assets (<[sym := locked_by amount now a]> (assets s)) s).
Proof.
  intros Hp Ha. unfold lockTokens, assign_asset. run_method.
  rewrite Hp, Ha. simpl. by rewrite (alter_twice _ _ _ _ a).
Qed.

Lemma mintTokens_ok s sym a amount now :
  paused s = false -> assets s !! sym = Some a ->
  mintTokens sym amount now s =
    (Returned tt, with_assets (<[sym := minted_by amount now a]> (assets s)) s).
Proof.
  intros Hp Ha. unfold mintTokens, assign_asset. run_method.
  rewrite Hp, Ha. simpl. by rewrite (alter_twice _ _ _ _ a).
Qed.

Lemma unlockTokens_ok s sym a amount now :
  paused s = false -> assets s !! sym = Some a -> amount <= lockedAmount a ->
  unlockTokens sym amount now s =
    (Returned tt, with_assets (<[sym := locked_by (- amount) now a]> (assets s)) s).
Proof.
  intros Hp Ha Hle. unfold unlockTokens, assign_asset. run_method.
  rewrite Hp, Ha. destruct (Z.ltb_spec (lockedAmount a) amount); [lia|]. simpl.
  rewrite (alter_twice _ _ _ _ a) by done.
  unfold locked_by. by rewrite Z.add_opp_r.
Qed.

Lemma burnTokens_ok s sym a amount now :
  paused s = false -> assets s !! sym = Some a -> amount <= mintedAmount a ->
  burnTokens sym amount now s =
    (Returned tt, with_assets (<[sym := minted_by (- amount) now a]> (assets s)) s).
Proof.
  intros Hp Ha Hle. unfold burnTokens, assign_asset. run_method.
  rewrite Hp, Ha. destruct (Z.ltb_spec (mintedAmount a) amount); [lia|]. simpl.
  rewrite (alter_twice _ _ _ _ a) by done.
  unfold minted_by. by rewrite Z.add_opp_r.
Qed.

Lemma unlockTokens_insufficient s sym a amount now :
  paused s = false -> assets s !! sym = Some a -> lockedAmount a < amount ->
  unlockTokens sym amount now s =
    (Threw (BridgeError ("Insufficient locked amount for " +:+ sym)), s).
Proof.
  intros Hp Ha Hlt. unfold unlockTokens. run_method. rewrite Hp, Ha.
  by destruct (Z.ltb_spec (lockedAmount a) amount); [|lia].
Qed.

Lemma burnTokens_insufficient s sym a amount now :
  paused s = false -> assets s !! sym = Some a -> mintedAmount a < amount ->
  burnTokens sym amount now s =
    (Threw (BridgeError ("Insufficient minted amount for " +:+ sym)), s).
Proof.
  intros Hp Ha Hlt. unfold burnTokens. run_method. rewrite Hp, Ha.
  by destruct (Z.ltb_spec (mintedAmount a) amount); [|lia].
Qed.

Lemma unknown_asset s sym amount now :
  paused s = false -> assets s !! sym = None ->
  lockTokens sym amount now s = (Threw (not_registered sym), s) /\
  unlockTokens sym amount now s = (Threw (not_registered sym), s) /\
  mintTokens sym amount now s = (Threw (not_registered sym), s) /\
  burnTokens sym amount now s = (Threw (not_registered sym), s).
Proof.
  intros Hp Ha. unfold lockTokens, unlockTokens, mintTokens, burnTokens.
  run_method. by rewrite Hp, Ha.
Qed.

Lemma when_paused s sym amount now :
  paused s = true ->
  lockTokens sym amount now s = (Threw bridge_paused, s) /\
  unlockTokens sym amount now s = (Threw bridge_paused, s) /\
  mintTokens sym amount now s = (Threw bridge_paused, s) /\
  burnTokens sym amount now s = (Threw bridge_paused, s).
Proof.
  intros Hp. unfold lockTokens, unlockTokens, mintTokens, burnTokens.
  run_method. by rewrite Hp.
Qed.

End MasterBridgeFacts.

Module EmergencyWithdraw.
Import MasterBridge.

(** C10. For a registered symbol, [emergencyWithdraw] returns normally and
    leaves that asset with [lockedAmount = 0] and [mintedAmount = 0] (so
    [getTotalSupply] over the registry reads 0, whatever was locked or minted
    before); every other asset, the transaction map, the validator set and
    the remaining fields of the bridge are as they were. *)
Theorem emergencyWithdraw_zeroes_only_that_asset s sym a now :
  assets s !! sym = Some a ->
  exists s',
    emergencyWithdraw sym now s = (Returned tt, s') /\
    assets s' !! sym =
      Some (mkAssetInfo (tokenAddress a) (symbol a) (decimals a) 0 0 (isActive a) now) /\
    (forall toks, fst (AssetManager.getTotalSupply sym (AssetManager.mk (assets s') toks))
                  = Returned 0) /\
    (forall other, other <> sym -> assets s' !! other = assets s !! other) /\
    transactions s' = transactions s /\
    validators s' = validators s /\
    paused s' = paused s /\
    initialized s' = initialized s /\
    bridgeId s' = bridgeId s.
Proof.
  intros Ha. eexists. split.
  { unfold emergencyWithdraw, assign_asset. run_method. rewrite Ha. reflexivity. }
  simpl. repeat split.
  - by rewrite !lookup_alter_eq, Ha.
  - intros toks. unfold AssetManager.getTotalSupply. run_method.
    by rewrite !lookup_alter_eq, Ha.
  - intros other Hne. by rewrite !lookup_alter_ne.
Qed.

Lemma emergencyWithdraw_zeroes_only_that_asset_witness :
  let s := Ledger.run [Ledger.mkRequest Ledger.Lock "USDC" 100 1;
                       Ledger.mkRequest Ledger.Mint "USDC" 7 2;
                       Ledger.mkRequest Ledger.Lock "WBTC" 5 3]
             (snd (registerAsset "WBTC" "0xB" 0
                (snd (registerAsset "USDC" "0xA" 0 (new "bridge"))))) in
  exists s',
    emergencyWithdraw "USDC" 9 s = (Returned tt, s') /\
    assets s' !! "USDC" = Some (mkAssetInfo "0xA" "USDC" 18 0 0 true 9) /\
    (forall toks, fst (AssetManager.getTotalSupply "USDC" (AssetManager.mk (assets s') toks))
                  = Returned 0) /\
    (forall other, other <> "USDC" -> assets s' !! other = assets s !! other) /\
    transactions s' = transactions s /\
    validators s' = validators s /\
    paused s' = paused s /\
    initialized s' = initialized s /\
    bridgeId s' = bridgeId s.
Proof.
  intros s.
  apply (emergencyWithdraw_zeroes_only_that_asset s "USDC"
           (mkAssetInfo "0xA" "USDC" 18 100 7 true 2) 9).
  vm_compute. reflexivity.
Defined.

End EmergencyWithdraw.

(** ** Conservation of the balances *)

Module Conservation.
Import MasterBridge Ledger MasterBridgeFacts.

Ltac step_simpl :=
  cbn [snd fst succeeded total_of kind on_symbol amount at_time assets
       with_assets locked_by minted_by set_lastUpdate set_lockedAmount
       set_mintedAmount lockedAmount mintedAmount].

(** One call: the asset stays registered, and its balances move by the
    call's amount when the call returned and not at all when it threw. *)
Lemma perform_step sym r s a :
  assets s !! sym = Some a ->
  exists a',
    assets (snd (perform r s)) !! sym = Some a' /\
    lockedAmount a' =
      lockedAmount a + (if succeeded (perform r s) then locked_delta sym r else 0) /\
    mintedAmount a' =
      mintedAmount a + (if succeeded (perform r s) then minted_delta sym r else 0) /\
    (0 <= amount r -> 0 <= lockedAmount a -> 0 <= lockedAmount a') /\
    (0 <= amount r -> 0 <= mintedAmount a -> 0 <= mintedAmount a').
Proof.
  intros Ha. destruct r as [k sy am tm].
  assert (Hsame : forall b, sy = sym -> assets s !! sy = Some b -> b = a)
    by (intros b -> Hb; congruence).
  unfold perform, locked_delta, minted_delta; step_simpl.
  destruct (paused s) eqn:Hp.
  { destruct (when_paused s sy am tm Hp) as (Hl & Hu & Hm & Hb).
    exists a. destruct k; rewrite ?Hl, ?Hu, ?Hm, ?Hb; step_simpl;
      repeat split; auto; lia. }
  destruct (assets s !! sy) as [b|] eqn:Hb.
  2:{ destruct (unknown_asset s sy am tm Hp Hb) as (Hl & Hu & Hm & Hbu).
      exists a. destruct k; rewrite ?Hl, ?Hu, ?Hm, ?Hbu; step_simpl;
        repeat split; auto; lia. }
  destruct k.
  - rewrite (lockTokens_ok s sy b am tm Hp Hb).
    step_simpl.
    case_bool_decide as Hsy.
    + rewrite (Hsame b Hsy eq_refl) in *. subst sy. rewrite lookup_insert_eq.
      eexists; split; [reflexivity|]. step_simpl. repeat split; lia.
    + rewrite lookup_insert_ne by done. exists a. repeat split; auto; lia.
  - destruct (Z.le_gt_cases am (lockedAmount b)) as [Hle|Hgt].
    + rewrite (unlockTokens_ok s sy b am tm Hp Hb Hle).
    step_simpl.
      case_bool_decide as Hsy.
      * rewrite (Hsame b Hsy eq_refl) in *. subst sy. rewrite lookup_insert_eq.
        eexists; split; [reflexivity|]. step_simpl. repeat split; lia.
      * rewrite lookup_insert_ne by done. exists a. repeat split; auto; lia.
    + rewrite (unlockTokens_insufficient s sy b am tm Hp Hb Hgt).
    step_simpl.
      exists a. repeat split; auto; lia.
  - rewrite (mintTokens_ok s sy b am tm Hp Hb).
    step_simpl.
    case_bool_decide as Hsy.
    + rewrite (Hsame b Hsy eq_refl) in *. subst sy. rewrite lookup_insert_eq.
      eexists; split; [reflexivity|]. step_simpl. repeat split; lia.
    + rewrite lookup_insert_ne by done. exists a. repeat split; auto; lia.
  - destruct (Z.le_gt_cases am (mintedAmount b)) as [Hle|Hgt].
    + rewrite (burnTokens_ok s sy b am tm Hp Hb Hle).
    step_simpl.
      case_bool_decide as Hsy.
      * rewrite (Hsame b Hsy eq_refl) in *. subst sy. rewrite lookup_insert_eq.
        eexists; split; [reflexivity|]. step_simpl. repeat split; lia.
      * rewrite lookup_insert_ne by done. exists a. repeat split; auto; lia.
    + rewrite (burnTokens_insufficient s sy b am tm Hp Hb Hgt).
    step_simpl.
      exists a. repeat split; auto; lia.
Qed.

(** Any sequence, from any bridge on which the symbol is registered. *)
Lemma run_balances sym rs : forall s a,
  assets s !! sym = Some a ->
  exists a',
    assets (run rs s) !! sym = Some a' /\
    lockedAmount a' = lockedAmount a
      + (total_of Lock sym (successful rs s) - total_of Unlock sym (successful rs s)) /\
    mintedAmount a' = mintedAmount a
      + (total_of Mint sym (successful rs s) - total_of Burn sym (successful rs s)) /\
    (Forall (fun r => 0 <= amount r) rs ->
     0 <= lockedAmount a -> 0 <= mintedAmount a ->
     0 <= lockedAmount a' /\ 0 <= mintedAmount a').
Proof.
  induction rs as [|r rs IH]; intros s a Ha.
  - exists a. simpl. repeat split; auto; lia.
  - destruct (perform_step sym r s a Ha) as (a1 & Ha1 & Hl1 & Hm1 & Hnl & Hnm).
    destruct (IH _ _ Ha1) as (a' & Ha' & Hl & Hm & Hnn).
    exists a'. cbn [run successful]. split; [exact Ha'|].
    unfold locked_delta, minted_delta in *.
    assert (Hkeep : Forall (fun r => 0 <= amount r) (r :: rs) ->
                    0 <= lockedAmount a -> 0 <= mintedAmount a ->
                    0 <= lockedAmount a' /\ 0 <= mintedAmount a').
    { intros Hall H0l H0m. inversion Hall; subst. apply Hnn; auto. }
    destruct (succeeded (perform r s)); cbn [total_of] in *;
      (split; [lia|]); (split; [lia|]); exact Hkeep.
Qed.

(** The registry class itself has no operation that moves a balance: on an
    [AssetManager] every registered asset keeps the balances 0 and 0 it was
    registered with, and [getTotalSupply] reads 0. *)
Lemma registry_balances_stay_zero cs : forall (s : AssetManager.t),
  (forall sym a, AssetManager.assets s !! sym = Some a ->
                 lockedAmount a = 0 /\ mintedAmount a = 0) ->
  forall sym a, AssetManager.assets (run_registry cs s) !! sym = Some a ->
                lockedAmount a = 0 /\ mintedAmount a = 0.
Proof.
  induction cs as [|c cs IH]; intros s Hzero; [exact Hzero|].
  cbn [run_registry]. apply IH. clear IH.
  destruct c as [sym addr now|sym]; cbn [registry_call];
    [unfold AssetManager.registerAsset | unfold AssetManager.unregisterAsset];
    run_method.
  - repeat case_bool_decide; simpl; try exact Hzero.
    intros sym' a'. destruct (decide (sym = sym')) as [->|Hne].
    + rewrite lookup_insert_eq. intros [= <-]. by split.
    + rewrite lookup_insert_ne by done. apply Hzero.
  - destruct (AssetManager.assets s !! sym) as [asset|] eqn:Hs; simpl; [|exact Hzero].
    intros sym' a'. destruct (decide (sym = sym')) as [->|Hne].
    + by rewrite lookup_delete_eq.
    + rewrite lookup_delete_ne by done. apply Hzero.
Qed.

Lemma registry_total_supply_zero cs sym :
  is_Some (AssetManager.assets (run_registry cs AssetManager.empty) !! sym) ->
  fst (AssetManager.getTotalSupply sym (run_registry cs AssetManager.empty)) = Returned 0.
Proof.
  intros [a Ha]. unfold AssetManager.getTotalSupply. run_method. rewrite Ha. simpl.
  destruct (registry_balances_stay_zero cs AssetManager.empty) with sym a as [-> ->];
    [|exact Ha|reflexivity].
  intros sym' a'. simpl. by rewrite lookup_empty.
Qed.

Lemma registerAsset_fresh s0 sym addr t0 s :
  registerAsset sym addr t0 s0 = (Returned tt, s) ->
  assets s !! sym = Some (fresh_asset sym addr t0).
Proof.
  unfold registerAsset. run_method.
  destruct (paused s0); [discriminate|].
  case_bool_decide; [discriminate|].
  intros [= <-]. simpl. apply lookup_insert_eq.
Qed.

(** The part of the conservation invariant that holds: once a symbol is
    registered, after any sequence of [lockTokens],
    [unlockTokens], [mintTokens] and [burnTokens] calls (on this or other
    symbols, some of them possibly throwing) the asset is still registered,
    its [lockedAmount] is the sum of the successful locks minus the successful
    unlocks on it, its [mintedAmount] the successful mints minus the
    successful burns, so [lockedAmount + mintedAmount], which is what
    [getTotalSupply] reads from the registry, is the sum of the successful
    locks and mints minus the successful unlocks and burns, for all amounts.
    When every amount is non-negative, neither balance nor their sum is ever
    negative. *)
Lemma conservation s0 sym addr t0 s rs :
  registerAsset sym addr t0 s0 = (Returned tt, s) ->
  let done := successful rs s in
  let net := total_of Lock sym done + total_of Mint sym done
             - total_of Unlock sym done - total_of Burn sym done in
  exists a,
    assets (run rs s) !! sym = Some a /\
    lockedAmount a = total_of Lock sym done - total_of Unlock sym done /\
    mintedAmount a = total_of Mint sym done - total_of Burn sym done /\
    lockedAmount a + mintedAmount a = net /\
    (forall toks,
       fst (AssetManager.getTotalSupply sym (AssetManager.mk (assets (run rs s)) toks))
       = Returned net) /\
    (Forall (fun r => 0 <= amount r) rs ->
     0 <= lockedAmount a /\ 0 <= mintedAmount a /\ 0 <= net).
Proof.
  intros Hreg done net.
  apply registerAsset_fresh in Hreg.
  destruct (run_balances sym rs s _ Hreg) as (a & Ha & Hl & Hm & Hnn).
  simpl in Hl, Hm. fold done in Hl, Hm.
  exists a. split; [exact Ha|].
  split; [lia|]. split; [lia|]. split; [subst net; lia|]. split.
  - intros toks. unfold AssetManager.getTotalSupply. run_method.
    rewrite Ha. simpl. f_equal. subst net. lia.
  - intros Hpos. destruct (Hnn Hpos) as [H0l H0m]; [simpl; lia..|].
    subst net. lia.
Qed.

Lemma conservation_witness :
  let s0 := new "bridge" in
  let s := snd (registerAsset "USDC" "0xA" 0 s0) in
  let rs := [mkRequest Lock "USDC" 100 1; mkRequest Mint "USDC" 40 2;
             mkRequest Unlock "USDC" 500 3; mkRequest Burn "USDC" 15 4;
             mkRequest Lock "WBTC" 9 5; mkRequest Unlock "USDC" 30 6] in
  exists a,
    assets (run rs s) !! "USDC" = Some a /\
    lockedAmount a = 100 - 30 /\
    mintedAmount a = 40 - 15 /\
    lockedAmount a + mintedAmount a = 95 /\
    (forall toks,
       fst (AssetManager.getTotalSupply "USDC"
              (AssetManager.mk (assets (run rs s)) toks)) = Returned 95) /\
    0 <= lockedAmount a /\ 0 <= mintedAmount a /\ 0 <= 95.
Proof.
  intros s0 s rs.
  destruct (conservation s0 "USDC" "0xA" 0 s rs eq_refl)
    as (a & Ha & Hl & Hm & Hsum & Hts & Hnn).
  exists a. split; [exact Ha|]. split; [exact Hl|]. split; [exact Hm|].
  split; [exact Hsum|]. split; [exact Hts|].
  apply Hnn. repeat constructor; simpl; lia.
Defined.

(** The sibling bridge checks the amount: on an initialized
    [AvalancheCeloBridge] that is not paused, the four operations refuse an
    amount below the minimum configured for the token. *)
Lemma celo_refuses_amounts_below_the_minimum E b sym a info lo hi daily requested :
  AvalancheCeloBridge.isBridgeInitialized b = true ->
  AvalancheCeloBridge.isPaused b = false ->
  AssetManager.assets (AvalancheCeloBridge.assetManager b) !! sym = Some a ->
  AvalancheCeloBridge.supportedTokens b !! tokenAddress a = Some info ->
  AvalancheCeloBridge.isSupported info = true ->
  BigInt_of_string E (AvalancheCeloBridge.minAmount info) = Returned lo ->
  BigInt_of_string E (AvalancheCeloBridge.maxAmount info) = Returned hi ->
  BigInt_of_string E (AvalancheCeloBridge.dailyLimit info) = Returned daily ->
  requested < lo ->
  fst (CeloTransfers.lockTokens E sym requested b)
    = Threw (BridgeError "Amount below minimum") /\
  fst (CeloTransfers.unlockTokens E sym requested b)
    = Threw (BridgeError "Amount below minimum") /\
  fst (CeloTransfers.mintTokens E sym requested b)
    = Threw (BridgeError "Amount below minimum") /\
  fst (CeloTransfers.burnTokens E sym requested b)
    = Threw (BridgeError "Amount below minimum").
Proof.
  intros Hi Hp Ha Hinfo Hsup Hlo Hhi Hd Hlt.
  assert (Hcmp : (requested <? lo) = true) by by apply Z.ltb_lt.
  repeat split;
    unfold CeloTransfers.lockTokens, CeloTransfers.unlockTokens,
      CeloTransfers.mintTokens, CeloTransfers.burnTokens,
      CeloTransfers.validateTransaction, AvalancheCeloBridge.on_assetManager,
      AssetManager.getAssetAddress;
    run_method; rewrite Hi, Hp; simpl; rewrite Ha; simpl; rewrite Hinfo, Hsup;
    simpl; rewrite Hlo; simpl; rewrite Hhi; simpl; rewrite Hd; simpl;
    by rewrite Hcmp.
Qed.

(** C1, on a [MasterBridge]: [unlockTokens] refuses to take a balance below
    zero (on the freshly registered USDC, unlocking 1 throws), but no
    operation looks at the sign of the amount.  After USDC is registered,
    [unlockTokens] of -5 and [lockTokens] of -12 both return; [lockedAmount]
    is then -7 and [mintedAmount] 0, so the total that [getTotalSupply]
    computes, still the net of the successful operations, is negative. *)
Theorem negative_amounts_make_the_total_negative :
  let s := snd (registerAsset "USDC" "0xA" 0 (new "bridge")) in
  let rs := [mkRequest Unlock "USDC" (-5) 1; mkRequest Lock "USDC" (-12) 2] in
  let done := successful rs s in
  let net := total_of Lock "USDC" done + total_of Mint "USDC" done
             - total_of Unlock "USDC" done - total_of Burn "USDC" done in
  unlockTokens "USDC" 1 1 s =
    (Threw (BridgeError "Insufficient locked amount for USDC"), s) /\
  done = rs /\
  (exists a,
     assets (run rs s) !! "USDC" = Some a /\
     lockedAmount a = -7 /\ mintedAmount a = 0 /\
     lockedAmount a + mintedAmount a = net /\
     lockedAmount a + mintedAmount a < 0) /\
  (forall toks,
     fst (AssetManager.getTotalSupply "USDC"
            (AssetManager.mk (assets (run rs s)) toks)) = Returned (-7)).
Proof.
  cbv zeta. split; [vm_compute; reflexivity|]. split; [vm_compute; reflexivity|].
  split.
  - eexists. split; [vm_compute; reflexivity|]. repeat split.
  - intros toks. vm_compute. reflexivity.
Qed.

End Conservation.

(** ** Failure cases of the balance operations *)

Module BalanceErrors.
Import MasterBridge Ledger MasterBridgeFacts Examples.

(** C4, as stated, fails: on an asset that is not registered every one of
    the four operations throws, but what it throws is a BridgeError, not an
    AssetError. *)
Lemma unknown_asset_is_not_an_AssetError :
  let s := new "bridge" in
  assets s !! "USDC" = None /\
  fst (lockTokens "USDC" 100 0 s) = Threw (BridgeError "Asset USDC not registered") /\
  fst (unlockTokens "USDC" 100 0 s) = Threw (BridgeError "Asset USDC not registered") /\
  fst (mintTokens "USDC" 100 0 s) = Threw (BridgeError "Asset USDC not registered") /\
  fst (burnTokens "USDC" 100 0 s) = Threw (BridgeError "Asset USDC not registered") /\
  ~ (exists m, fst (lockTokens "USDC" 100 0 s) = Threw (AssetError m)) /\
  ~ (exists m, fst (unlockTokens "USDC" 100 0 s) = Threw (AssetError m)) /\
  ~ (exists m, fst (mintTokens "USDC" 100 0 s) = Threw (AssetError m)) /\
  ~ (exists m, fst (burnTokens "USDC" 100 0 s) = Threw (AssetError m)).
Proof.
  cbv zeta. repeat split; try reflexivity; intros [m Hm]; vm_compute in Hm; discriminate.
Qed.

(** C4, amended.  While the bridge is paused the four operations throw the
    BridgeError "Bridge is paused".  While it is not paused: on an unknown
    asset the four operations throw the BridgeError
    "Asset <symbol> not registered";
    [unlockTokens] (resp. [burnTokens]) throws a BridgeError when the amount
    exceeds [lockedAmount] (resp. [mintedAmount]); otherwise [unlockTokens]
    (resp. [burnTokens]) returns and lowers [lockedAmount]
    (resp. [mintedAmount]) by exactly the amount, the other balance staying
    put.  In every case of failure the bridge is left exactly as it was.
    After lock 100 and lock 50, unlock 120 returns and leaves
    [lockedAmount = 30], and a further unlock 31 throws. *)
Theorem balance_operations_fail_with_BridgeError s sym amount now :
  (paused s = true ->
     lockTokens sym amount now s = (Threw (BridgeError "Bridge is paused"), s) /\
     unlockTokens sym amount now s = (Threw (BridgeError "Bridge is paused"), s) /\
     mintTokens sym amount now s = (Threw (BridgeError "Bridge is paused"), s) /\
     burnTokens sym amount now s = (Threw (BridgeError "Bridge is paused"), s)) /\
  (paused s = false -> assets s !! sym = None ->
     lockTokens sym amount now s
       = (Threw (BridgeError ("Asset " +:+ sym +:+ " not registered")), s) /\
     unlockTokens sym amount now s
       = (Threw (BridgeError ("Asset " +:+ sym +:+ " not registered")), s) /\
     mintTokens sym amount now s
       = (Threw (BridgeError ("Asset " +:+ sym +:+ " not registered")), s) /\
     burnTokens sym amount now s
       = (Threw (BridgeError ("Asset " +:+ sym +:+ " not registered")), s)) /\
  (forall a, paused s = false -> assets s !! sym = Some a ->
     (lockedAmount a < amount ->
        unlockTokens sym amount now s
          = (Threw (BridgeError ("Insufficient locked amount for " +:+ sym)), s)) /\
     (mintedAmount a < amount ->
        burnTokens sym amount now s
          = (Threw (BridgeError ("Insufficient minted amount for " +:+ sym)), s)) /\
     (amount <= lockedAmount a ->
        exists s' a',
          unlockTokens sym amount now s = (Returned tt, s') /\
          assets s' !! sym = Some a' /\
          lockedAmount a' = lockedAmount a - amount /\
          mintedAmount a' = mintedAmount a) /\
     (amount <= mintedAmount a ->
        exists s' a',
          burnTokens sym amount now s = (Returned tt, s') /\
          assets s' !! sym = Some a' /\
          mintedAmount a' = mintedAmount a - amount /\
          lockedAmount a' = lockedAmount a)) /\
  (exists s1 s2 a1,
     unlockTokens "USDC" 120 3 usdc_150 = (Returned tt, s1) /\
     assets s1 !! "USDC" = Some a1 /\ lockedAmount a1 = 30 /\
     unlockTokens "USDC" 31 4 s1
       = (Threw (BridgeError "Insufficient locked amount for USDC"), s2) /\
     s2 = s1).
Proof.
  split; [|split; [|split]].
  - intros Hp. apply (when_paused s sym amount now Hp).
  - intros Hp Hnone. apply (unknown_asset s sym amount now Hp Hnone).
  - intros a Hp Ha. repeat split.
    + intros Hlt. by apply unlockTokens_insufficient with a.
    + intros Hlt. by apply burnTokens_insufficient with a.
    + intros Hle. rewrite (unlockTokens_ok s sym a amount now Hp Ha Hle).
      do 2 eexists. split; [reflexivity|]. cbn [assets with_assets].
      rewrite lookup_insert_eq. split; [reflexivity|]. simpl. lia.
    + intros Hle. rewrite (burnTokens_ok s sym a amount now Hp Ha Hle).
      do 2 eexists. split; [reflexivity|]. cbn [assets with_assets].
      rewrite lookup_insert_eq. split; [reflexivity|]. simpl. lia.
  - do 3 eexists. split; [vm_compute; reflexivity|].
    split; [vm_compute; reflexivity|]. split; [reflexivity|].
    split; vm_compute; reflexivity.
Qed.

Lemma balance_operations_fail_with_BridgeError_witness :
  (exists s' a',
     unlockTokens "USDC" 120 3 usdc_150 = (Returned tt, s') /\
     assets s' !! "USDC" = Some a' /\
     lockedAmount a' = 150 - 120 /\ mintedAmount a' = 0) /\
  unlockTokens "USDC" 151 3 usdc_150
    = (Threw (BridgeError "Insufficient locked amount for USDC"), usdc_150) /\
  burnTokens "USDC" 1 3 usdc_150
    = (Threw (BridgeError "Insufficient minted amount for USDC"), usdc_150) /\
  lockTokens "WBTC" 5 3 usdc_150
    = (Threw (BridgeError "Asset WBTC not registered"), usdc_150) /\
  (lockTokens "USDC" 5 3 (with_paused true usdc_150)
     = (Threw (BridgeError "Bridge is paused"), with_paused true usdc_150) /\
   unlockTokens "USDC" 5 3 (with_paused true usdc_150)
     = (Threw (BridgeError "Bridge is paused"), with_paused true usdc_150) /\
   mintTokens "USDC" 5 3 (with_paused true usdc_150)
     = (Threw (BridgeError "Bridge is paused"), with_paused true usdc_150) /\
   burnTokens "USDC" 5 3 (with_paused true usdc_150)
     = (Threw (BridgeError "Bridge is paused"), with_paused true usdc_150)).
Proof.
  assert (Hp : paused usdc_150 = false) by reflexivity.
  assert (Ha : assets usdc_150 !! "USDC" = Some (mkAssetInfo "0xA" "USDC" 18 150 0 true 2))
    by (vm_compute; reflexivity).
  destruct (balance_operations_fail_with_BridgeError usdc_150 "USDC" 120 3)
    as (_ & _ & Hknown & _).
  destruct (Hknown _ Hp Ha) as (_ & _ & Hunlock & _).
  destruct (balance_operations_fail_with_BridgeError usdc_150 "USDC" 151 3)
    as (_ & _ & Hknown2 & _).
  destruct (Hknown2 _ Hp Ha) as (Hshort & _).
  destruct (balance_operations_fail_with_BridgeError usdc_150 "USDC" 1 3)
    as (_ & _ & Hknown1 & _).
  destruct (Hknown1 _ Hp Ha) as (_ & Hburn & _).
  destruct (balance_operations_fail_with_BridgeError usdc_150 "WBTC" 5 3)
    as (_ & Hunknown & _).
  destruct (balance_operations_fail_with_BridgeError
              (with_paused true usdc_150) "USDC" 5 3) as (Hpaused & _).
  split; [|split; [|split; [|split]]].
  - apply Hunlock. simpl. lia.
  - apply Hshort. simpl. lia.
  - apply Hburn. simpl. lia.
  - apply Hunknown; [exact Hp|]. vm_compute. reflexivity.
  - apply Hpaused. reflexivity.
Defined.

End BalanceErrors.

(** ** The pause guard of [emergencyWithdraw] *)

Module EmergencyGuard.
Import MasterBridge Ledger.

(** [AvalancheCeloBridge.emergencyWithdraw] refuses to run on a bridge that
    is initialized and not paused, and leaves it untouched. *)
Lemma celo_emergencyWithdraw_needs_pause (s : AvalancheCeloBridge.t) sym :
  AvalancheCeloBridge.isBridgeInitialized s = true ->
  AvalancheCeloBridge.isPaused s = false ->
  AvalancheCeloBridge.emergencyWithdraw sym s
    = (Threw (BridgeError "Bridge must be paused for emergency withdrawal"), s).
Proof.
  intros Hi Hp. unfold AvalancheCeloBridge.emergencyWithdraw. run_method.
  by rewrite Hi, Hp.
Qed.

(** [MasterBridge.emergencyWithdraw] never reads [paused]: on a registered
    symbol it returns whatever the flag is. *)
Lemma emergencyWithdraw_ignores_pause s sym a now :
  assets s !! sym = Some a ->
  succeeded (emergencyWithdraw sym now s) = true.
Proof.
  intros Ha. unfold emergencyWithdraw, assign_asset. run_method. by rewrite Ha.
Qed.

(** C8, on the bridge that is not paused and holds 100 locked and 7 minted
    USDC: [emergencyWithdraw] does not throw, and wipes both balances. *)
Theorem emergencyWithdraw_runs_while_not_paused :
  let s := run [mkRequest Lock "USDC" 100 1; mkRequest Mint "USDC" 7 2]
               (snd (registerAsset "USDC" "0xA" 0 (new "bridge"))) in
  paused s = false /\
  assets s !! "USDC" = Some (mkAssetInfo "0xA" "USDC" 18 100 7 true 2) /\
  fst (emergencyWithdraw "USDC" 9 s) = Returned tt /\
  assets (snd (emergencyWithdraw "USDC" 9 s)) !! "USDC"
    = Some (mkAssetInfo "0xA" "USDC" 18 0 0 true 9) /\
  snd (emergencyWithdraw "USDC" 9 s) <> s.
Proof.
  cbv zeta. repeat split; try (vm_compute; reflexivity).
  intros Heq. apply (f_equal (fun x => lockedAmount <$> assets x !! "USDC")) in Heq.
  vm_compute in Heq. discriminate.
Qed.

End EmergencyGuard.

(** ** Registration *)

Module Registration.

(** *** The registry [AssetManager] *)

Lemma registry_duplicate (s : AssetManager.t) sym addr now :
  is_Some (AssetManager.assets s !! sym) \/
  is_Some (AssetManager.tokenAddresses s !! addr) ->
  exists m, AssetManager.registerAsset sym addr now s = (Threw (AssetError m), s).
Proof.
  intros Hdup. unfold AssetManager.registerAsset. run_method.
  case_bool_decide as Hs; [eauto|].
  case_bool_decide as Ha; [eauto|]. tauto.
Qed.

Lemma registry_register_fresh (s : AssetManager.t) sym addr now :
  AssetManager.assets s !! sym = None ->
  AssetManager.tokenAddresses s !! addr = None ->
  AssetManager.registerAsset sym addr now s =
    (Returned tt,
     AssetManager.mk (<[sym := fresh_asset sym addr now]> (AssetManager.assets s))
                     (<[addr := sym]> (AssetManager.tokenAddresses s))).
Proof.
  intros Hs Ha. unfold AssetManager.registerAsset. run_method.
  rewrite Hs, Ha.
  rewrite !bool_decide_eq_false_2 by (intros [? ?]; discriminate).
  reflexivity.
Qed.

Lemma registry_unregister (s : AssetManager.t) sym a :
  AssetManager.assets s !! sym = Some a ->
  AssetManager.unregisterAsset sym s =
    (Returned tt,
     AssetManager.mk (delete sym (AssetManager.assets s))
                     (delete (tokenAddress a) (AssetManager.tokenAddresses s))).
Proof.
  intros Ha. unfold AssetManager.unregisterAsset. run_method. by rewrite Ha.
Qed.

Lemma registry_unregister_unknown (s : AssetManager.t) sym :
  AssetManager.assets s !! sym = None ->
  AssetManager.unregisterAsset sym s =
    (Threw (AssetError ("Asset " +:+ sym +:+ " not registered")), s).
Proof.
  intros Ha. unfold AssetManager.unregisterAsset. run_method. by rewrite Ha.
Qed.

(** *** The facade [MasterBridge] *)

Lemma bridge_duplicate (s : MasterBridge.t) sym addr now :
  MasterBridge.paused s = false ->
  is_Some (MasterBridge.assets s !! sym) ->
  MasterBridge.registerAsset sym addr now s =
    (Threw (BridgeError ("Asset " +:+ sym +:+ " already registered")), s).
Proof.
  intros Hp Hs. unfold MasterBridge.registerAsset. run_method.
  rewrite Hp. by rewrite bool_decide_eq_true_2.
Qed.

Lemma bridge_unregister_then_register (s s' : MasterBridge.t) sym addr now :
  MasterBridge.unregisterAsset sym s = (Returned tt, s') ->
  exists s'', MasterBridge.registerAsset sym addr now s' = (Returned tt, s'').
Proof.
  unfold MasterBridge.unregisterAsset, MasterBridge.registerAsset. run_method.
  destruct (MasterBridge.paused s) eqn:Hp; [discriminate|].
  case_bool_decide; simpl; [|discriminate].
  intros [= <-]. simpl. rewrite Hp, lookup_delete_eq.
  rewrite bool_decide_eq_false_2 by (intros [? ?]; discriminate).
  eauto.
Qed.

(** C6, as stated, fails on the facade: registering a symbol a second time
    on a [MasterBridge] throws a BridgeError, not an AssetError. *)
Lemma bridge_duplicate_is_not_an_AssetError :
  let s := snd (MasterBridge.registerAsset "USDC" "0xA" 0 (MasterBridge.new "bridge")) in
  is_Some (MasterBridge.assets s !! "USDC") /\
  fst (MasterBridge.registerAsset "USDC" "0xA" 1 s)
    = Threw (BridgeError "Asset USDC already registered") /\
  ~ (exists m, fst (MasterBridge.registerAsset "USDC" "0xA" 1 s) = Threw (AssetError m)).
Proof.
  cbv zeta. split; [|split].
  - vm_compute. eauto.
  - vm_compute. reflexivity.
  - intros [m Hm]. vm_compute in Hm. discriminate.
Qed.

(** C6, amended. In the registry ([AssetManager]) [registerAsset] throws an
    AssetError, and changes nothing, whenever the symbol or the token address
    is already registered; in the facade ([MasterBridge], not paused) it
    throws a BridgeError, and changes nothing, whenever the symbol is already
    registered.  In both, once [unregisterAsset] has returned for a symbol,
    [registerAsset] with that symbol and the token address it had returns
    normally. *)
Theorem registration_uniqueness :
  (forall (s : AssetManager.t) sym addr now,
     is_Some (AssetManager.assets s !! sym) \/
     is_Some (AssetManager.tokenAddresses s !! addr) ->
     exists m, AssetManager.registerAsset sym addr now s = (Threw (AssetError m), s)) /\
  (forall (s : AssetManager.t) sym a now,
     AssetManager.assets s !! sym = Some a ->
     exists s' s'',
       AssetManager.unregisterAsset sym s = (Returned tt, s') /\
       AssetManager.registerAsset sym (tokenAddress a) now s' = (Returned tt, s'') /\
       AssetManager.assets s'' !! sym = Some (fresh_asset sym (tokenAddress a) now)) /\
  (forall (s s1 : AssetManager.t) sym addr t0,
     AssetManager.registerAsset sym addr t0 s = (Returned tt, s1) ->
     exists a, AssetManager.assets s1 !! sym = Some a /\ tokenAddress a = addr) /\
  (forall (s : MasterBridge.t) sym addr now,
     MasterBridge.paused s = false ->
     is_Some (MasterBridge.assets s !! sym) ->
     exists m, MasterBridge.registerAsset sym addr now s = (Threw (BridgeError m), s)) /\
  (forall (s s' : MasterBridge.t) sym addr now,
     MasterBridge.unregisterAsset sym s = (Returned tt, s') ->
     exists s'', MasterBridge.registerAsset sym addr now s' = (Returned tt, s'')).
Proof.
  split; [|split; [|split; [|split]]].
  - apply registry_duplicate.
  - intros s sym a now Ha.
    rewrite (registry_unregister s sym a Ha).
    do 2 eexists. split; [reflexivity|].
    rewrite registry_register_fresh; cbn [AssetManager.assets AssetManager.tokenAddresses];
      rewrite ?lookup_delete_eq; try reflexivity.
    split; [reflexivity|]. cbn [AssetManager.assets]. apply lookup_insert_eq.
  - intros s s1 sym addr t0. unfold AssetManager.registerAsset. run_method.
    repeat case_bool_decide; try discriminate.
    intros [= <-]. eexists. cbn [AssetManager.assets].
    rewrite lookup_insert_eq. split; reflexivity.
  - intros s sym addr now Hp Hs. eexists. by apply bridge_duplicate.
  - apply bridge_unregister_then_register.
Qed.

Lemma registration_uniqueness_witness :
  let r1 := snd (AssetManager.registerAsset "USDC" "0xA" 0 AssetManager.empty) in
  let b1 := snd (MasterBridge.registerAsset "USDC" "0xA" 0 (MasterBridge.new "bridge")) in
  (exists m, AssetManager.registerAsset "USDC" "0xB" 1 r1 = (Threw (AssetError m), r1)) /\
  (exists m, AssetManager.registerAsset "USDT" "0xA" 1 r1 = (Threw (AssetError m), r1)) /\
  (exists s' s'',
     AssetManager.unregisterAsset "USDC" r1 = (Returned tt, s') /\
     AssetManager.registerAsset "USDC" "0xA" 2 s' = (Returned tt, s'') /\
     AssetManager.assets s'' !! "USDC" = Some (fresh_asset "USDC" "0xA" 2)) /\
  (exists m, MasterBridge.registerAsset "USDC" "0xB" 1 b1 = (Threw (BridgeError m), b1)) /\
  (exists s'', MasterBridge.registerAsset "USDC" "0xA" 2
                 (snd (MasterBridge.unregisterAsset "USDC" b1)) = (Returned tt, s'')).
Proof.
  intros r1 b1.
  destruct registration_uniqueness as (Hdup & Hre & _ & Hbdup & Hbre).
  split; [|split; [|split; [|split]]].
  - apply Hdup. left. vm_compute. eauto.
  - apply Hdup. right. vm_compute. eauto.
  - apply (Hre r1 "USDC" (fresh_asset "USDC" "0xA" 0) 2). vm_compute. reflexivity.
  - apply Hbdup; [reflexivity|]. vm_compute. eauto.
  - apply (Hbre b1). vm_compute. reflexivity.
Defined.

End Registration.

(** ** The transaction state machine *)

Module Lifecycle.
Import Ledger Examples.

(** *** [processTransaction] on a hash that is not PENDING *)

Lemma master_process_not_pending (s : MasterBridge.t) h st :
  master_status s h = Some st -> st <> PENDING ->
  exists m, MasterBridge.processTransaction h s = (Threw (BridgeError m), s).
Proof.
  unfold master_status. intros Hst Hne.
  unfold MasterBridge.processTransaction. run_method.
  destruct (MasterBridge.paused s); [by eexists|].
  destruct (MasterBridge.transactions s !! h) as [tx|]; [|discriminate].
  simpl in Hst. injection Hst as ->.
  destruct (TransactionStatus_eqb st PENDING) eqn:E.
  - apply TransactionStatus_eqb_eq in E. contradiction.
  - by eexists.
Qed.

Lemma avalanche_process_not_pending (s : AvalancheBridge.t) h receipt st :
  AvalancheBridge.status_of s h = Some st -> st <> PENDING ->
  exists m, AvalancheBridge.processTransaction h receipt s = (Threw (BridgeError m), s).
Proof.
  unfold AvalancheBridge.status_of. intros Hst Hne.
  unfold AvalancheBridge.processTransaction. run_method.
  destruct (AvalancheBridge.paused s); [by eexists|].
  destruct (AvalancheBridge.transactions s !! h) as [tx|]; [|discriminate].
  simpl in Hst. injection Hst as ->.
  destruct (TransactionStatus_eqb st PENDING) eqn:E.
  - apply TransactionStatus_eqb_eq in E. contradiction.
  - by eexists.
Qed.

(** *** No call of a [MasterBridge] rewrites a status that is not PENDING *)

Ltac split_method :=
  repeat match goal with
         | |- context [if MasterBridge.paused ?s then _ else _] =>
             destruct (MasterBridge.paused s)
         | |- context [if MasterBridge.initialized ?s then _ else _] =>
             destruct (MasterBridge.initialized s)
         | |- context [match ?m !! ?k with _ => _ end] => destruct (m !! k)
         | |- context [bool_decide ?P] => destruct (bool_decide P)
         | |- context [?a <? ?b] => destruct (a <? b)
         | |- _ => progress simpl
         end.

Lemma balance_keeps_transactions r s :
  MasterBridge.transactions (snd (Ledger.perform r s)) = MasterBridge.transactions s.
Proof.
  destruct r as [[] sym am tm]; unfold Ledger.perform; cbn [Ledger.kind];
    unfold MasterBridge.lockTokens, MasterBridge.unlockTokens,
      MasterBridge.mintTokens, MasterBridge.burnTokens, MasterBridge.assign_asset;
    run_method; cbn [Ledger.on_symbol Ledger.amount Ledger.at_time];
    split_method; reflexivity.
Qed.

Lemma master_call_keeps_terminal c now (s : MasterBridge.t) h st :
  master_status s h = Some st -> st <> PENDING ->
  master_status (snd (Ledger.call c now s)) h = Some st.
Proof.
  intros Hst Hne. destruct c; cbn [Ledger.call].
  1-3,6-10: unfold master_status in *;
    unfold MasterBridge.initialize, MasterBridge.registerAsset,
      MasterBridge.unregisterAsset, MasterBridge.addValidator,
      MasterBridge.removeValidator, MasterBridge.pause, MasterBridge.unpause,
      MasterBridge.emergencyWithdraw, MasterBridge.assign_asset;
    run_method; split_method; try exact Hst.
  - unfold master_status in *. by rewrite balance_keeps_transactions.
  - destruct (decide (h0 = h)) as [->|Hother].
    + by destruct (master_process_not_pending s h st) as [m ->].
    + unfold master_status in *.
      unfold MasterBridge.processTransaction, MasterBridge.assign_transaction.
      run_method.
      destruct (MasterBridge.paused s); [done|].
      destruct (MasterBridge.transactions s !! h0); [|done].
      destruct (negb _); simpl; [done|]. by rewrite lookup_alter_ne.
Qed.

Lemma master_calls_keep_terminal cs : forall (s : MasterBridge.t) h st,
  master_status s h = Some st -> st <> PENDING ->
  master_status (Ledger.run_calls cs s) h = Some st.
Proof.
  induction cs as [|[c now] cs IH]; intros s h st Hst Hne; [exact Hst|].
  cbn [Ledger.run_calls]. apply IH; [|exact Hne].
  by apply master_call_keeps_terminal.
Qed.

(** *** [processTransaction] on a PENDING hash *)

Lemma avalanche_process_pending (s : AvalancheBridge.t) h tx receipt :
  AvalancheBridge.paused s = false ->
  AvalancheBridge.transactions s !! h = Some tx ->
  tx_status tx = PENDING ->
  AvalancheBridge.processTransaction h receipt s =
    match receipt with
    | Threw e =>
        (Threw (BridgeError ("Failed to process transaction: " +:+ errorMessage e)), s)
    | Returned None =>
        (Threw (BridgeError ("Failed to process transaction: "
                  +:+ ("Transaction " +:+ h +:+ " not found on chain"))), s)
    | Returned (Some rc) =>
        (Returned tt,
         AvalancheBridge.with_transactions
           (<[h := set_status (if bool_decide (receipt_status rc = Some 1)
                               then LOCKED else FAILED) tx]>
              (AvalancheBridge.transactions s)) s)
    end.
Proof.
  intros Hp Htx Hst.
  unfold AvalancheBridge.processTransaction, AvalancheBridge.assign_transaction.
  run_method. rewrite Hp, Htx, Hst. simpl.
  destruct receipt as [[rc|]|e]; simpl; try reflexivity.
  assert (Halter : forall f, alter f h (AvalancheBridge.transactions s)
                             = <[h := f tx]> (AvalancheBridge.transactions s)).
  { intros f. apply map_eq. intros k. destruct (decide (h = k)) as [->|Hne].
    - by rewrite lookup_insert_eq, lookup_alter_eq, Htx.
    - by rewrite lookup_insert_ne, lookup_alter_ne. }
  case_bool_decide; simpl; by rewrite Halter.
Qed.

Lemma master_process_pending (s : MasterBridge.t) h :
  MasterBridge.paused s = false ->
  master_status s h = Some PENDING ->
  fst (MasterBridge.processTransaction h s) = Returned tt /\
  master_status (snd (MasterBridge.processTransaction h s)) h = Some LOCKED.
Proof.
  unfold master_status. intros Hp Hst.
  unfold MasterBridge.processTransaction, MasterBridge.assign_transaction.
  run_method. rewrite Hp.
  destruct (MasterBridge.transactions s !! h) as [tx|] eqn:Htx; [|discriminate].
  simpl in Hst. injection Hst as ->. simpl. split; [reflexivity|].
  by rewrite lookup_alter_eq, Htx.
Qed.

(** *** Filing a call again under a hash that is already on file *)

(** Whatever status a hash has, a [lockTokens] whose populated call hashes
    to it returns and leaves the hash PENDING. *)
Lemma lock_files_pending (E : Externals) (s : AvalancheBridge.t) sym asset amount now tx h :
  AvalancheBridge.paused s = false ->
  AvalancheBridge.assets s !! sym = Some asset ->
  populateTransaction E (AvalancheBridge.address asset)
    "function transfer(address,uint256) returns (bool)"
    [AbiAddress (AvalancheBridge.bridgeId s); AbiUint amount] = Returned tx ->
  keccak256_bytes E (or_else (ct_data tx) "0x") = Returned h ->
  fst (AvalancheBridge.lockTokens E sym amount now s) = Returned tt /\
  AvalancheBridge.status_of (snd (AvalancheBridge.lockTokens E sym amount now s)) h
    = Some PENDING.
Proof.
  intros Hp Ha Htx Hh. unfold AvalancheBridge.lockTokens. run_method.
  rewrite Hp, Ha. simpl. rewrite Htx. simpl. rewrite Hh. simpl.
  split; [reflexivity|]. unfold AvalancheBridge.status_of. simpl.
  by rewrite lookup_insert_eq.
Qed.

(** C3, on an [AvalancheBridge]: 100 USDC are locked and the transaction is
    processed with a successful receipt, so its hash is LOCKED, a state in
    which [processTransaction] rejects it.  A second [lockTokens] of 100 USDC
    populates the same call, hence files its record under the same hash:
    the hash is PENDING again, and [processTransaction] accepts it once
    more. *)
Theorem relock_reopens_a_locked_hash :
  let E := Doubles.externals in
  let s1 := snd (AvalancheBridge.processTransaction lock_100_hash receipt_ok
                   avalanche_locked_100) in
  let s2 := snd (AvalancheBridge.lockTokens E "USDC" 100 2 s1) in
  AvalancheBridge.status_of avalanche_locked_100 lock_100_hash = Some PENDING /\
  AvalancheBridge.status_of s1 lock_100_hash = Some LOCKED /\
  (exists m, AvalancheBridge.processTransaction lock_100_hash receipt_ok s1
             = (Threw (BridgeError m), s1)) /\
  fst (AvalancheBridge.lockTokens E "USDC" 100 2 s1) = Returned tt /\
  AvalancheBridge.status_of s2 lock_100_hash = Some PENDING /\
  fst (AvalancheBridge.processTransaction lock_100_hash receipt_ok s2) = Returned tt.
Proof.
  cbv zeta. repeat split; try (vm_compute; reflexivity).
  apply avalanche_process_not_pending with LOCKED; [vm_compute; reflexivity|discriminate].
Qed.

End Lifecycle.

(** ** Rate limiting *)

Module RateLimit.
Import SecurityManager Policy Examples.

Lemma checkRateLimit_eq addr now s :
  checkRateLimit addr now s =
    (Returned (Z.of_nat (length (recent s addr now)) <? maxTransactions (config s)),
     with_transactionHistory
       (<[toLowerCase addr := recent s addr now]> (transactionHistory s)) s).
Proof. reflexivity. Qed.

Lemma recordTransaction_eq addr now s :
  recordTransaction addr now s =
    (Returned tt,
     with_transactionHistory
       (<[toLowerCase addr := history_of s addr ++ [now]]> (transactionHistory s)) s).
Proof. reflexivity. Qed.

Lemma filter_all {A} (p : A -> bool) (l : list A) :
  (forall x, In x l -> p x = true) -> List.filter p l = l.
Proof.
  induction l as [|x l IH]; intros Hall; [reflexivity|]. simpl.
  rewrite (Hall x) by (left; reflexivity). f_equal. apply IH.
  intros y Hy. apply Hall. by right.
Qed.

Lemma filter_none {A} (p : A -> bool) (l : list A) :
  (forall x, In x l -> p x = false) -> List.filter p l = [].
Proof.
  induction l as [|x l IH]; intros Hall; [reflexivity|]. simpl.
  rewrite (Hall x) by (left; reflexivity). apply IH.
  intros y Hy. apply Hall. by right.
Qed.

(** The general facts behind the scenario: the check counts the timestamps
    of the address that lie within the window. *)
Lemma limit_reached addr now s :
  maxTransactions (config s) <= Z.of_nat (length (recent s addr now)) ->
  fst (checkRateLimit addr now s) = Returned false.
Proof.
  intros Hfull. rewrite checkRateLimit_eq. simpl. f_equal. apply Z.ltb_ge. lia.
Qed.

Lemma window_elapsed addr now s :
  0 < maxTransactions (config s) ->
  (forall ts, In ts (history_of s addr) -> timeWindow (config s) <= now - ts) ->
  fst (checkRateLimit addr now s) = Returned true.
Proof.
  intros Hpos Hold. rewrite checkRateLimit_eq. simpl. f_equal.
  unfold recent. rewrite filter_none.
  - simpl. apply Z.ltb_lt. lia.
  - intros ts Hts. apply Z.ltb_ge. by apply Hold.
Qed.

(** Whatever else [validateTransaction] checks, it throws a SecurityError
    when the rate-limit check of the sender answers false. *)
Lemma validateTransaction_rejects E from to amount gasPrice now s :
  fst (checkRateLimit from now s) = Returned false ->
  exists m, fst (validateTransaction E from to amount gasPrice now s)
            = Threw (SecurityError m).
Proof.
  intros Hlimit. rewrite checkRateLimit_eq in Hlimit. simpl in Hlimit.
  injection Hlimit as Hlt. unfold recent in Hlt.
  destruct (emergencyMode s) eqn:He, (blacklistEnabled (config s)) eqn:Hb,
    (whitelistEnabled (config s)) eqn:Hw,
    (bool_decide (toLowerCase from ∈ blacklist s)) eqn:Hbf,
    (bool_decide (toLowerCase to ∈ blacklist s)) eqn:Hbt,
    (bool_decide (toLowerCase from ∈ whitelist s)) eqn:Hwf,
    (bool_decide (toLowerCase to ∈ whitelist s)) eqn:Hwt;
  unfold validateTransaction, isBlacklisted, isWhitelisted, checkRateLimit;
  run_method;
  repeat (progress (simpl; rewrite ?He, ?Hb, ?Hw, ?Hbf, ?Hbt, ?Hwf, ?Hwt, ?Hlt));
  by eexists.
Qed.

(** A transfer that [validateTransaction] lets through has passed the
    rate-limit check, and left the manager as that check leaves it. *)
Lemma validateTransaction_accepts E from to amount gasPrice now s s' :
  validateTransaction E from to amount gasPrice now s = (Returned true, s') ->
  checkRateLimit from now s = (Returned true, s').
Proof.
  rewrite checkRateLimit_eq. unfold recent.
  destruct (emergencyMode s) eqn:He, (blacklistEnabled (config s)) eqn:Hb,
    (whitelistEnabled (config s)) eqn:Hw,
    (bool_decide (toLowerCase from ∈ blacklist s)) eqn:Hbf,
    (bool_decide (toLowerCase to ∈ blacklist s)) eqn:Hbt,
    (bool_decide (toLowerCase from ∈ whitelist s)) eqn:Hwf,
    (bool_decide (toLowerCase to ∈ whitelist s)) eqn:Hwt,
    (Z.of_nat (length (List.filter (fun ts => now - ts <? timeWindow (config s))
                         (history_of s from))) <? maxTransactions (config s)) eqn:Hlt;
  unfold validateTransaction, isBlacklisted, isWhitelisted, checkRateLimit;
  run_method;
  repeat (progress (simpl; rewrite ?He, ?Hb, ?Hw, ?Hbf, ?Hbt, ?Hwf, ?Hwt, ?Hlt));
  try discriminate;
  destruct (BigInt_of_string E gasPrice); simpl; try discriminate;
  destruct (BigInt_of_string E (maxGasPrice (config s))); simpl; try discriminate;
  destruct (_ >? _); simpl; try discriminate; by intros [= <-].
Qed.

Lemma history_after_insert addr l s :
  history_of (with_transactionHistory
                (<[toLowerCase addr := l]> (transactionHistory s)) s) addr = l.
Proof. unfold history_of. simpl. by rewrite lookup_insert_eq. Qed.

(** An attempt made while every timestamp on record is within the window
    and fewer than the maximum are on record is accepted, and recorded. *)
Lemma attempt_accepted addr now s :
  recent s addr now = history_of s addr ->
  Z.of_nat (length (history_of s addr)) < maxTransactions (config s) ->
  attempt addr now s =
    (Returned true,
     with_transactionHistory
       (<[toLowerCase addr := history_of s addr ++ [now]]> (transactionHistory s)) s).
Proof.
  intros Hrecent Hroom. unfold attempt. unfold bind at 1.
  rewrite checkRateLimit_eq, Hrecent.
  apply Z.ltb_lt in Hroom. rewrite Hroom.
  unfold bind, ret. rewrite recordTransaction_eq, history_after_insert.
  f_equal. unfold with_transactionHistory. simpl. f_equal.
  apply insert_insert_eq.
Qed.

(** Attempts that all fall within one window, made while fewer than the
    maximum are on record, are all accepted and all recorded. *)
Lemma attempts_within_window addr rest : forall s done,
  history_of s addr = done ->
  Z.of_nat (length (done ++ rest)) <= maxTransactions (config s) ->
  (forall ts now, In ts (done ++ rest) -> In now rest ->
                  now - ts < timeWindow (config s)) ->
  Forall (fun b => b = true) (fst (attempts addr rest s)) /\
  history_of (snd (attempts addr rest s)) addr = done ++ rest /\
  config (snd (attempts addr rest s)) = config s.
Proof.
  induction rest as [|now rest IH]; intros s done Hhist Hlen Hwin.
  - simpl. rewrite app_nil_r. auto.
  - cbn [attempts]. rewrite attempt_accepted.
    + set (s1 := with_transactionHistory _ _).
      specialize (IH s1 (done ++ [now])).
      destruct (attempts addr rest s1) as [bs s2] eqn:Hrun.
      destruct IH as (Hall & Hh & Hc).
      * subst s1. rewrite history_after_insert. by rewrite Hhist.
      * rewrite <- app_assoc. exact Hlen.
      * intros ts now' Hts Hnow'. rewrite <- app_assoc in Hts.
        apply Hwin; [exact Hts | by right].
      * simpl in *. rewrite <- app_assoc in Hh. repeat split; auto.
    + unfold recent. rewrite Hhist. apply filter_all. intros ts Hts.
      apply Z.ltb_lt. apply Hwin; [apply in_or_app; by left | by left].
    + rewrite Hhist. rewrite length_app in Hlen. simpl in Hlen. lia.
Qed.

(** C7. On a manager that has no history for an address, with window [W]
    and maximum [N >= 1]: [N] transfer attempts from the address that all
    fall within [W] of one another are each accepted and recorded; a further
    attempt within [W] of all of them is rejected ([checkRateLimit] answers
    false and [validateTransaction] throws a SecurityError); and an attempt
    made once [W] has elapsed since every one of them passes the rate-limit
    check. *)
Theorem rate_limit (E : Externals) (s0 : t) (addr : string) (times : list Z) :
  history_of s0 addr = [] ->
  0 < maxTransactions (config s0) ->
  Z.of_nat (length times) = maxTransactions (config s0) ->
  (forall ts now, In ts times -> In now times -> now - ts < timeWindow (config s0)) ->
  let s := snd (attempts addr times s0) in
  Forall (fun b => b = true) (fst (attempts addr times s0)) /\
  history_of s addr = times /\
  (forall now,
     (forall ts, In ts times -> now - ts < timeWindow (config s0)) ->
     fst (checkRateLimit addr now s) = Returned false /\
     forall to amount gasPrice,
       exists m, fst (validateTransaction E addr to amount gasPrice now s)
                 = Threw (SecurityError m)) /\
  (forall now,
     (forall ts, In ts times -> timeWindow (config s0) <= now - ts) ->
     fst (checkRateLimit addr now s) = Returned true).
Proof.
  intros Hfresh Hpos Hlen Hwin s.
  destruct (attempts_within_window addr times s0 [] Hfresh) as (Hall & Hh & Hc).
  { simpl. lia. }
  { simpl. intros ts now Hts Hnow. by apply Hwin. }
  simpl in Hh. fold s in Hh, Hc.
  split; [exact Hall|]. split; [exact Hh|]. split.
  - intros now Hnear.
    assert (Hfalse : fst (checkRateLimit addr now s) = Returned false).
    { apply limit_reached. unfold recent. rewrite Hh, Hc.
      rewrite filter_all; [lia|]. intros ts Hts. apply Z.ltb_lt. by apply Hnear. }
    split; [exact Hfalse|]. intros to amount gasPrice.
    by apply validateTransaction_rejects.
  - intros now Hold. apply window_elapsed.
    + by rewrite Hc.
    + rewrite Hh, Hc. exact Hold.
Qed.

Lemma rate_limit_witness :
  let s := snd (attempts "0xAbC" [1000; 2000; 3000] (new three_per_minute)) in
  fst (attempts "0xAbC" [1000; 2000; 3000] (new three_per_minute)) = [true; true; true] /\
  history_of s "0xAbC" = [1000; 2000; 3000] /\
  fst (checkRateLimit "0xAbC" 4000 s) = Returned false /\
  (exists m, fst (validateTransaction Doubles.externals "0xAbC" "0xdef" "5" "10" 4000 s)
             = Threw (SecurityError m)) /\
  fst (checkRateLimit "0xAbC" 63000 s) = Returned true.
Proof.
  intros s.
  destruct (rate_limit Doubles.externals (new three_per_minute) "0xAbC" [1000; 2000; 3000])
    as (Hall & Hh & Hnear & Hfar).
  - reflexivity.
  - simpl. lia.
  - reflexivity.
  - simpl. intros ts now [<-|[<-|[<-|[]]]] [<-|[<-|[<-|[]]]]; lia.
  - split; [reflexivity|]. split; [exact Hh|].
    destruct (Hnear 4000) as [Hc Hv].
    { simpl. intros ts [<-|[<-|[<-|[]]]]; lia. }
    split; [exact Hc|]. split; [apply Hv|].
    apply Hfar. simpl. intros ts [<-|[<-|[<-|[]]]]; lia.
Defined.

End RateLimit.

(** ** Signature verification *)

Module Signatures.
Import SecurityManager Policy.

Section Verification.
Variable E : Externals.










End Verification.

End Signatures.

Module SignatureExamples.
Import SecurityManager Policy Examples.



End SignatureExamples.

(** ** Protocol selection *)

Module Selection.
Import Number CrossChainOptimizer Ranking Examples.

(** *** The order of binary64 values that are not NaN *)

Ltac compare_cases :=
  repeat match goal with
         | |- context [Z.compare ?a ?b] => destruct (Z.compare_spec a b); try subst
         | |- context [Pos.compare_cont Eq ?a ?b] =>
             change (Pos.compare_cont Eq a b) with (Pos.compare a b);
             destruct (Pos.compare_spec a b); try subst
         end;
  simpl; try discriminate; try reflexivity; try lia.

Lemma gt_is_lt_swapped a b : gt a b = lt b a.
Proof.
  unfold gt, lt, SFcompare.
  destruct a as [[]|[]| |[] ma ea], b as [[]|[]| |[] mb eb]; try reflexivity;
    compare_cases.
Qed.

Lemma lt_irrefl a : lt a a = false.
Proof.
  unfold lt, SFcompare. destruct a as [[]|[]| |[] ma ea]; try reflexivity; compare_cases.
Qed.

(** [x <= b] and [b < c] give [x < c], as soon as [x] is a number. *)
Lemma below_the_better x b c :
  is_nan x = false -> gt x b = false -> gt c b = true -> lt x c = true.
Proof.
  unfold gt, lt, is_nan, SFcompare.
  destruct x as [[]|[]| |[] mx ex]; try discriminate; intros _;
  destruct b as [[]|[]| |[] mb eb]; try discriminate;
  destruct c as [[]|[]| |[] mc ec]; try discriminate; try reflexivity;
    compare_cases.
Qed.

Lemma lt_is_not_gt a b : lt a b = true -> gt a b = false.
Proof.
  unfold gt, lt. destruct (SFcompare a b) as [[]|]; congruence.
Qed.

(** *** The reduction keeps the first of the best *)

Lemma fold_better_first_best rest : forall seen best,
  (forall x, In x (seen ++ rest) -> is_nan (score x) = false) ->
  first_best seen best ->
  first_best (seen ++ rest) (fold_left better rest best).
Proof.
  induction rest as [|current rest IH]; intros seen best Hnum Hbest.
  - simpl. by rewrite app_nil_r.
  - cbn [fold_left].
    replace (seen ++ current :: rest) with ((seen ++ [current]) ++ rest) in *
      by (by rewrite <- app_assoc).
    apply IH; [exact Hnum|].
    destruct Hbest as (before & after & -> & Hlow & Hhigh).
    unfold better. destruct (gt (score current) (score best)) eqn:Hgt.
    + exists (before ++ best :: after), []. split; [reflexivity|]. split.
      * intros x Hx. apply in_app_or in Hx as [Hx|[<-|Hx]].
        -- apply below_the_better with (score best); auto.
           ++ apply Hnum. apply in_or_app. left. apply in_or_app. left.
              apply in_or_app. by left.
           ++ by apply lt_is_not_gt, Hlow.
        -- by rewrite <- gt_is_lt_swapped.
        -- apply below_the_better with (score best); auto.
           apply Hnum. apply in_or_app. left. apply in_or_app. left.
           apply in_or_app. right. by right.
      * intros x [].
    + exists before, (after ++ [current]). split.
      * by rewrite <- app_assoc.
      * split; [exact Hlow|]. intros x Hx.
        apply in_app_or in Hx as [Hx|[<-|[]]]; auto.
Qed.

Lemma reduce_better_first_best scored :
  scored <> [] ->
  (forall x, In x scored -> is_nan (score x) = false) ->
  exists best, reduce better scored = Returned best /\ first_best scored best.
Proof.
  destruct scored as [|x rest]; [done|]. intros _ Hnum.
  exists (fold_left better rest x). split; [reflexivity|].
  apply (fold_better_first_best rest [x] x Hnum).
  exists [], []. split; [reflexivity|]. split; intros y [].
Qed.

(** *** The scores are those of the formula, in the order of the list *)

Lemma all_of_scores tokenAddress ps : forall scored,
  all_of (score_protocol tokenAddress) ps = Returned scored ->
  Forall2 (fun p x =>
             protocol x = p /\
             exists fee, estimateProtocolFee p tokenAddress = Returned fee /\
                         score x = calculateRouteScore fee (estimatedTime p)
                                     (calculateSecurityScore p))
          ps scored.
Proof.
  induction ps as [|p ps IH]; intros scored Hall.
  - simpl in Hall. injection Hall as <-. constructor.
  - cbn [all_of] in Hall. unfold score_protocol at 1 in Hall.
    destruct (estimateProtocolFee p tokenAddress) as [fee|e] eqn:Hfee;
      [|discriminate].
    cbn [obind] in Hall.
    destruct (all_of (score_protocol tokenAddress) ps) as [ys|e] eqn:Hys;
      [|discriminate].
    cbn [obind] in Hall. injection Hall as <-.
    constructor; [|by apply IH]. simpl. split; [reflexivity|]. eauto.
Qed.

(** The weights are the doubles nearest to 4/10, 3/10 and 3/10. *)
Lemma weights_are_the_literals :
  FEE_WEIGHT = div (of_bigint 4) (of_bigint 10) /\
  TIME_WEIGHT = div (of_bigint 3) (of_bigint 10) /\
  SECURITY_WEIGHT = div (of_bigint 3) (of_bigint 10).
Proof. repeat split; vm_compute; reflexivity. Qed.

(** With a route on file and a protocol passing the filter,
    [selectOptimalProtocol] is the selection among the filtered protocols. *)
Lemma selectOptimalProtocol_filters bridgeRoutes fromChain toChain tokenAddress
    securityPreference route :
  bridgeRoutes !! routeKey fromChain toChain = Some route ->
  List.filter (suitable tokenAddress securityPreference) (protocols route) <> [] ->
  selectOptimalProtocol bridgeRoutes fromChain toChain tokenAddress securityPreference
    = select_among tokenAddress
        (List.filter (suitable tokenAddress securityPreference) (protocols route)).
Proof.
  intros Hroute Hsome. unfold selectOptimalProtocol. rewrite Hroute.
  destruct (List.filter _ _); [done|reflexivity].
Qed.

Lemma lt_is_a_number a b : lt a b = true -> is_nan a = false.
Proof. unfold lt, SFcompare. by destruct a. Qed.

Lemma gt_is_a_number a b : gt a b = true -> is_nan a = false.
Proof. unfold gt, SFcompare. by destruct a. Qed.

Lemma fold_better_first_unbeaten rest : forall seen best,
  first_unbeaten seen best ->
  first_unbeaten (seen ++ rest) (fold_left better rest best).
Proof.
  induction rest as [|current rest IH]; intros seen best Hbest.
  - simpl. by rewrite app_nil_r.
  - cbn [fold_left].
    replace (seen ++ current :: rest) with ((seen ++ [current]) ++ rest)
      by (by rewrite <- app_assoc).
    apply IH.
    destruct Hbest as (before & after & -> & Hlow & Hhigh & Hnan).
    unfold better. destruct (gt (score current) (score best)) eqn:Hgt.
    + exists (before ++ best :: after), []. split; [reflexivity|].
      split; [|split].
      * intros x Hx. apply in_app_or in Hx as [Hx|[<-|Hx]].
        -- destruct (Hlow x Hx) as [Hlt|Hx_nan]; [left|by right].
           apply below_the_better with (score best); auto.
           ++ by apply lt_is_a_number with (score best).
           ++ by apply lt_is_not_gt.
        -- left. by rewrite <- gt_is_lt_swapped.
        -- destruct (is_nan (score x)) eqn:Hx_nan; [by right|left].
           apply below_the_better with (score best); auto.
      * intros x [].
      * intros Hc. apply gt_is_a_number in Hgt. congruence.
    + exists before, (after ++ [current]). split; [by rewrite <- app_assoc|].
      split; [exact Hlow|]. split; [|exact Hnan].
      intros x Hx. apply in_app_or in Hx as [Hx|[<-|[]]]; auto.
Qed.

Lemma reduce_better_first_unbeaten scored :
  scored <> [] ->
  exists best, reduce better scored = Returned best /\ first_unbeaten scored best.
Proof.
  destruct scored as [|x rest]; [done|]. intros _.
  exists (fold_left better rest x). split; [reflexivity|].
  apply (fold_better_first_unbeaten rest [x] x).
  exists [], []. split; [reflexivity|]. split; [intros y []|].
  split; [intros y []|done].
Qed.

(** C9.  [selectOptimalProtocol], for a route on file whose protocols, once
    filtered by minimum security level and token support, leave a non-empty
    list of candidates whose fees are estimated without error: the score of
    each candidate is
    [0.4 * (1 - fee / 1e18) + 0.3 * (1 - estimatedTime / 600)
     + 0.3 * (securityLevel / 3)]
    in binary64 arithmetic, the weights being those of fee, time and
    security in that order, and the protocol returned is one of the
    candidates.  Whatever the scores are, no candidate listed after it
    scores more, every candidate listed before it scores strictly less or
    has a score that is not a number, and its own score is NaN only if it is
    listed first.  When the scores are numbers (none is NaN), the protocol
    returned has a score that no candidate exceeds and every candidate
    listed before it scores strictly less: the highest score is selected,
    and among equal scores the first-seen one. *)
Theorem highest_score_first_seen (bridgeRoutes : gmap string BridgeRoute)
    (fromChain toChain : Z) (tokenAddress : string)
    (securityPreference : SecurityLevel) (route : BridgeRoute)
    (scored : list Scored) :
  bridgeRoutes !! routeKey fromChain toChain = Some route ->
  let candidates :=
    List.filter (suitable tokenAddress securityPreference) (protocols route) in
  candidates <> [] ->
  all_of (score_protocol tokenAddress) candidates = Returned scored ->
  Forall2 (fun p x =>
             protocol x = p /\
             exists fee,
               estimateProtocolFee p tokenAddress = Returned fee /\
               score x =
                 add (add (mul (div (of_bigint 4) (of_bigint 10))
                               (sub (of_bigint 1)
                                    (div (of_bigint fee) (of_bigint (10 ^ 18)))))
                          (mul (div (of_bigint 3) (of_bigint 10))
                               (sub (of_bigint 1)
                                    (div (estimatedTime p) (of_bigint 600)))))
                     (mul (div (of_bigint 3) (of_bigint 10))
                          (div (of_bigint (level_value (securityLevel p)))
                               (of_bigint (level_value HIGH)))))
          candidates scored /\
  exists best,
    selectOptimalProtocol bridgeRoutes fromChain toChain tokenAddress
      securityPreference = Returned (protocol best) /\
    In (protocol best) candidates /\
    first_unbeaten scored best /\
    ((forall x, In x scored -> is_nan (score x) = false) ->
     first_best scored best).
Proof.
  intros Hroute candidates Hne Hscored. split.
  - destruct weights_are_the_literals as (<- & <- & Hs).
    pose proof (all_of_scores tokenAddress candidates scored Hscored) as Hall.
    eapply Forall2_impl; [exact Hall|].
    intros p x (Hp & fee & Hfee & Hx). split; [exact Hp|].
    exists fee. split; [exact Hfee|]. rewrite Hx.
    unfold calculateRouteScore, calculateSecurityScore, one. reflexivity.
  - pose proof (all_of_scores tokenAddress candidates scored Hscored) as Hall.
    assert (Hsne : scored <> []).
    { intros ->. inversion Hall as [Hc|]. by apply Hne. }
    destruct (reduce_better_first_unbeaten scored Hsne) as (best & Hred & Hfirst).
    exists best. split; [|split; [|split; [exact Hfirst|]]].
    + rewrite (selectOptimalProtocol_filters _ _ _ _ _ route Hroute Hne).
      fold candidates. unfold select_among. rewrite Hscored. cbn [obind].
      by rewrite Hred.
    + destruct Hfirst as (before & after & Heq & _).
      assert (Hin : In best scored) by (rewrite Heq; apply in_or_app; right; by left).
      clear -Hall Hin. induction Hall as [|p x ps xs [Hp _] _ IH]; [destruct Hin|].
      destruct Hin as [<-|Hin]; [left; by rewrite Hp | right; by apply IH].
    + intros Hnum.
      destruct (reduce_better_first_best scored Hsne Hnum) as (best' & Hred' & Hbest).
      rewrite Hred in Hred'. by injection Hred' as <-.
Qed.

Lemma highest_score_first_seen_witness :
  exists scored best,
    all_of (score_protocol "0xT") [slow; fast; fast_too] = Returned scored /\
    selectOptimalProtocol routes 1 2 "0xT" MEDIUM = Returned (protocol best) /\
    In (protocol best) [slow; fast; fast_too] /\
    first_unbeaten scored best /\
    first_best scored best.
Proof.
  eexists.
  destruct (highest_score_first_seen routes 1 2 "0xT" MEDIUM _ _
              eq_refl ltac:(discriminate) eq_refl)
    as (_ & best & Hsel & Hin & Hun & Hfirst).
  exists best. split; [reflexivity|]. split; [exact Hsel|].
  split; [exact Hin|]. split; [exact Hun|]. apply Hfirst.
  intros x [<-|[<-|[<-|[]]]]; vm_compute; reflexivity.
Defined.

(** On the route of the example the protocols below the requested level or
    without the token are passed over, and the first of the two fastest is
    returned, not the first listed. *)
Example route_of_the_example :
  selectOptimalProtocol routes 1 2 "0xT" MEDIUM = Returned fast.
Proof. vm_compute. reflexivity. Qed.

(** The tie of the example is broken towards the protocol listed first. *)
Example equal_scores_first_listed :
  select_among "0xT" [slow; fast; fast_too] = Returned fast /\
  select_among "0xT" [slow; fast_too; fast] = Returned fast_too.
Proof. split; vm_compute; reflexivity. Qed.

End Selection.

(** ** [AssetManager]: the two indexes of the registry *)

Module RegistryFacts.
Import AssetManager Ledger Surface.

Lemma indexed_empty : indexed empty.
Proof.
  split; simpl; intros ? ? H; by rewrite lookup_empty in H.
Qed.

Lemma indexed_step c s : indexed s -> indexed (snd (registry_call c s)).
Proof.
  intros [Hd Hi]. destruct c as [sym addr now|sym]; simpl.
  - unfold registerAsset. run_method.
    case_bool_decide as Hs; [by split|].
    case_bool_decide as Ha; [by split|]. simpl.
    apply eq_None_not_Some in Hs. apply eq_None_not_Some in Ha.
    split; simpl.
    + intros k a Hk. destruct (decide (sym = k)) as [->|Hne].
      * rewrite lookup_insert_eq in Hk. injection Hk as <-. simpl.
        by rewrite lookup_insert_eq.
      * rewrite lookup_insert_ne in Hk by done.
        destruct (Hd _ _ Hk) as [Hsym Hback]. split; [done|].
        rewrite lookup_insert_ne; [done|]. intros ->. congruence.
    + intros k sym' Hk. destruct (decide (addr = k)) as [->|Hne].
      * rewrite lookup_insert_eq in Hk. injection Hk as <-.
        exists (fresh_asset sym k now). by rewrite lookup_insert_eq.
      * rewrite lookup_insert_ne in Hk by done.
        destruct (Hi _ _ Hk) as (a & Ha' & Haddr). exists a. split; [|done].
        rewrite lookup_insert_ne; [done|]. intros ->. congruence.
  - unfold unregisterAsset. run_method.
    destruct (assets s !! sym) as [asset|] eqn:Hs; [|by split]. simpl.
    destruct (Hd _ _ Hs) as [_ Hback].
    split; simpl.
    + intros k a Hk. destruct (decide (sym = k)) as [->|Hne].
      * by rewrite lookup_delete_eq in Hk.
      * rewrite lookup_delete_ne in Hk by done.
        destruct (Hd _ _ Hk) as [Hsym Hback']. split; [done|].
        rewrite lookup_delete_ne; [done|]. intros Heq.
        rewrite Heq in Hback. congruence.
    + intros k sym' Hk.
      destruct (decide (tokenAddress asset = k)) as [<-|Hne].
      * by rewrite lookup_delete_eq in Hk.
      * rewrite lookup_delete_ne in Hk by done.
        destruct (Hi _ _ Hk) as (a & Ha' & Haddr). exists a. split; [|done].
        rewrite lookup_delete_ne; [done|]. intros ->. congruence.
Qed.

Lemma indexed_run cs s : indexed s -> indexed (run_registry cs s).
Proof.
  revert s. induction cs as [|c cs IH]; intros s H; simpl; [done|].
  by apply IH, indexed_step.
Qed.

Lemma getAssetAddress_returned s sym addr :
  fst (getAssetAddress sym s) = Returned addr <->
  exists a, assets s !! sym = Some a /\ tokenAddress a = addr.
Proof.
  unfold getAssetAddress. run_method.
  destruct (assets s !! sym) as [a|]; simpl; split.
  - intros [= <-]. by exists a.
  - intros (a' & [= <-] & <-). done.
  - done.
  - by intros (? & ? & _).
Qed.

Lemma getAssetSymbol_returned s addr sym :
  fst (getAssetSymbol addr s) = Returned sym <->
  tokenAddresses s !! addr = Some sym /\ sym <> EmptyString.
Proof.
  unfold getAssetSymbol. run_method.
  destruct (tokenAddresses s !! addr) as [[|c r]|]; simpl; split.
  - done.
  - by intros [[= <-] ?].
  - intros [= <-]. by split.
  - by intros [[= <-] _].
  - done.
  - by intros [? _].
Qed.

(** X1. After any sequence of registrations and unregistrations on a new
    registry, looking a symbol up by token address and an address up by symbol
    are inverse to each other: if [getAssetSymbol addr] returns [sym] then
    [getAssetAddress sym] returns [addr], and if [getAssetAddress sym] returns
    [addr] then [getAssetSymbol addr] returns [sym], unless [sym] is the empty
    string, for which [getAssetSymbol] throws. *)
Theorem lookups_are_inverse cs sym addr :
  let s := run_registry cs empty in
  (fst (getAssetSymbol addr s) = Returned sym ->
   fst (getAssetAddress sym s) = Returned addr) /\
  (fst (getAssetAddress sym s) = Returned addr ->
   if bool_decide (sym = EmptyString)
   then exists m, getAssetSymbol addr s = (Threw (AssetError m), s)
   else fst (getAssetSymbol addr s) = Returned sym).
Proof.
  intros s. assert (H : indexed s) by apply indexed_run, indexed_empty.
  destruct H as [Hd Hi]. split.
  - intros [Hs _]%getAssetSymbol_returned. apply getAssetAddress_returned.
    by apply Hi.
  - intros (a & Ha & <-)%getAssetAddress_returned.
    destruct (Hd _ _ Ha) as [_ Hback].
    case_bool_decide as He.
    + subst sym. unfold getAssetSymbol. run_method. rewrite Hback.
      by eexists.
    + by apply getAssetSymbol_returned.
Qed.

Lemma lookups_are_inverse_witness :
  fst (getAssetAddress "USDC"
         (run_registry [Register "USDC" "0xA" 1; Register "DAI" "0xB" 2] empty)) =
  Returned "0xA"%string.
Proof.
  apply (proj1 (lookups_are_inverse
                  [Register "USDC" "0xA" 1; Register "DAI" "0xB" 2] "USDC" "0xA")).
  vm_compute. reflexivity.
Defined.

(** X2. After any sequence of registrations and unregistrations on a new
    registry, no token address is held by two symbols: two symbols whose
    [getAssetAddress] return the same address are the same symbol. *)
Theorem one_symbol_per_address cs sym1 sym2 addr :
  let s := run_registry cs empty in
  fst (getAssetAddress sym1 s) = Returned addr ->
  fst (getAssetAddress sym2 s) = Returned addr ->
  sym1 = sym2.
Proof.
  intros s. assert (H : indexed s) by apply indexed_run, indexed_empty.
  destruct H as [Hd _].
  intros (a1 & H1 & <-)%getAssetAddress_returned.
  intros (a2 & H2 & Heq)%getAssetAddress_returned.
  destruct (Hd _ _ H1) as [_ B1]. destruct (Hd _ _ H2) as [_ B2].
  rewrite Heq in B2. congruence.
Qed.

Lemma one_symbol_per_address_witness :
  "USDC"%string = "USDC"%string.
Proof.
  apply (one_symbol_per_address
           [Register "USDC" "0xA" 1; Register "DAI" "0xB" 2; Unregister "DAI"]
           "USDC" "USDC" "0xA"); vm_compute; reflexivity.
Defined.

End RegistryFacts.

(** ** [MasterBridge]: the facade as a whole *)

Module BridgeFacts.
Import MasterBridge Ledger Surface.

Ltac unfold_calls :=
  unfold call, perform, initialize, registerAsset, unregisterAsset, lockTokens,
    unlockTokens, mintTokens, burnTokens, processTransaction, addValidator,
    removeValidator, pause, unpause, emergencyWithdraw, assign_asset,
    assign_transaction, not_registered, bridge_paused.

(** X3. While the bridge is paused, every call other than [initialize],
    [pause], [unpause] and [emergencyWithdraw] throws BridgeError 'Bridge is
    paused' and leaves the bridge as it was, whatever its arguments. *)
Theorem paused_bridge_refuses c now s :
  paused s = true -> gated c = true ->
  call c now s = (Threw (BridgeError "Bridge is paused"), s).
Proof.
  intros Hp Hg. destruct c as [| | |[[] ? ? ?]| | | | | |]; try discriminate Hg;
    unfold_calls; run_method; by rewrite Hp.
Qed.

Lemma paused_bridge_refuses_witness :
  call (Balance (mkRequest Lock "USDC" 5 2)) 2
       (snd (call Pause 1 (snd (call (RegisterAsset "USDC" "0xA") 0 (new "B"))))) =
  (Threw (BridgeError "Bridge is paused"),
   snd (call Pause 1 (snd (call (RegisterAsset "USDC" "0xA") 0 (new "B"))))).
Proof.
  apply paused_bridge_refuses; reflexivity.
Defined.

(** X4. A call on a [MasterBridge] that throws throws a BridgeError and
    leaves every field of the bridge as it was: no call fails half-way. *)
Theorem failed_call_changes_nothing c now s e :
  fst (call c now s) = Threw e ->
  snd (call c now s) = s /\ exists m, e = BridgeError m.
Proof.
  destruct c as [| | |[[] ? ? ?]| | | | | |]; unfold_calls; run_method;
    repeat match goal with
      | |- context [if paused s then _ else _] => destruct (paused s); simpl
      | |- context [if initialized s then _ else _] =>
          destruct (initialized s); simpl
      | |- context [bool_decide ?P] => destruct (bool_decide P); simpl
      | |- context [assets s !! ?k] => destruct (assets s !! k); simpl
      | |- context [transactions s !! ?k] =>
          destruct (transactions s !! k); simpl
      | |- context [?a <? ?b] => destruct (a <? b); simpl
      | |- context [TransactionStatus_eqb ?a ?b] =>
          destruct (TransactionStatus_eqb a b); simpl
      end;
    try discriminate; intros [= <-]; split; try done; by eexists.
Qed.

Lemma failed_call_changes_nothing_witness :
  snd (call (Balance (mkRequest Unlock "USDC" 5 2)) 2
         (snd (call (RegisterAsset "USDC" "0xA") 0 (new "B")))) =
  snd (call (RegisterAsset "USDC" "0xA") 0 (new "B")) /\
  exists m, BridgeError "Insufficient locked amount for USDC" = BridgeError m.
Proof.
  apply (failed_call_changes_nothing (Balance (mkRequest Unlock "USDC" 5 2)) 2
           (snd (call (RegisterAsset "USDC" "0xA") 0 (new "B")))).
  vm_compute. reflexivity.
Defined.

Lemma call_keeps_ledger_keys c now s h :
  transactions (snd (call c now s)) !! h = None <-> transactions s !! h = None.
Proof.
  destruct c as [| | |[[] ? ? ?]|h0| | | | |]; unfold_calls; run_method;
    repeat match goal with
      | |- context [if paused s then _ else _] => destruct (paused s); simpl
      | |- context [if initialized s then _ else _] =>
          destruct (initialized s); simpl
      | |- context [bool_decide ?P] => destruct (bool_decide P); simpl
      | |- context [assets s !! ?k] => destruct (assets s !! k); simpl
      | |- context [?a <? ?b] => destruct (a <? b); simpl
      end; try done.
  destruct (transactions s !! h0) as [x|] eqn:Hx; simpl; [|done].
  destruct (TransactionStatus_eqb (tx_status x) PENDING); simpl; [|done].
  destruct (decide (h0 = h)) as [->|Hne].
  - rewrite lookup_alter_eq, Hx. done.
  - by rewrite lookup_alter_ne.
Qed.

Lemma run_keeps_ledger_keys cs s h :
  transactions (run_calls cs s) !! h = None <-> transactions s !! h = None.
Proof.
  revert s. induction cs as [|[c now] cs IH]; intros s; simpl; [done|].
  rewrite IH. apply call_keeps_ledger_keys.
Qed.

(** X5. No method of [MasterBridge] files a transaction: after any sequence of
    calls on a new bridge the ledger is empty, so for every hash
    [getTransactionStatus] throws BridgeError 'Transaction ... not found' and
    [processTransaction] throws a BridgeError, both leaving the bridge
    unchanged. *)
Theorem no_call_files_a_transaction id cs h :
  let s := run_calls cs (new id) in
  getTransactionStatus h s =
    (Threw (BridgeError ("Transaction " +:+ h +:+ " not found")), s) /\
  processTransaction h s =
    (Threw (BridgeError (if paused s then "Bridge is paused"
                         else "Transaction " +:+ h +:+ " not found")), s).
Proof.
  intros s.
  assert (Hh : transactions s !! h = None)
    by (apply run_keeps_ledger_keys; apply lookup_empty).
  unfold getTransactionStatus, processTransaction, bridge_paused. run_method.
  rewrite Hh. by destruct (paused s).
Qed.

(** X6. Registering a validator and removing it again is a round trip: on a
    bridge that is not paused and does not know [v], [addValidator v]
    succeeds, after it [isValidator v] is true and a second [addValidator v]
    throws 'Validator ... already exists'; [removeValidator v] then succeeds
    and gives back the bridge as it was before, on which [isValidator v] is
    false and [removeValidator v] throws 'Validator ... not found'. *)
Theorem validator_round_trip s v now now' :
  paused s = false -> fst (isValidator v s) = Returned false ->
  exists s1,
    addValidator v now s = (Returned tt, s1) /\
    fst (isValidator v s1) = Returned true /\
    addValidator v now' s1 =
      (Threw (BridgeError ("Validator " +:+ v +:+ " already exists")), s1) /\
    removeValidator v s1 = (Returned tt, s) /\
    removeValidator v s =
      (Threw (BridgeError ("Validator " +:+ v +:+ " not found")), s).
Proof.
  intros Hp. unfold isValidator, addValidator, removeValidator, bridge_paused.
  run_method. rewrite Hp. case_bool_decide as Hv; [done|]. intros _.
  apply eq_None_not_Some in Hv. eexists. split; [reflexivity|]. simpl.
  rewrite Hp, lookup_insert_eq.
  rewrite !bool_decide_eq_true_2 by by eexists. simpl.
  repeat split. unfold with_validators. simpl.
  rewrite delete_insert_id by done. by destruct s.
Qed.

Lemma validator_round_trip_witness :
  exists s1,
    addValidator "0xV" 5 (new "B") = (Returned tt, s1) /\
    fst (isValidator "0xV" s1) = Returned true /\
    addValidator "0xV" 9 s1 =
      (Threw (BridgeError ("Validator " +:+ "0xV" +:+ " already exists")), s1) /\
    removeValidator "0xV" s1 = (Returned tt, new "B") /\
    removeValidator "0xV" (new "B") =
      (Threw (BridgeError ("Validator " +:+ "0xV" +:+ " not found")), new "B").
Proof.
  apply (validator_round_trip (new "B") "0xV" 5 9); reflexivity.
Defined.

(** X7. Nothing but [initialize] reads the [initialized] flag: every other
    call ends the same way and leaves the same bridge whether or not the
    bridge was initialized, so no operation requires initialization. *)
Theorem initialization_is_never_required c now b s :
  c <> Initialize ->
  call c now (with_initialized b s) =
    (fst (call c now s), with_initialized b (snd (call c now s))).
Proof.
  intros Hc.
  destruct c as [| | |[[] ? ? ?]| | | | | |]; try done; unfold_calls;
    run_method;
    repeat match goal with
      | |- context [if paused s then _ else _] => destruct (paused s); simpl
      | |- context [bool_decide ?P] => destruct (bool_decide P); simpl
      | |- context [assets s !! ?k] => destruct (assets s !! k); simpl
      | |- context [transactions s !! ?k] =>
          destruct (transactions s !! k); simpl
      | |- context [?a <? ?b] => destruct (a <? b); simpl
      | |- context [TransactionStatus_eqb ?a ?b] =>
          destruct (TransactionStatus_eqb a b); simpl
      end; done.
Qed.

Lemma initialization_is_never_required_witness :
  call (RegisterAsset "USDC" "0xA") 3 (with_initialized true (new "B")) =
    (fst (call (RegisterAsset "USDC" "0xA") 3 (new "B")),
     with_initialized true (snd (call (RegisterAsset "USDC" "0xA") 3 (new "B")))).
Proof.
  apply (initialization_is_never_required (RegisterAsset "USDC" "0xA") 3 true
           (new "B")).
  discriminate.
Defined.

End BridgeFacts.

(** ** [processTransaction]: what moves a PENDING transaction *)

Module Processing.
Import Ledger Examples.

(** C2, as stated, fails.  The PENDING record that [lockTokens] files on an
    [AvalancheBridge] carries no validator signature, and with a threshold
    of 2 [validateSignatures] answers false for it; a receipt with status 1
    is nevertheless enough for [processTransaction] to move it to LOCKED. *)
Lemma locked_below_threshold :
  exists tx,
    AvalancheBridge.transactions avalanche_locked_100 !! lock_100_hash = Some tx /\
    tx_status tx = PENDING /\ tx_validatorSignatures tx = [] /\
    fst (SecurityManager.validateSignatures Doubles.externals lock_100_hash [] 5
           (SecurityManager.new two_of_n)) = Returned false /\
    fst (AvalancheBridge.processTransaction lock_100_hash receipt_ok avalanche_locked_100)
      = Returned tt /\
    AvalancheBridge.status_of
      (snd (AvalancheBridge.processTransaction lock_100_hash receipt_ok
              avalanche_locked_100)) lock_100_hash = Some LOCKED.
Proof.
  eexists. repeat split; vm_compute; reflexivity.
Qed.

(** C2, amended.  On an [AvalancheBridge], [processTransaction] of a hash
    whose record is PENDING ends as follows, whatever validator signatures
    the record carries.  While the bridge is paused it throws the
    BridgeError "Bridge is paused".  Otherwise, when the provider answers
    with a receipt, it returns and the record is LOCKED if the receipt's
    status is 1 and FAILED if it is anything else; when the provider has no
    receipt or fails, it throws a BridgeError.  When it throws the bridge is
    left as it was, the record still PENDING; when it returns nothing but
    the status of that record has changed.  So the only success state
    reached is LOCKED, and it is reached exactly on a bridge that is not
    paused with a receipt of status 1; replacing the signatures of the record
    by any others changes neither how the call ends nor the status it
    leaves.  On a [MasterBridge] no method files a record: after any
    sequence of calls on a new bridge [processTransaction] throws a
    BridgeError for every hash and changes nothing, so it moves no
    transaction to a success state. *)
Theorem processing_follows_the_receipt_only :
  (forall (s : AvalancheBridge.t) h tx receipt,
     AvalancheBridge.transactions s !! h = Some tx ->
     tx_status tx = PENDING ->
     AvalancheBridge.processTransaction h receipt s =
       (if AvalancheBridge.paused s then
          (Threw (BridgeError "Bridge is paused"), s)
        else
          match receipt with
          | Returned (Some rc) =>
              (Returned tt,
               AvalancheBridge.with_transactions
                 (<[h := set_status (if bool_decide (receipt_status rc = Some 1)
                                     then LOCKED else FAILED) tx]>
                    (AvalancheBridge.transactions s)) s)
          | Returned None =>
              (Threw (BridgeError ("Failed to process transaction: "
                        +:+ ("Transaction " +:+ h +:+ " not found on chain"))), s)
          | Threw e =>
              (Threw (BridgeError ("Failed to process transaction: "
                        +:+ errorMessage e)), s)
          end) /\
     (forall st,
        AvalancheBridge.status_of
          (snd (AvalancheBridge.processTransaction h receipt s)) h = Some st ->
        is_success st = true ->
        st = LOCKED /\ AvalancheBridge.paused s = false /\
        exists rc, receipt = Returned (Some rc) /\ receipt_status rc = Some 1) /\
     (forall rc,
        AvalancheBridge.paused s = false -> receipt_status rc = Some 1 ->
        fst (AvalancheBridge.processTransaction h (Returned (Some rc)) s)
          = Returned tt /\
        AvalancheBridge.status_of
          (snd (AvalancheBridge.processTransaction h (Returned (Some rc)) s)) h
          = Some LOCKED) /\
     (forall sigs,
        let resigned :=
          AvalancheBridge.with_transactions
            (<[h := set_validatorSignatures sigs tx]>
               (AvalancheBridge.transactions s)) s in
        fst (AvalancheBridge.processTransaction h receipt resigned)
          = fst (AvalancheBridge.processTransaction h receipt s) /\
        AvalancheBridge.status_of
          (snd (AvalancheBridge.processTransaction h receipt resigned)) h
          = AvalancheBridge.status_of
              (snd (AvalancheBridge.processTransaction h receipt s)) h)) /\
  (forall id cs h,
     exists m,
       MasterBridge.processTransaction h (run_calls cs (MasterBridge.new id))
         = (Threw (BridgeError m), run_calls cs (MasterBridge.new id))).
Proof.
  assert (Hrun : forall (s : AvalancheBridge.t) h tx receipt,
     AvalancheBridge.transactions s !! h = Some tx ->
     tx_status tx = PENDING ->
     AvalancheBridge.processTransaction h receipt s =
       (if AvalancheBridge.paused s then
          (Threw (BridgeError "Bridge is paused"), s)
        else
          match receipt with
          | Returned (Some rc) =>
              (Returned tt,
               AvalancheBridge.with_transactions
                 (<[h := set_status (if bool_decide (receipt_status rc = Some 1)
                                     then LOCKED else FAILED) tx]>
                    (AvalancheBridge.transactions s)) s)
          | Returned None =>
              (Threw (BridgeError ("Failed to process transaction: "
                        +:+ ("Transaction " +:+ h +:+ " not found on chain"))), s)
          | Threw e =>
              (Threw (BridgeError ("Failed to process transaction: "
                        +:+ errorMessage e)), s)
          end)).
  { intros s h tx receipt Htx Hst.
    destruct (AvalancheBridge.paused s) eqn:Hp.
    - unfold AvalancheBridge.processTransaction, AvalancheBridge.bridge_paused.
      run_method. by rewrite Hp.
    - by rewrite (Lifecycle.avalanche_process_pending s h tx receipt Hp Htx Hst). }
  split.
  - intros s h tx receipt Htx Hst. split; [by apply Hrun|].
    assert (Hat : AvalancheBridge.status_of s h = Some PENDING)
      by (unfold AvalancheBridge.status_of; by rewrite Htx, <- Hst).
    split; [|split].
    + intros st. rewrite (Hrun s h tx receipt Htx Hst).
      destruct (AvalancheBridge.paused s).
      { simpl. rewrite Hat. intros [= <-]. discriminate. }
      destruct receipt as [[rc|]|e]; simpl.
      * unfold AvalancheBridge.status_of. simpl. rewrite lookup_insert_eq. simpl.
        intros [= <-]. case_bool_decide as Hrc; [|discriminate].
        intros _. eauto.
      * rewrite Hat. intros [= <-]. discriminate.
      * rewrite Hat. intros [= <-]. discriminate.
    + intros rc Hp Hrc. rewrite (Hrun s h tx _ Htx Hst), Hp. simpl.
      split; [reflexivity|]. unfold AvalancheBridge.status_of. simpl.
      rewrite lookup_insert_eq. simpl. by rewrite bool_decide_eq_true_2.
    + intros sigs resigned.
      assert (Htx' : AvalancheBridge.transactions resigned !! h
                     = Some (set_validatorSignatures sigs tx))
        by (subst resigned; simpl; apply lookup_insert_eq).
      rewrite (Hrun resigned h _ receipt Htx' Hst).
      rewrite (Hrun s h tx receipt Htx Hst).
      replace (AvalancheBridge.paused resigned) with (AvalancheBridge.paused s)
        by reflexivity.
      assert (Hat' : AvalancheBridge.status_of resigned h = Some PENDING)
        by (unfold AvalancheBridge.status_of; by rewrite Htx', <- Hst).
      destruct (AvalancheBridge.paused s); [simpl; by rewrite Hat, Hat'|].
      destruct receipt as [[rc|]|e]; simpl; try by rewrite Hat, Hat'.
      split; [reflexivity|]. unfold AvalancheBridge.status_of. simpl.
      by rewrite !lookup_insert_eq.
  - intros id cs h.
    assert (Hh : MasterBridge.transactions (run_calls cs (MasterBridge.new id)) !! h
                 = None)
      by (apply BridgeFacts.run_keeps_ledger_keys; apply lookup_empty).
    unfold MasterBridge.processTransaction, MasterBridge.bridge_paused. run_method.
    rewrite Hh. destruct (MasterBridge.paused _); by eexists.
Qed.

Lemma processing_follows_the_receipt_only_witness :
  let s := avalanche_locked_100 in
  let h := lock_100_hash in
  AvalancheBridge.status_of
    (snd (AvalancheBridge.processTransaction h receipt_ok s)) h = Some LOCKED /\
  AvalancheBridge.status_of
    (snd (AvalancheBridge.processTransaction h
            (Returned (Some (mkReceipt (Some 0)))) s)) h = Some FAILED /\
  AvalancheBridge.processTransaction h (Returned None) s =
    (Threw (BridgeError ("Failed to process transaction: "
              +:+ ("Transaction " +:+ h +:+ " not found on chain"))), s) /\
  AvalancheBridge.processTransaction h receipt_ok
    (AvalancheBridge.with_paused true s) =
    (Threw (BridgeError "Bridge is paused"), AvalancheBridge.with_paused true s) /\
  (LOCKED = LOCKED /\ AvalancheBridge.paused s = false /\
   exists rc, receipt_ok = Returned (Some rc) /\ receipt_status rc = Some 1) /\
  (exists m,
     MasterBridge.processTransaction "0xh"
       (run_calls [(RegisterAsset "USDC" "0xA", 0);
                   (Balance (mkRequest Lock "USDC" 100 1), 1)]
          (MasterBridge.new "bridge"))
     = (Threw (BridgeError m),
        run_calls [(RegisterAsset "USDC" "0xA", 0);
                   (Balance (mkRequest Lock "USDC" 100 1), 1)]
          (MasterBridge.new "bridge"))).
Proof.
  intros s h.
  destruct processing_follows_the_receipt_only as [Hav Hmaster].
  pose (tx := mkTransaction "USDC" 100 "0xBridge" "0xBridge" "Avalanche" "" 1
                PENDING []).
  assert (Htx : AvalancheBridge.transactions s !! h = Some tx)
    by (vm_compute; reflexivity).
  assert (Htx' : AvalancheBridge.transactions (AvalancheBridge.with_paused true s) !! h
                 = Some tx) by (vm_compute; reflexivity).
  destruct (Hav s h tx receipt_ok Htx eq_refl) as (_ & Honly & Hif & _).
  destruct (Hav s h tx (Returned (Some (mkReceipt (Some 0)))) Htx eq_refl)
    as (Hfailed & _).
  destruct (Hav s h tx (Returned None) Htx eq_refl) as (Hnone & _).
  destruct (Hav (AvalancheBridge.with_paused true s) h tx receipt_ok Htx' eq_refl)
    as (Hpaused & _).
  split; [|split; [|split; [|split; [|split]]]].
  - apply (Hif (mkReceipt (Some 1))); reflexivity.
  - rewrite Hfailed. vm_compute. reflexivity.
  - rewrite Hnone. reflexivity.
  - rewrite Hpaused. reflexivity.
  - apply (Honly LOCKED); vm_compute; reflexivity.
  - apply Hmaster.
Defined.

End Processing.

(** ** [Validator]: stake, activity and signatures *)

Module ValidatorFacts.
Import Validator.

Ltac unfold_validator :=
  unfold call, validateTransaction, signTransaction, slash, getSignature,
    getStakeAmount, getSlashedAmount, not_active.

Ltac validator_cases s :=
  repeat match goal with
    | |- context [active s] => destruct (active s) eqn:?; simpl
    | |- context [bool_decide ?P] => destruct (bool_decide P) eqn:?; simpl
    end.

(** Slashing moves stake, it does not create or destroy it: over any
    sequence of [validateTransaction], [signTransaction] and [slash] calls,
    failed ones included, [stakeAmount + slashedAmount] stays what it was. *)
Lemma stake_is_conserved cs s :
  stakeAmount (run cs s) + slashedAmount (run cs s) =
  stakeAmount s + slashedAmount s.
Proof.
  revert s. induction cs as [|c cs IH]; intros s; simpl; [done|].
  rewrite IH. destruct c; unfold_validator; run_method; validator_cases s; lia.
Qed.

Lemma stake_zero_step c s :
  stakeAmount s = 0 /\ slashedAmount s = 0 ->
  stakeAmount (snd (call c s)) = 0 /\ slashedAmount (snd (call c s)) = 0.
Proof.
  intros [H1 H2].
  destruct c; unfold_validator; run_method; validator_cases s; lia.
Qed.

(** X8. A validator never holds stake: no method adds any, so after any
    sequence of calls on a new validator [getStakeAmount] and
    [getSlashedAmount] both return 0, also after it was slashed. *)
Theorem validator_never_holds_stake addr now cs :
  let s := run cs (new addr now) in
  getStakeAmount s = (Returned 0, s) /\ getSlashedAmount s = (Returned 0, s).
Proof.
  intros s.
  assert (H : stakeAmount s = 0 /\ slashedAmount s = 0).
  { subst s. assert (G : stakeAmount (new addr now) = 0 /\
                         slashedAmount (new addr now) = 0) by done.
    revert G. generalize (new addr now).
    induction cs as [|c cs IH]; intros s G; simpl; [done|].
    by apply IH, stake_zero_step. }
  unfold getStakeAmount, getSlashedAmount. run_method.
  destruct H as [-> ->]. done.
Qed.

(** X9. Deactivation is permanent: once a validator is inactive, after any
    further sequence of calls it is still inactive, its signatures and its
    last validation time are what they were, and [validateTransaction] and
    [signTransaction] throw ValidationError 'Validator is not active' leaving
    it unchanged. *)
Theorem inactive_validator_stays_inactive cs s h now :
  active s = false ->
  let s' := run cs s in
  active s' = false /\ signatures s' = signatures s /\
  lastValidation s' = lastValidation s /\
  validateTransaction h now s' =
    (Threw (ValidationError "Validator is not active"), s') /\
  signTransaction h now s' =
    (Threw (ValidationError "Validator is not active"), s').
Proof.
  intros Ha s'.
  assert (H : active s' = false /\ signatures s' = signatures s /\
              lastValidation s' = lastValidation s).
  { subst s'. revert s Ha. induction cs as [|c cs IH]; intros s Ha; simpl;
      [done|].
    assert (Hs : active (snd (call c s)) = false /\
                 signatures (snd (call c s)) = signatures s /\
                 lastValidation (snd (call c s)) = lastValidation s).
    { destruct c; unfold_validator; run_method; rewrite ?Ha; simpl;
        try done. by case_bool_decide. }
    destruct Hs as (Hs1 & Hs2 & Hs3).
    destruct (IH _ Hs1) as (-> & -> & ->). done. }
  destruct H as (H1 & H2 & H3). repeat split; try done;
    unfold_validator; run_method; by rewrite H1.
Qed.

Lemma inactive_validator_stays_inactive_witness :
  let s := snd (slash "0xV" (new "0xV" 0)) in
  let s' := run [SignTransaction "0xT" 4; Slash "0xV"] s in
  active s' = false /\ signatures s' = signatures s /\
  lastValidation s' = lastValidation s /\
  validateTransaction "0xT" 9 s' =
    (Threw (ValidationError "Validator is not active"), s') /\
  signTransaction "0xT" 9 s' =
    (Threw (ValidationError "Validator is not active"), s').
Proof.
  apply (inactive_validator_stays_inactive
           [SignTransaction "0xT" 4; Slash "0xV"]
           (snd (slash "0xV" (new "0xV" 0))) "0xT" 9).
  reflexivity.
Defined.

Lemma signature_kept c s h sig :
  signatures s !! h = Some sig ->
  signatures (snd (call c s)) !! h = Some sig \/
  signatures (snd (call c s)) !! h = Some "signature"%string.
Proof.
  intros H. destruct c as [h' t|h' t|v]; unfold_validator; run_method;
    validator_cases s; auto.
  destruct (decide (h' = h)) as [->|Hne].
  - right. apply lookup_insert_eq.
  - left. by rewrite lookup_insert_ne.
Qed.

(** X10. What an active validator signed stays retrievable: after
    [signTransaction h] on an active validator and any further sequence of
    calls, among them [slash], [getSignature h] returns the string
    'signature'. *)
Theorem signature_round_trip s h now cs :
  active s = true ->
  let s' := run cs (snd (signTransaction h now s)) in
  getSignature h s' = (Returned "signature"%string, s').
Proof.
  intros Ha s'.
  assert (H : signatures s' !! h = Some "signature"%string).
  { subst s'.
    assert (G : signatures (snd (signTransaction h now s)) !! h =
                Some "signature"%string).
    { unfold_validator. run_method. rewrite Ha. simpl. apply lookup_insert_eq. }
    revert G. generalize (snd (signTransaction h now s)).
    induction cs as [|c cs IH]; intros s0 G; simpl; [done|].
    apply IH. by destruct (signature_kept c s0 h _ G). }
  unfold getSignature. run_method. by rewrite H.
Qed.

Lemma signature_round_trip_witness :
  let s' := run [Slash "0xV"; SignTransaction "0xU" 7]
              (snd (signTransaction "0xT" 3 (new "0xV" 0))) in
  getSignature "0xT" s' = (Returned "signature"%string, s').
Proof.
  apply (signature_round_trip (new "0xV" 0) "0xT" 3
           [Slash "0xV"; SignTransaction "0xU" 7]).
  reflexivity.
Defined.

(** X11. A signature binds neither the transaction nor the signer: whatever
    the validator address, whatever the calls made on a new validator and
    whatever hash is asked for, a signature that [getSignature] returns is
    the string 'signature'. *)
Theorem every_signature_is_the_same addr now cs h sig :
  fst (getSignature h (run cs (new addr now))) = Returned sig ->
  sig = "signature"%string.
Proof.
  assert (H : forall s, (forall k x, signatures s !! k = Some x ->
                                     x = "signature"%string) ->
              forall k x, signatures (run cs s) !! k = Some x ->
                          x = "signature"%string).
  { induction cs as [|c cs IH]; intros s G; simpl; [done|].
    apply IH. intros k x.
    destruct c as [h' t|h' t|v]; unfold_validator; run_method;
      validator_cases s; try apply G.
    destruct (decide (h' = k)) as [->|Hne].
    - rewrite lookup_insert_eq. by intros [= <-].
    - rewrite lookup_insert_ne by done. apply G. }
  unfold getSignature. run_method.
  destruct (signatures (run cs (new addr now)) !! h) as [x|] eqn:Hx;
    [|done].
  apply H in Hx; [|intros k y Hk; simpl in Hk; by rewrite lookup_empty in Hk].
  subst x. simpl. by intros [= <-].
Qed.

Lemma every_signature_is_the_same_witness :
  "signature"%string = "signature"%string.
Proof.
  apply (every_signature_is_the_same "0xV" 0 [SignTransaction "0xT" 3] "0xT"
           "signature").
  reflexivity.
Defined.

End ValidatorFacts.

(** ** [SecurityManager]: the checks of [validateTransaction] and the lists *)

Module SecurityFacts.
Import SecurityManager Policy Surface.

(** The manager as [checkRateLimit] leaves it. *)
Lemma pruned_eq from now s :
  snd (checkRateLimit from now s) =
  with_transactionHistory
    (<[toLowerCase from := recent s from now]> (transactionHistory s)) s.
Proof. reflexivity. Qed.

(** [validateTransaction] as a cascade of its five checks. *)
Lemma validateTransaction_cascade E from to amount gasPrice now s :
  validateTransaction E from to amount gasPrice now s =
  if emergencyMode s then
    (Threw (SecurityError "System is in emergency mode"), s)
  else if blacklistEnabled (config s) &&
          (bool_decide (toLowerCase from ∈ blacklist s) ||
           bool_decide (toLowerCase to ∈ blacklist s)) then
    (Threw (SecurityError "Address is blacklisted"), s)
  else if whitelistEnabled (config s) &&
          (negb (bool_decide (toLowerCase from ∈ whitelist s)) ||
           negb (bool_decide (toLowerCase to ∈ whitelist s))) then
    (Threw (SecurityError "Address is not whitelisted"), s)
  else
    let s' := snd (checkRateLimit from now s) in
    if negb (Z.of_nat (length (recent s from now)) <? maxTransactions (config s))
    then (Threw (SecurityError "Rate limit exceeded"), s')
    else
      match BigInt_of_string E gasPrice with
      | Threw e => (Threw e, s')
      | Returned price =>
          match BigInt_of_string E (maxGasPrice (config s)) with
          | Threw e => (Threw e, s')
          | Returned ceiling =>
              if price >? ceiling
              then (Threw (SecurityError "Gas price too high"), s')
              else (Returned true, s')
          end
      end.
Proof.
  rewrite pruned_eq. unfold recent.
  destruct (emergencyMode s) eqn:He, (blacklistEnabled (config s)) eqn:Hb,
    (whitelistEnabled (config s)) eqn:Hw,
    (bool_decide (toLowerCase from ∈ blacklist s)) eqn:Hbf,
    (bool_decide (toLowerCase to ∈ blacklist s)) eqn:Hbt,
    (bool_decide (toLowerCase from ∈ whitelist s)) eqn:Hwf,
    (bool_decide (toLowerCase to ∈ whitelist s)) eqn:Hwt,
    (Z.of_nat (length (List.filter (fun ts => now - ts <? timeWindow (config s))
                         (history_of s from))) <? maxTransactions (config s)) eqn:Hlt;
  unfold validateTransaction, isBlacklisted, isWhitelisted, checkRateLimit;
  run_method;
  repeat (progress (simpl; rewrite ?He, ?Hb, ?Hw, ?Hbf, ?Hbt, ?Hwf, ?Hwt, ?Hlt));
  try reflexivity;
  destruct (BigInt_of_string E gasPrice); simpl; try reflexivity;
  destruct (BigInt_of_string E (maxGasPrice (config s))); simpl; try reflexivity;
  destruct (_ >? _); reflexivity.
Qed.

Ltac thrown := split; [|done]; split; [done|].

Ltac rate_and_gas E from now gasPrice s :=
  destruct (Z.ltb_spec (Z.of_nat (length (recent s from now)))
              (maxTransactions (config s))); simpl;
    [|thrown; intros (_ & _ & _ & ? & _); lia];
  destruct (BigInt_of_string E gasPrice) as [p|]; simpl;
    [|thrown; by intros (_ & _ & _ & _ & ? & ? & ? & _)];
  destruct (BigInt_of_string E (maxGasPrice (config s))) as [c|]; simpl;
    [|thrown; by intros (_ & _ & _ & _ & ? & ? & _ & ? & _)];
  destruct (Z.gtb_spec p c); simpl;
    [thrown; intros (_ & _ & _ & _ & ? & ? & [= <-] & [= <-] & ?); lia|];
  split; [|done]; split; [|done]; intros _;
  repeat split; try done; by exists p, c.

Ltac listed_or_not x l :=
  destruct (bool_decide_reflect (x ∈ l)); simpl.

(** X12. [validateTransaction] returns true exactly when the system is not in
    emergency mode, neither address is blacklisted (if the blacklist is
    enabled), both addresses are whitelisted (if the whitelist is enabled),
    the sender has fewer than [maxTransactions] recorded transactions within
    the time window, and the gas price parses and does not exceed the parsed
    [maxGasPrice]; the amount plays no part.  It never returns false: every
    rejection is thrown. *)
Theorem validateTransaction_true_iff E from to amount gasPrice now s :
  (fst (validateTransaction E from to amount gasPrice now s) = Returned true <->
   emergencyMode s = false /\
   (blacklistEnabled (config s) = true ->
    (toLowerCase from ∉ blacklist s) /\ (toLowerCase to ∉ blacklist s)) /\
   (whitelistEnabled (config s) = true ->
    (toLowerCase from ∈ whitelist s) /\ (toLowerCase to ∈ whitelist s)) /\
   Z.of_nat (length (recent s from now)) < maxTransactions (config s) /\
   exists price ceiling,
     BigInt_of_string E gasPrice = Returned price /\
     BigInt_of_string E (maxGasPrice (config s)) = Returned ceiling /\
     price <= ceiling) /\
  fst (validateTransaction E from to amount gasPrice now s) <> Returned false.
Proof.
  rewrite validateTransaction_cascade.
  destruct (emergencyMode s); simpl; [thrown; by intros [? _]|].
  destruct (blacklistEnabled (config s)); simpl.
  - listed_or_not (toLowerCase from) (blacklist s);
      [thrown; intros (_ & H & _); by destruct (H eq_refl)|].
    listed_or_not (toLowerCase to) (blacklist s);
      [thrown; intros (_ & H & _); by destruct (H eq_refl)|].
    destruct (whitelistEnabled (config s)); simpl.
    + listed_or_not (toLowerCase from) (whitelist s);
        [|thrown; intros (_ & _ & H & _); by destruct (H eq_refl)].
      listed_or_not (toLowerCase to) (whitelist s);
        [|thrown; intros (_ & _ & H & _); by destruct (H eq_refl)].
      rate_and_gas E from now gasPrice s.
    + rate_and_gas E from now gasPrice s.
  - destruct (whitelistEnabled (config s)); simpl.
    + listed_or_not (toLowerCase from) (whitelist s);
        [|thrown; intros (_ & _ & H & _); by destruct (H eq_refl)].
      listed_or_not (toLowerCase to) (whitelist s);
        [|thrown; intros (_ & _ & H & _); by destruct (H eq_refl)].
      rate_and_gas E from now gasPrice s.
    + rate_and_gas E from now gasPrice s.
Qed.

Lemma validateTransaction_true_iff_witness :
  fst (validateTransaction Doubles.externals "0xAA" "0xBB" "5" "90" 1000
         (new Examples.three_per_minute)) = Returned true.
Proof.
  apply (proj2 (proj1 (validateTransaction_true_iff Doubles.externals "0xAA"
                         "0xBB" "5" "90" 1000 (new Examples.three_per_minute)))).
  split; [reflexivity|]. split; [discriminate|]. split; [discriminate|].
  split; [reflexivity|]. exists 90, 100.
  split; [reflexivity|]. split; [reflexivity|]. discriminate.
Defined.

Lemma validation_step E v s :
  (forall k l, transactionHistory s !! k = Some l -> l = []) ->
  let s' := snd (validateTransaction E (v_from v) (v_to v) (v_amount v)
                   (v_gasPrice v) (v_now v) s) in
  config s' = config s /\
  forall k l, transactionHistory s' !! k = Some l -> l = [].
Proof.
  intros Hempty. rewrite validateTransaction_cascade.
  assert (Hp : config (snd (checkRateLimit (v_from v) (v_now v) s)) = config s /\
               forall k l, transactionHistory
                             (snd (checkRateLimit (v_from v) (v_now v) s)) !! k
                           = Some l -> l = []).
  { rewrite pruned_eq. simpl. split; [done|]. intros k l.
    destruct (decide (toLowerCase (v_from v) = k)) as [<-|Hne].
    - rewrite lookup_insert_eq. intros [= <-]. unfold recent, history_of.
      destruct (transactionHistory s !! toLowerCase (v_from v)) as [l|] eqn:Hl;
        simpl; [|done].
      by rewrite (Hempty _ _ Hl).
    - rewrite lookup_insert_ne by done. apply Hempty. }
  repeat match goal with
    | |- context [if ?b then _ else _] => destruct b; simpl; try done
    | |- context [match ?b with Returned _ => _ | Threw _ => _ end] =>
        destruct b; simpl; try done
    end.
Qed.

(** X13. [validateTransaction] checks the rate limit but records nothing:
    after any number of [validateTransaction] calls on a new manager, accepted
    or not, no address has a transaction on record, so with a positive
    [maxTransactions] the rate-limit check of every address still passes. *)
Theorem validation_never_records E cfg vs addr now :
  0 < maxTransactions cfg ->
  let s := validations E vs (new cfg) in
  history_of s addr = [] /\ fst (checkRateLimit addr now s) = Returned true.
Proof.
  intros Hpos s.
  assert (H : config s = cfg /\
              forall k l, transactionHistory s !! k = Some l -> l = []).
  { subst s.
    assert (G : config (new cfg) = cfg /\
                forall k l, transactionHistory (new cfg) !! k = Some l -> l = []).
    { split; [done|]. intros k l. simpl. by rewrite lookup_empty. }
    revert G. generalize (new cfg).
    induction vs as [|v vs IH]; intros s [Gc Ge]; simpl; [done|].
    apply IH. destruct (validation_step E v s Ge) as [Hc He].
    split; [congruence|done]. }
  destruct H as [Hc He].
  assert (Hh : history_of s addr = []).
  { unfold history_of.
    destruct (transactionHistory s !! toLowerCase addr) as [l|] eqn:Hl;
      simpl; [|done].
    by apply He in Hl. }
  split; [done|]. unfold checkRateLimit. run_method. rewrite Hh, Hc. simpl.
  f_equal. apply Z.ltb_lt. lia.
Qed.

Lemma validation_never_records_witness :
  let s := validations Doubles.externals
             [mkValidation "0xAA" "0xBB" "5" "90" 1000;
              mkValidation "0xAA" "0xBB" "5" "90" 1001;
              mkValidation "0xAA" "0xBB" "5" "90" 1002;
              mkValidation "0xAA" "0xBB" "5" "90" 1003]
             (new Examples.three_per_minute) in
  history_of s "0xAA" = [] /\ fst (checkRateLimit "0xAA" 1004 s) = Returned true.
Proof.
  apply (validation_never_records Doubles.externals Examples.three_per_minute
           [mkValidation "0xAA" "0xBB" "5" "90" 1000;
            mkValidation "0xAA" "0xBB" "5" "90" 1001;
            mkValidation "0xAA" "0xBB" "5" "90" 1002;
            mkValidation "0xAA" "0xBB" "5" "90" 1003] "0xAA" 1004).
  reflexivity.
Defined.

(** X14. Signers are kept by lower-cased address: after [addSigner a] with a
    well-formed [a], [removeSigner b] succeeds for every spelling [b] of the
    same address, leaves no entry for it, and a second [removeSigner b]
    throws SecurityError 'Signer not found' and changes nothing. *)
Theorem signer_round_trip E s a b :
  isAddress E a = true -> toLowerCase b = toLowerCase a ->
  exists s1 s2,
    addSigner E a s = (Returned tt, s1) /\
    signers s1 !! toLowerCase b = Some true /\
    removeSigner b s1 = (Returned tt, s2) /\
    s2 = with_signers (delete (toLowerCase a) (signers s)) s /\
    removeSigner b s2 = (Threw (SecurityError "Signer not found"), s2).
Proof.
  intros Ha Hb. unfold addSigner, removeSigner. run_method.
  rewrite Ha, Hb. simpl. eexists _, _. split; [reflexivity|]. simpl.
  rewrite lookup_insert_eq. split; [done|].
  rewrite bool_decide_eq_true_2 by by eexists. simpl.
  split; [reflexivity|]. unfold with_signers. simpl.
  rewrite delete_insert_eq. split; [done|].
  rewrite lookup_delete_eq.
  rewrite bool_decide_eq_false_2; [done|]. by intros [? ?].
Qed.

Lemma signer_round_trip_witness :
  exists s1 s2,
    addSigner Doubles.externals "0xAb" (new Examples.two_of_n) = (Returned tt, s1) /\
    signers s1 !! toLowerCase "0XAB" = Some true /\
    removeSigner "0XAB" s1 = (Returned tt, s2) /\
    s2 = with_signers (delete (toLowerCase "0xAb")
                         (signers (new Examples.two_of_n)))
           (new Examples.two_of_n) /\
    removeSigner "0XAB" s2 = (Threw (SecurityError "Signer not found"), s2).
Proof.
  apply (signer_round_trip Doubles.externals (new Examples.two_of_n) "0xAb" "0XAB");
    reflexivity.
Defined.

(** X15. The emergency switch: once [enableEmergencyMode] has succeeded at
    time [t0], [validateTransaction] throws SecurityError 'System is in
    emergency mode' for all arguments and changes nothing;
    [disableEmergencyMode] succeeds once and then throws 'Emergency mode not
    active'; and a later [enableEmergencyMode] at time [t] throws 'Emergency
    mode cooldown period not elapsed' when [t - t0 < emergencyDelay] and
    succeeds otherwise. *)
Theorem emergency_switch E s t0 s1 t from to amount gasPrice now :
  enableEmergencyMode t0 s = (Returned tt, s1) ->
  validateTransaction E from to amount gasPrice now s1 =
    (Threw (SecurityError "System is in emergency mode"), s1) /\
  exists s2,
    disableEmergencyMode s1 = (Returned tt, s2) /\
    disableEmergencyMode s2 =
      (Threw (SecurityError "Emergency mode not active"), s2) /\
    enableEmergencyMode t s2 =
      if t - t0 <? emergencyDelay (config s)
      then (Threw (SecurityError "Emergency mode cooldown period not elapsed"), s2)
      else (Returned tt, with_lastEmergencyTrigger t s1).
Proof.
  unfold enableEmergencyMode. run_method.
  destruct (_ <? _); [done|]. simpl. intros [= <-].
  rewrite validateTransaction_cascade. simpl. split; [done|].
  unfold disableEmergencyMode. run_method. eexists. split; [reflexivity|].
  simpl. split; [done|]. by destruct (_ <? _).
Qed.

Lemma emergency_switch_witness :
  validateTransaction Doubles.externals "0xAA" "0xBB" "5" "90" 6000
    (snd (enableEmergencyMode 5000 (new Examples.guarded))) =
    (Threw (SecurityError "System is in emergency mode"),
     snd (enableEmergencyMode 5000 (new Examples.guarded))) /\
  exists s2,
    disableEmergencyMode (snd (enableEmergencyMode 5000 (new Examples.guarded))) =
      (Returned tt, s2) /\
    disableEmergencyMode s2 =
      (Threw (SecurityError "Emergency mode not active"), s2) /\
    enableEmergencyMode 5500 s2 =
      if 5500 - 5000 <? emergencyDelay (config (new Examples.guarded))
      then (Threw (SecurityError "Emergency mode cooldown period not elapsed"), s2)
      else (Returned tt,
            with_lastEmergencyTrigger 5500
              (snd (enableEmergencyMode 5000 (new Examples.guarded)))).
Proof.
  apply (emergency_switch Doubles.externals (new Examples.guarded) 5000
           (snd (enableEmergencyMode 5000 (new Examples.guarded))) 5500
           "0xAA" "0xBB" "5" "90" 6000).
  reflexivity.
Defined.

(** X16. The blacklist is matched on lower-cased addresses, on either side of
    a transfer: with the blacklist enabled and the system not in emergency
    mode, after [addToBlacklist a] every [validateTransaction] whose sender or
    recipient is a spelling [b] of [a] throws SecurityError 'Address is
    blacklisted' and changes nothing, and after [removeFromBlacklist b] the
    address [a] is no longer blacklisted. *)
Theorem blacklisted_address_is_refused E s a b other amount gasPrice now :
  blacklistEnabled (config s) = true -> emergencyMode s = false ->
  isAddress E a = true -> toLowerCase b = toLowerCase a ->
  exists s1,
    addToBlacklist E a s = (Returned tt, s1) /\
    validateTransaction E b other amount gasPrice now s1 =
      (Threw (SecurityError "Address is blacklisted"), s1) /\
    validateTransaction E other b amount gasPrice now s1 =
      (Threw (SecurityError "Address is blacklisted"), s1) /\
    fst (isBlacklisted a (snd (removeFromBlacklist b s1))) = Returned false.
Proof.
  intros Hb He Ha Hab. unfold addToBlacklist. run_method.
  rewrite Hb, Ha. simpl. eexists. split; [reflexivity|].
  rewrite !validateTransaction_cascade. simpl. rewrite He, Hb, Hab. simpl.
  rewrite (bool_decide_eq_true_2 (toLowerCase a ∈ _))
    by (apply elem_of_union_r; by apply elem_of_singleton).
  simpl. rewrite orb_true_r. split; [done|]. split; [done|].
  unfold isBlacklisted, removeFromBlacklist. run_method.
  rewrite bool_decide_eq_false_2; [done|].
  intros [_ Hn]%elem_of_difference. apply Hn. by apply elem_of_singleton.
Qed.

Lemma blacklisted_address_is_refused_witness :
  exists s1,
    addToBlacklist Doubles.externals "0xAb" (new Examples.guarded) =
      (Returned tt, s1) /\
    validateTransaction Doubles.externals "0XAB" "0xCC" "5" "90" 1000 s1 =
      (Threw (SecurityError "Address is blacklisted"), s1) /\
    validateTransaction Doubles.externals "0xCC" "0XAB" "5" "90" 1000 s1 =
      (Threw (SecurityError "Address is blacklisted"), s1) /\
    fst (isBlacklisted "0xAb" (snd (removeFromBlacklist "0XAB" s1))) =
      Returned false.
Proof.
  apply (blacklisted_address_is_refused Doubles.externals (new Examples.guarded)
           "0xAb" "0XAB" "0xCC" "5" "90" 1000); reflexivity.
Defined.

Lemma filter_of_filter {A} (p q : A -> bool) (l : list A) :
  (forall x, q x = true -> p x = true) ->
  List.filter q (List.filter p l) = List.filter q l.
Proof.
  intros Himp. induction l as [|x l IH]; [done|]. simpl.
  destruct (p x) eqn:Hp; simpl.
  - by rewrite IH.
  - rewrite IH. destruct (q x) eqn:Hq; [|done].
    apply Himp in Hq. congruence.
Qed.

(** X17. Pruning loses nothing a later check would count: a rate-limit check
    made for any address at time [now] does not change the answer of a check
    made for any address at a time [now'] not before [now]. *)
Theorem earlier_check_keeps_later_answer s a b now now' :
  now <= now' ->
  fst (checkRateLimit a now' (snd (checkRateLimit b now s))) =
  fst (checkRateLimit a now' s).
Proof.
  intros Hle. rewrite pruned_eq. unfold checkRateLimit. run_method.
  do 2 f_equal. f_equal. unfold history_of. simpl.
  destruct (decide (toLowerCase b = toLowerCase a)) as [Heq|Hne].
  - rewrite Heq, lookup_insert_eq. simpl. unfold recent, history_of.
    rewrite Heq, filter_of_filter; [done|].
    intros x Hx. apply Z.ltb_lt in Hx. apply Z.ltb_lt. lia.
  - by rewrite lookup_insert_ne.
Qed.

Lemma earlier_check_keeps_later_answer_witness :
  fst (checkRateLimit "0xAA" 70000
         (snd (checkRateLimit "0xaa" 65000
                 (snd (recordTransaction "0xAA" 1000
                         (new Examples.three_per_minute)))))) =
  fst (checkRateLimit "0xAA" 70000
         (snd (recordTransaction "0xAA" 1000 (new Examples.three_per_minute)))).
Proof.
  apply (earlier_check_keeps_later_answer
           (snd (recordTransaction "0xAA" 1000 (new Examples.three_per_minute)))
           "0xAA" "0xaa" 65000 70000).
  lia.
Defined.

End SecurityFacts.

(** ** [AvalancheBridge]: failures, records and the two status readers *)

Module AvalancheFacts.
Import AvalancheBridge Surface.

Ltac unfold_avalanche :=
  unfold avalanche_call, initialize, registerAsset, unregisterAsset, lockTokens,
    unlockTokens, mintTokens, burnTokens, processTransaction,
    getTransactionStatus, addValidator, removeValidator, pause, unpause,
    emergencyWithdraw, assign_transaction, not_registered, bridge_paused.

(** X18. Whatever the provider and the [ethers] functions answer or throw, a
    call on an [AvalancheBridge] that throws throws a BridgeError and leaves
    every field of the bridge as it was. *)
Theorem avalanche_failure_changes_nothing E c s e :
  fst (avalanche_call E c s) = Threw e ->
  snd (avalanche_call E c s) = s /\ exists m, e = BridgeError m.
Proof.
  destruct c; unfold_avalanche; run_method; intros H;
    repeat case_match; simplify_eq/=; split; try done; by eexists.
Qed.

Lemma avalanche_failure_changes_nothing_witness :
  snd (avalanche_call Doubles.externals
         (AProcessTransaction Examples.lock_100_hash (Threw (NotAnError "x")))
         Examples.avalanche_locked_100) = Examples.avalanche_locked_100 /\
  exists m,
    BridgeError "Failed to process transaction: Unknown error" = BridgeError m.
Proof.
  apply (avalanche_failure_changes_nothing Doubles.externals
           (AProcessTransaction Examples.lock_100_hash (Threw (NotAnError "x")))
           Examples.avalanche_locked_100).
  vm_compute. reflexivity.
Defined.

(** X19. The four cross-chain operations of an [AvalancheBridge] keep no
    balance: when one of them returns, the symbol is registered, the bridge is
    not paused, and all that changed is one entry of the ledger, now a PENDING
    record of the given symbol, amount and time from chain 'Avalanche' with no
    validator signatures. *)
Theorem transfer_files_one_pending_record E op sym amount now s :
  In op [lockTokens E; unlockTokens E; mintTokens E; burnTokens E] ->
  fst (op sym amount now s) = Returned tt ->
  is_Some (assets s !! sym) /\ paused s = false /\
  exists h tx,
    snd (op sym amount now s) = with_transactions (<[h := tx]> (transactions s)) s /\
    tx_symbol tx = sym /\ tx_amount tx = amount /\ tx_timestamp tx = now /\
    tx_sourceChain tx = "Avalanche"%string /\
    tx_status tx = PENDING /\ tx_validatorSignatures tx = [].
Proof.
  intros [<-|[<-|[<-|[<-|[]]]]]; unfold_avalanche; run_method;
    intros H; repeat case_match; simplify_eq/=;
    (split; [by eexists|]); (split; [done|]); by eexists _, _.
Qed.

Lemma transfer_files_one_pending_record_witness :
  let s := snd (registerAsset "USDC" "0xA" (Returned (6, "USD Coin"%string))
                  (new "0xBridge" (mkConfig "http://rpc" "43114" 25 21000))) in
  is_Some (assets s !! "USDC"%string) /\ paused s = false /\
  exists h tx,
    snd (burnTokens Doubles.externals "USDC" 5 3 s) =
      with_transactions (<[h := tx]> (transactions s)) s /\
    tx_symbol tx = "USDC"%string /\ tx_amount tx = 5 /\ tx_timestamp tx = 3 /\
    tx_sourceChain tx = "Avalanche"%string /\
    tx_status tx = PENDING /\ tx_validatorSignatures tx = [].
Proof.
  apply (transfer_files_one_pending_record Doubles.externals
           (burnTokens Doubles.externals) "USDC" 5 3
           (snd (registerAsset "USDC" "0xA" (Returned (6, "USD Coin"%string))
                   (new "0xBridge" (mkConfig "http://rpc" "43114" 25 21000))))).
  - simpl. tauto.
  - vm_compute. reflexivity.
Defined.

(** X20. The two readers of the chain agree: when [processTransaction] of a
    hash returns, the status it stored is LOCKED or FAILED, and
    [getTransactionStatus] of that hash, given the same receipt, returns that
    status and changes nothing. *)
Theorem processed_status_is_the_reported_one h receipt s s' :
  processTransaction h receipt s = (Returned tt, s') ->
  exists st,
    status_of s' h = Some st /\ (st = LOCKED \/ st = FAILED) /\
    getTransactionStatus h receipt s' = (Returned st, s').
Proof.
  unfold processTransaction, assign_transaction. run_method.
  destruct (paused s); [done|].
  destruct (transactions s !! h) as [tx|] eqn:Hh; [|done].
  destruct (TransactionStatus_eqb (tx_status tx) PENDING); simpl; [|done].
  destruct receipt as [[rc|]|e]; simpl; try done.
  case_bool_decide as Hrc; simpl; intros [= <-];
    unfold getTransactionStatus, status_of; run_method;
    rewrite lookup_alter_eq, Hh; simpl.
  - exists LOCKED. rewrite bool_decide_eq_true_2 by done. auto.
  - exists FAILED. rewrite bool_decide_eq_false_2 by done. auto.
Qed.

Lemma processed_status_is_the_reported_one_witness :
  exists st,
    status_of (snd (processTransaction Examples.lock_100_hash Examples.receipt_ok
                      Examples.avalanche_locked_100)) Examples.lock_100_hash
      = Some st /\
    (st = LOCKED \/ st = FAILED) /\
    getTransactionStatus Examples.lock_100_hash Examples.receipt_ok
      (snd (processTransaction Examples.lock_100_hash Examples.receipt_ok
              Examples.avalanche_locked_100)) =
    (Returned st,
     snd (processTransaction Examples.lock_100_hash Examples.receipt_ok
            Examples.avalanche_locked_100)).
Proof.
  apply (processed_status_is_the_reported_one Examples.lock_100_hash
           Examples.receipt_ok Examples.avalanche_locked_100).
  vm_compute. reflexivity.
Defined.

End AvalancheFacts.

(** ** [AvalancheCeloBridge] over the repository's registry and validator *)

Module CeloFacts.
Import AvalancheCeloBridge CeloTransfers Surface.

Ltac unfold_celo :=
  unfold call, addValidator, removeValidator, on_bridge, on_validator,
    registerAsset, unregisterAsset, lockTokens, unlockTokens, mintTokens,
    burnTokens, processTransaction, getTransactionStatus, pause, unpause,
    emergencyWithdraw, validateTransaction, on_assetManager,
    AssetManager.getAssetAddress, AssetManager.getLockedBalance,
    Validator.validateTransaction, not_initialized, paused_error.

(** X21. No transfer operation of [AvalancheCeloBridge] changes anything:
    [lockTokens], [unlockTokens], [mintTokens], [burnTokens] and
    [emergencyWithdraw] leave the bridge and its asset manager exactly as they
    were, whether they return or throw; no balance, daily total or nonce ever
    moves. *)
Theorem celo_transfers_change_nothing E sym amount b :
  snd (lockTokens E sym amount b) = b /\
  snd (unlockTokens E sym amount b) = b /\
  snd (mintTokens E sym amount b) = b /\
  snd (burnTokens E sym amount b) = b /\
  snd (emergencyWithdraw sym b) = b.
Proof.
  repeat split; unfold_celo; run_method; repeat case_match; simplify_eq/=;
    by destruct b.
Qed.

Lemma call_keeps_only_true E c vs :
  only_true (processedTransfers (snd vs)) ->
  only_true (processedTransfers (snd (snd (call E c vs)))).
Proof.
  intros Hm. destruct vs as [v b]. simpl in Hm.
  destruct c; unfold_celo;
    unfold initialize, addSupportedToken, AssetManager.registerAsset,
      AssetManager.unregisterAsset, on_bridge, on_validator, on_assetManager;
    run_method; repeat case_match; simplify_eq/=; try done.
  all: intros k x; destruct (decide (h = k)) as [->|Hne];
    [rewrite lookup_insert_eq; by intros [= <-]
    |rewrite lookup_insert_ne by done; apply Hm].
Qed.

(** X22. [processedTransfers] only ever holds the flag true, so the bridge
    never reports a pending transaction: after any sequence of calls on a new
    [AvalancheCeloBridge], whatever the provider answered, the hashes that
    [getPendingTransactions] returns are none. *)
Theorem celo_pending_is_always_empty E cs v am :
  pending (snd (run E cs (v, new am))) = ∅.
Proof.
  assert (H : only_true (processedTransfers (snd (run E cs (v, new am))))).
  { assert (G : only_true (processedTransfers (snd (v, new am))))
      by (intros k x; simpl; by rewrite lookup_empty).
    revert G. generalize (v, new am).
    induction cs as [|c cs IH]; intros vs G; simpl; [done|].
    by apply IH, call_keeps_only_true. }
  unfold pending. apply dom_empty_iff_L, map_empty_filter.
  intros k x Hk Hx. simpl in Hx. apply H in Hk. congruence.
Qed.

Ltac distinct := let H := fresh in intros H; vm_compute in H; discriminate H.
Ltac look :=
  repeat first [rewrite lookup_insert_eq | rewrite lookup_insert_ne by distinct].

Lemma registerAsset_ok am sym addr now :
  AssetManager.assets am !! sym = None ->
  AssetManager.tokenAddresses am !! addr = None ->
  AssetManager.registerAsset sym addr now am =
    (Returned tt,
     AssetManager.mk (<[sym := fresh_asset sym addr now]> (AssetManager.assets am))
                     (<[addr := sym]> (AssetManager.tokenAddresses am))).
Proof.
  intros Hs Ha. unfold AssetManager.registerAsset. run_method.
  rewrite Hs, Ha. rewrite !bool_decide_eq_false_2 by (by intros [? ?]). done.
Qed.

(** X23. With an active validator and a registry that knows none of the three
    default tokens, [initialize] on a bridge that is not initialized returns
    normally; afterwards the bridge is initialized, [isAssetSupported] is true
    for USDC, USDT and WBTC, and every further [initialize] throws
    BridgeError 'Failed to initialize bridge' and changes nothing. *)
Theorem initialize_on_free_registry tv t1 t2 t3 v b :
  Validator.active v = true -> isBridgeInitialized b = false ->
  defaults_free (assetManager b) ->
  exists vs',
    initialize tv t1 t2 t3 (v, b) = (Returned tt, vs') /\
    isBridgeInitialized (snd vs') = true /\
    Forall (fun sym => fst (isAssetSupported sym (snd vs')) = Returned true)
      ["USDC"; "USDT"; "WBTC"]%string /\
    forall tv' t1' t2' t3',
      initialize tv' t1' t2' t3' vs' =
        (Threw (BridgeError "Failed to initialize bridge"), vs').
Proof.
  intros Ha Hi [Hs Hd].
  rewrite !Forall_cons in Hs. destruct Hs as (Hs1 & Hs2 & Hs3 & _).
  rewrite !Forall_cons in Hd. destruct Hd as (Hd1 & Hd2 & Hd3 & _).
  unfold initialize, on_bridge, on_validator, on_assetManager, addSupportedToken,
    Validator.validateTransaction.
  unfold bind, get, modify, throw, ret, lift, try_catch.
  cbn -[AssetManager.registerAsset USDC USDT WBTC].
  rewrite Hi. cbn -[AssetManager.registerAsset USDC USDT WBTC].
  rewrite Ha. cbn -[AssetManager.registerAsset USDC USDT WBTC].
  rewrite registerAsset_ok by done.
  cbn -[AssetManager.registerAsset USDC USDT WBTC].
  rewrite registerAsset_ok by (simpl; by rewrite lookup_insert_ne).
  cbn -[AssetManager.registerAsset USDC USDT WBTC].
  rewrite registerAsset_ok by (simpl; by rewrite !lookup_insert_ne).
  cbn -[AssetManager.registerAsset USDC USDT WBTC].
  eexists. split; [reflexivity|]. split; [done|]. split.
  - unfold isAssetSupported, on_assetManager, AssetManager.getAssetAddress.
    run_method.
    repeat constructor; look; simpl; look; done.
  - intros tv' t1' t2' t3'. unfold initialize, on_bridge. run_method. done.
Qed.

Lemma initialize_on_free_registry_witness :
  exists vs',
    initialize 1 2 3 4 (Validator.new "0xV" 0, new AssetManager.empty) =
      (Returned tt, vs') /\
    isBridgeInitialized (snd vs') = true /\
    Forall (fun sym => fst (isAssetSupported sym (snd vs')) = Returned true)
      ["USDC"; "USDT"; "WBTC"]%string /\
    forall tv' t1' t2' t3',
      initialize tv' t1' t2' t3' vs' =
        (Threw (BridgeError "Failed to initialize bridge"), vs').
Proof.
  apply (initialize_on_free_registry 1 2 3 4 (Validator.new "0xV" 0)
           (new AssetManager.empty)).
  - reflexivity.
  - reflexivity.
  - split; repeat constructor.
Defined.

Lemma registerAsset_cases sym addr now am :
  (exists e, AssetManager.registerAsset sym addr now am = (Threw e, am) /\
             (is_Some (AssetManager.assets am !! sym) \/
              is_Some (AssetManager.tokenAddresses am !! addr))) \/
  (exists am', AssetManager.registerAsset sym addr now am = (Returned tt, am') /\
               is_Some (AssetManager.assets am' !! sym)).
Proof.
  unfold AssetManager.registerAsset. run_method.
  case_bool_decide as Hs; [left; eexists; split; [done|by left]|].
  case_bool_decide as Ha; [left; eexists; split; [done|by right]|].
  right. eexists. split; [done|]. simpl. rewrite lookup_insert_eq. by eexists.
Qed.

Lemma registerAsset_keeps sym addr now am k :
  is_Some (AssetManager.assets am !! k) ->
  is_Some (AssetManager.assets (snd (AssetManager.registerAsset sym addr now am)) !! k).
Proof.
  intros Hk. unfold AssetManager.registerAsset. run_method.
  repeat case_bool_decide; simpl; try done.
  destruct (decide (sym = k)) as [->|Hne].
  - rewrite lookup_insert_eq. by eexists.
  - by rewrite lookup_insert_ne.
Qed.

Lemma initialize_failure_sticks tv t1 t2 t3 v b e :
  isBridgeInitialized b = false ->
  fst (initialize tv t1 t2 t3 (v, b)) = Threw e ->
  e = BridgeError "Failed to initialize bridge" /\
  cannot_initialize (snd (initialize tv t1 t2 t3 (v, b))).
Proof.
  intros Hi.
  unfold initialize, on_bridge, on_validator, on_assetManager, addSupportedToken,
    Validator.validateTransaction, cannot_initialize.
  unfold bind, get, modify, throw, ret, lift, try_catch.
  cbn -[AssetManager.registerAsset USDC USDT WBTC].
  rewrite Hi. cbn -[AssetManager.registerAsset USDC USDT WBTC].
  destruct (Validator.active v) eqn:Ha;
    cbn -[AssetManager.registerAsset USDC USDT WBTC].
  2:{ intros [= <-]. rewrite Ha. auto. }
  destruct (registerAsset_cases "USDC" USDC t1 (assetManager b))
    as [(e1 & -> & Hor)|(am1 & -> & H1)];
    cbn -[AssetManager.registerAsset USDC USDT WBTC].
  { intros [= <-]. split; [done|]. split; [done|]. right. exact Hor. }
  pose proof (registerAsset_keeps "USDT" USDT t2 am1 "USDC" H1) as H2.
  destruct (AssetManager.registerAsset "USDT" USDT t2 am1) as [[[]|e2] am2];
    cbn -[AssetManager.registerAsset USDC USDT WBTC] in *.
  2:{ intros [= <-]. split; [done|]. split; [done|]. right. by left. }
  pose proof (registerAsset_keeps "WBTC" WBTC t3 am2 "USDC" H2) as H3.
  destruct (AssetManager.registerAsset "WBTC" WBTC t3 am2) as [[[]|e3] am3];
    cbn -[AssetManager.registerAsset USDC USDT WBTC] in *.
  2:{ intros [= <-]. split; [done|]. split; [done|]. right. by left. }
  done.
Qed.

Lemma call_keeps_cannot_initialize E c vs :
  cannot_initialize vs -> cannot_initialize (snd (call E c vs)).
Proof.
  destruct vs as [v b]. intros [Hi Hor]. simpl in Hi, Hor.
  destruct c; unfold_celo; run_method; rewrite ?Hi; simpl;
    try (split; [done|exact Hor]).
  unfold initialize, on_bridge, on_validator, on_assetManager, addSupportedToken,
    Validator.validateTransaction, cannot_initialize.
  unfold bind, get, modify, throw, ret, lift, try_catch.
  cbn -[AssetManager.registerAsset USDC USDT WBTC].
  rewrite Hi. cbn -[AssetManager.registerAsset USDC USDT WBTC].
  destruct (Validator.active v) eqn:Ha;
    cbn -[AssetManager.registerAsset USDC USDT WBTC].
  2:{ rewrite Ha. auto. }
  destruct Hor as [Hf|Hor]; [done|].
  destruct (registerAsset_cases "USDC" USDC t1 (assetManager b))
    as [(e1 & -> & _)|(am1 & Hreg & _)];
    cbn -[AssetManager.registerAsset USDC USDT WBTC].
  { split; [done|]. right. exact Hor. }
  exfalso. revert Hreg. unfold AssetManager.registerAsset. run_method.
  destruct Hor as [Hs|Hd].
  - by rewrite bool_decide_eq_true_2.
  - rewrite (bool_decide_eq_true_2 _ Hd). by case_bool_decide.
Qed.

(** X24. A failed [initialize] cannot be made good through the bridge: if
    [initialize] throws on a bridge that is not initialized, what it throws is
    BridgeError 'Failed to initialize bridge', and after any further sequence
    of bridge calls, [initialize] among them, the bridge is still not
    initialized. *)
Theorem failed_initialize_is_final E tv t1 t2 t3 v b e cs :
  isBridgeInitialized b = false ->
  fst (initialize tv t1 t2 t3 (v, b)) = Threw e ->
  e = BridgeError "Failed to initialize bridge" /\
  isBridgeInitialized (snd (run E cs (snd (initialize tv t1 t2 t3 (v, b))))) = false.
Proof.
  intros Hi He. destruct (initialize_failure_sticks _ _ _ _ _ _ _ Hi He) as [-> Hc].
  split; [done|]. revert Hc. generalize (snd (initialize tv t1 t2 t3 (v, b))).
  induction cs as [|c cs IH]; intros vs Hc; simpl.
  - by destruct Hc.
  - by apply IH, call_keeps_cannot_initialize.
Qed.

Lemma failed_initialize_is_final_witness :
  BridgeError "Failed to initialize bridge" =
  BridgeError "Failed to initialize bridge" /\
  isBridgeInitialized
    (snd (run Doubles.externals
            [Initialize 5 6 7 8; UnregisterAsset "USDC"; Initialize 9 10 11 12]
            (snd (initialize 1 2 3 4
                    (Validator.new "0xV" 0,
                     new (snd (AssetManager.registerAsset "USDT" "0xOther" 0
                                 AssetManager.empty))))))) = false.
Proof.
  apply (failed_initialize_is_final Doubles.externals 1 2 3 4
           (Validator.new "0xV" 0)
           (new (snd (AssetManager.registerAsset "USDT" "0xOther" 0
                        AssetManager.empty)))
           (BridgeError "Failed to initialize bridge")
           [Initialize 5 6 7 8; UnregisterAsset "USDC"; Initialize 9 10 11 12]).
  - reflexivity.
  - vm_compute. reflexivity.
Defined.

End CeloFacts.

(** ** [CrossChainOptimizer]: fees, the selected protocol, SKALE routes *)

Module OptimizerFacts.
Import Number CrossChainOptimizer Surface.

(** X25. The fee of a protocol is clamped: whenever [estimateProtocolFee]
    returns, the fee is at most [maxFee]; it is at least [minFee] when
    [minFee <= maxFee], and it is [maxFee] when the two bounds cross, the
    upper bound being applied last. *)
Theorem protocol_fee_is_clamped p tokenAddress fee :
  estimateProtocolFee p tokenAddress = Returned fee ->
  fee <= maxFee (feeStructure p) /\
  (minFee (feeStructure p) <= maxFee (feeStructure p) ->
   minFee (feeStructure p) <= fee) /\
  (maxFee (feeStructure p) < minFee (feeStructure p) ->
   fee = maxFee (feeStructure p)).
Proof.
  unfold estimateProtocolFee.
  destruct (to_bigint _) as [pa|]; simpl; [|done]. intros [= <-].
  repeat match goal with
    | |- context [?a <? ?b] => destruct (Z.ltb_spec a b)
    | |- context [?a >? ?b] => destruct (Z.gtb_spec a b)
    end; lia.
Qed.

Lemma protocol_fee_is_clamped_witness :
  (estimateProtocolFee Examples.capped "0xT" = Returned 5000 /\
   5000 <= maxFee (feeStructure Examples.capped)) /\
  (estimateProtocolFee Examples.floored "0xT" = Returned 200 /\
   minFee (feeStructure Examples.floored) <= 200) /\
  (estimateProtocolFee Examples.crossed "0xT" = Returned 1100 /\
   1100 = maxFee (feeStructure Examples.crossed)).
Proof.
  destruct (protocol_fee_is_clamped Examples.capped "0xT" 5000)
    as (Hcap & _ & _); [vm_compute; reflexivity|].
  destruct (protocol_fee_is_clamped Examples.floored "0xT" 200)
    as (_ & Hfloor & _); [vm_compute; reflexivity|].
  destruct (protocol_fee_is_clamped Examples.crossed "0xT" 1100)
    as (_ & _ & Hcross); [vm_compute; reflexivity|].
  split; [|split].
  - split; [vm_compute; reflexivity|exact Hcap].
  - split; [vm_compute; reflexivity|]. apply Hfloor. simpl. lia.
  - split; [vm_compute; reflexivity|]. apply Hcross. simpl. lia.
Defined.

Lemma fold_better_in rest : forall best,
  In (fold_left better rest best) (best :: rest).
Proof.
  induction rest as [|x rest IH]; intros best; simpl; [by left|].
  destruct (IH (better best x)) as [Heq|Hin].
  - rewrite <- Heq. unfold better.
    destruct (gt (score x) (score best)); [right; by left|by left].
  - right. by right.
Qed.

Lemma all_of_protocols tokenAddress ps : forall scored,
  all_of (score_protocol tokenAddress) ps = Returned scored ->
  map protocol scored = ps.
Proof.
  induction ps as [|p ps IH]; intros scored; simpl.
  - by intros [= <-].
  - unfold score_protocol at 1.
    destruct (estimateProtocolFee p tokenAddress); simpl; [|done].
    destruct (all_of _ ps) as [ys|]; simpl; [|done].
    intros [= <-]. simpl. by rewrite (IH ys).
Qed.

(** X26. What [selectOptimalProtocol] returns has passed its filter: the
    returned protocol is one of the protocols of the route on file for the two
    chains, its security level is at least the requested one and it supports
    the token, whatever the scores are. *)
Theorem selected_protocol_is_suitable bridgeRoutes fromChain toChain tokenAddress
    securityPreference p :
  selectOptimalProtocol bridgeRoutes fromChain toChain tokenAddress
    securityPreference = Returned p ->
  exists route,
    bridgeRoutes !! routeKey fromChain toChain = Some route /\
    In p (protocols route) /\
    level_value securityPreference <= level_value (securityLevel p) /\
    tokenAddress ∈ supportedTokens p.
Proof.
  unfold selectOptimalProtocol.
  destruct (bridgeRoutes !! routeKey fromChain toChain) as [route|]; [|done].
  destruct (_ =? _)%nat; [done|]. unfold select_among.
  destruct (all_of _ _) as [scored|] eqn:Hall; simpl; [|done].
  apply all_of_protocols in Hall.
  destruct scored as [|x rest]; simpl; [done|]. intros [= <-].
  assert (Hin : In (protocol (fold_left better rest x))
                  (List.filter (suitable tokenAddress securityPreference)
                     (protocols route))).
  { rewrite <- Hall. apply in_map, fold_better_in. }
  apply filter_In in Hin as [Hin Hs]. exists route. split; [done|].
  split; [done|]. unfold suitable in Hs. apply andb_true_iff in Hs as [Hl Ht].
  split; [by apply Z.leb_le|by apply bool_decide_eq_true in Ht].
Qed.

Lemma selected_protocol_is_suitable_witness :
  exists route,
    ({[routeKey 1 2 :=
         mkBridgeRoute 1 2 "0xB" ["0xT"%string] 0 (of_bigint 600)
           [Examples.slow; Examples.fast; Examples.fast_too]]}
       : gmap string BridgeRoute) !! routeKey 1 2 = Some route /\
    In Examples.fast (protocols route) /\
    level_value MEDIUM <= level_value (securityLevel Examples.fast) /\
    "0xT"%string ∈ supportedTokens Examples.fast.
Proof.
  apply (selected_protocol_is_suitable
           {[routeKey 1 2 :=
               mkBridgeRoute 1 2 "0xB" ["0xT"%string] 0 (of_bigint 600)
                 [Examples.slow; Examples.fast; Examples.fast_too]]}
           1 2 "0xT" MEDIUM Examples.fast).
  vm_compute. reflexivity.
Defined.

(** X27. Between two SKALE chains everything is free and instant: the bridge
    fee is 0 whatever the amount string is (it is not even parsed), the gas
    estimate is 0, the estimated time is 0, and the route offers exactly one
    protocol, of security level HIGH, time 0 and fee 0. *)
Theorem skale_to_skale_is_free E chainConfigs fromChain toChain fromConfig toConfig
    amount tokenAddress feeData gas :
  chainConfigs !! fromChain = Some fromConfig ->
  chainConfigs !! toChain = Some toConfig ->
  isSkale fromConfig = true -> isSkale toConfig = true ->
  estimateBridgeFee E chainConfigs fromChain toChain amount tokenAddress feeData
    = Returned 0 /\
  estimateGas chainConfigs fromChain toChain amount tokenAddress gas = Returned 0 /\
  calculateEstimatedTime chainConfigs fromChain toChain = of_bigint 0 /\
  exists p,
    getAvailableProtocols chainConfigs fromChain toChain = [p] /\
    securityLevel p = HIGH /\ estimatedTime p = of_bigint 0 /\
    estimateProtocolFee p tokenAddress = Returned 0.
Proof.
  intros Hf Ht Hsf Hst.
  unfold estimateBridgeFee, estimateGas, calculateEstimatedTime,
    getAvailableProtocols.
  rewrite Hf, Ht, Hsf, Hst. simpl. repeat split.
  eexists. split; [reflexivity|]. repeat split.
Qed.

Lemma skale_to_skale_is_free_witness :
  let skale := fun id => mkChainConfig id "http://s" true 0 None None None None None in
  let chainConfigs : gmap Z ChainConfig := {[1 := skale 1; 2 := skale 2]} in
  estimateBridgeFee Doubles.externals chainConfigs 1 2 "not a number" "0xT"
    (Threw (JsError "down")) = Returned 0 /\
  estimateGas chainConfigs 1 2 "not a number" "0xT" (Threw (JsError "down"))
    = Returned 0 /\
  calculateEstimatedTime chainConfigs 1 2 = of_bigint 0 /\
  exists p,
    getAvailableProtocols chainConfigs 1 2 = [p] /\
    securityLevel p = HIGH /\ estimatedTime p = of_bigint 0 /\
    estimateProtocolFee p "0xT" = Returned 0.
Proof.
  apply (skale_to_skale_is_free Doubles.externals
           {[1 := mkChainConfig 1 "http://s" true 0 None None None None None;
             2 := mkChainConfig 2 "http://s" true 0 None None None None None]}
           1 2
           (mkChainConfig 1 "http://s" true 0 None None None None None)
           (mkChainConfig 2 "http://s" true 0 None None None None None)
           "not a number" "0xT" (Threw (JsError "down")) (Threw (JsError "down")));
    reflexivity.
Defined.

Lemma congestion_of_unknown chainConfigs fromChain fromConfig feeData :
  chainConfigs !! fromChain = Some fromConfig ->
  congestion_unknown fromConfig feeData = true ->
  to_bigint (max (of_bigint 1)
               (getNetworkCongestion chainConfigs fromChain feeData)) = Returned 1.
Proof.
  intros Hf. unfold congestion_unknown, getNetworkCongestion. rewrite Hf.
  destruct (isSkale fromConfig); simpl; [reflexivity|].
  destruct feeData as [[price|]|e]; simpl; try reflexivity.
  - intros ->. reflexivity.
  - intros _. by destruct (gasPrice fromConfig =? 0).
Qed.

(** X28. When nothing is learnt about congestion (the source is a SKALE
    chain, the provider fails or reports no gas price, or the configured gas
    price is zero) and the two chains are not both SKALE chains,
    [estimateBridgeFee] is a thousandth of the amount, rounded toward zero. *)
Theorem bridge_fee_without_congestion E chainConfigs fromChain toChain fromConfig
    toConfig amount a tokenAddress feeData :
  chainConfigs !! fromChain = Some fromConfig ->
  chainConfigs !! toChain = Some toConfig ->
  isSkale fromConfig && isSkale toConfig = false ->
  congestion_unknown fromConfig feeData = true ->
  BigInt_of_string E amount = Returned a ->
  estimateBridgeFee E chainConfigs fromChain toChain amount tokenAddress feeData
    = Returned (Z.quot a 1000).
Proof.
  intros Hf Ht Hs Hc Ha. unfold estimateBridgeFee.
  rewrite Hf, Ht, Hs, Ha. cbn [obind].
  rewrite (congestion_of_unknown _ _ _ _ Hf Hc). simpl. f_equal. lia.
Qed.

Lemma bridge_fee_without_congestion_witness :
  estimateBridgeFee Doubles.externals
    {[1 := mkChainConfig 1 "http://a" false 25 None None None None None;
      2 := mkChainConfig 2 "http://s" true 0 None None None None None]}
    1 2 "123999" "0xT" (Threw (JsError "down")) = Returned (Z.quot 123999 1000).
Proof.
  apply (bridge_fee_without_congestion Doubles.externals
           {[1 := mkChainConfig 1 "http://a" false 25 None None None None None;
             2 := mkChainConfig 2 "http://s" true 0 None None None None None]}
           1 2
           (mkChainConfig 1 "http://a" false 25 None None None None None)
           (mkChainConfig 2 "http://s" true 0 None None None None None)
           "123999" 123999 "0xT" (Threw (JsError "down")));
    reflexivity.
Defined.

End OptimizerFacts.

(** ** [SkaleOptimizer]: cutting a list of transfers into batches *)

Module BatchFacts.
Import SkaleOptimizer.

Lemma slice_window {A} (l : list A) (n k : nat) :
  slice l (Z.of_nat n) (Z.of_nat n + Z.of_nat k) =
  take (Nat.min (n + k) (length l) - Nat.min n (length l))
       (drop (Nat.min n (length l)) l).
Proof.
  unfold slice.
  destruct (Z.ltb_spec (Z.of_nat n) 0); [lia|].
  destruct (Z.ltb_spec (Z.of_nat n + Z.of_nat k) 0); [lia|].
  f_equal; [lia|]. f_equal. lia.
Qed.

Lemma batches_from (k : nat) (l : list OptimizedTransfer) :
  (0 < k)%nat ->
  forall fuel n acc,
    (length l - n < fuel)%nat ->
    exists bs,
      createBatches_from fuel (Z.of_nat k) l (Z.of_nat n) acc = Some (acc ++ bs) /\
      concat bs = drop n l /\
      Forall (fun b => (0 < length b <= k)%nat) bs.
Proof.
  intros Hk. induction fuel as [|fuel IH]; intros n acc Hfuel; [lia|].
  cbn [createBatches_from].
  destruct (Z.ltb_spec (Z.of_nat n) (Z.of_nat (length l))) as [Hlt|Hge].
  - rewrite slice_window.
    replace (Z.of_nat n + Z.of_nat k) with (Z.of_nat (n + k)) by lia.
    destruct (IH (n + k)%nat
                (acc ++ [take (Nat.min (n + k) (length l) - Nat.min n (length l))
                           (drop (Nat.min n (length l)) l)]))
      as (bs & Hrun & Hcat & Hall); [lia|].
    eexists (_ :: bs). split; [|split].
    + rewrite Hrun. by rewrite <- app_assoc.
    + simpl. rewrite Hcat.
      replace (Nat.min n (length l)) with n by lia.
      destruct (Nat.le_gt_cases (n + k) (length l)) as [Hle|Hgt].
      * replace (Nat.min (n + k) (length l) - n)%nat with k by lia.
        rewrite <- drop_drop. apply take_drop.
      * rewrite (drop_ge l (n + k)) by lia. rewrite app_nil_r.
        apply take_ge. rewrite length_drop. lia.
    + constructor; [|done]. rewrite length_take, length_drop. lia.
  - exists []. rewrite app_nil_r. split; [done|]. split; [|done].
    simpl. symmetry. apply drop_ge. lia.
Qed.

Lemma configured_batch_size_positive configured :
  0 <= configured -> 0 < configured_batch_size configured.
Proof.
  intros H. unfold configured_batch_size, MAX_BATCH_SIZE.
  destruct (Z.eqb_spec configured 0); lia.
Qed.

(** X29. With a configured batch size that is not negative (zero standing
    for the default of 50), [createBatches] returns after at most one test of
    the loop condition per transfer plus one, and its batches are a partition
    of the input in order: concatenated they give back the transfers, none is
    empty and none is longer than the batch size. *)
Theorem createBatches_partitions configured transfers :
  0 <= configured ->
  let maxBatchSize := configured_batch_size configured in
  exists batches,
    createBatches (S (length transfers)) maxBatchSize transfers = Some batches /\
    concat batches = transfers /\
    Forall (fun b => 0 < Z.of_nat (length b) <= maxBatchSize) batches.
Proof.
  intros Hpos%configured_batch_size_positive maxBatchSize.
  fold maxBatchSize in Hpos. clearbody maxBatchSize. unfold createBatches.
  destruct (batches_from (Z.to_nat maxBatchSize) transfers ltac:(lia)
              (S (length transfers)) 0%nat [] ltac:(lia))
    as (bs & Hrun & Hcat & Hall).
  rewrite Z2Nat.id in Hrun by lia. exists bs. split; [exact Hrun|].
  split; [exact Hcat|]. eapply Forall_impl; [exact Hall|].
  intros b Hb. simpl in Hb. lia.
Qed.

Lemma createBatches_partitions_witness :
  let t := fun a => mkOptimizedTransfer "0xF" "0xT" a "0xK" 0 (Number.of_bigint 1) in
  let maxBatchSize := configured_batch_size 2 in
  exists batches,
    createBatches 6 maxBatchSize [t "1"; t "2"; t "3"; t "4"; t "5"]%string
      = Some batches /\
    concat batches = [t "1"; t "2"; t "3"; t "4"; t "5"]%string /\
    Forall (fun b => 0 < Z.of_nat (length b) <= maxBatchSize) batches.
Proof.
  intros t. apply (createBatches_partitions 2
                     [t "1"; t "2"; t "3"; t "4"; t "5"]%string).
  lia.
Defined.

Lemma loop_never_ends maxBatchSize (l : list OptimizedTransfer) :
  maxBatchSize <= 0 -> l <> [] ->
  forall fuel i acc, i <= 0 -> createBatches_from fuel maxBatchSize l i acc = None.
Proof.
  intros Hsize Hl. induction fuel as [|fuel IH]; intros i acc Hi; [done|].
  cbn [createBatches_from].
  destruct (Z.ltb_spec i (Z.of_nat (length l))) as [Hlt|Hge].
  - apply IH. lia.
  - destruct l; [done|]. simpl in Hge. lia.
Qed.

(** X30. With a negative configured batch size, [createBatches] never
    returns on a non-empty list of transfers: the loop index never reaches
    the length, whatever the number of iterations allowed. *)
Theorem createBatches_diverges configured transfers fuel :
  configured < 0 -> transfers <> [] ->
  createBatches fuel (configured_batch_size configured) transfers = None.
Proof.
  intros Hsize Hl. unfold createBatches. apply loop_never_ends; [|done|done].
  unfold configured_batch_size. destruct (Z.eqb_spec configured 0); lia.
Qed.

Lemma createBatches_diverges_witness :
  createBatches 1000 (configured_batch_size (-1))
    [mkOptimizedTransfer "0xF" "0xT" "1" "0xK" 0 (Number.of_bigint 1)] = None.
Proof.
  apply (createBatches_diverges (-1)
           [mkOptimizedTransfer "0xF" "0xT" "1" "0xK" 0 (Number.of_bigint 1)]
           1000).
  - lia.
  - discriminate.
Defined.

End BatchFacts.
